(** * Solaar: settings templates, the settings catalog and feature negotiation

    A shallow embedding of [lib/logitech_receiver/settings_templates.py]:
    the setting templates, the validator callbacks that query the device
    (DPI list, multiplatform descriptors, ...), the smart-shift
    reader/writer, the table [_SETTINGS_TABLE] and the negotiation functions
    [check_feature], [check_feature_settings] and [check_feature_setting].

    Python values are modelled as follows.
    - [bytes] is a list of integers in [0, 256).
    - A call that may raise returns a [result]; [None] is [option]'s [None].
    - The functions that log or call a setting constructor run in the monad
      [M], which threads a trace of events next to the result.
    - The tables [hidpp20.FEATURE] and [hidpp10.REGISTERS] are defined
      outside this module; their numbers are taken as the records [FEATURE]
      and [REGISTERS]. *)

From Stdlib Require Import ZArith List String Ascii Bool Lia QArith DecimalString.
Import ListNotations.
Local Open Scope string_scope.
Local Open Scope Z_scope.
Local Open Scope list_scope.

(** ** Exceptions and results *)

Inductive exn : Type :=
| AssertionError (msg : string)
| TypeError
| IndexError
| struct_error
| DeviceError (msg : string).

Inductive result (A : Type) : Type :=
| Ok (a : A)
| Raise (e : exn).

Arguments Ok {A} a.
Arguments Raise {A} e.

Definition rbind {A B : Type} (m : result A) (k : A -> result B) : result B :=
  match m with
  | Ok a => k a
  | Raise e => Raise e
  end.

Notation "x <- m ;; k" := (rbind m (fun x => k))
  (at level 61, m at next level, right associativity).

(** [assert cond, msg] *)
Definition py_assert (cond : bool) (msg : string) : result unit :=
  if cond then Ok tt else Raise (AssertionError msg).

(** ** Python built-ins used by the module *)

Definition bytes := list Z.

(** [b[i:j]] for [0 <= i <= j] *)
Definition slice {A : Type} (b : list A) (i j : nat) : list A :=
  firstn (j - i) (skipn i b).

(** [str(n)] for an integer *)
Definition str (n : Z) : string := NilZero.string_of_int (Z.to_int n).

(** [range(start, stop, step)] for a positive [step]: it has
    [ceil((stop - start) / step)] elements when [start < stop], none
    otherwise. *)
Definition py_range (start stop step : Z) : list Z :=
  map (fun k => start + Z.of_nat k * step)
      (seq 0 (Z.to_nat ((stop - start + step - 1) / step))).

(** The [repr] of a list of integers, as [%r] prints it. *)
Fixpoint join (sep : string) (l : list string) : string :=
  match l with
  | [] => ""
  | [x] => x
  | x :: rest => (x ++ sep ++ join sep rest)%string
  end.

Definition repr_list (l : list Z) : string :=
  ("[" ++ join ", " (map str l) ++ "]")%string.

(** ** Helpers of [logitech_receiver.common] *)

(** Modelled from the spec: [common.bytes2int] is not part of this module;
    the codecs "use big-endian unsigned integers". *)
Definition _bytes2int (x : bytes) : Z :=
  fold_left (fun acc b => acc * 256 + b) x 0.

(** Modelled from the spec: [common.int2bytes] is not part of this module;
    the big-endian encoding of [x] on [count] bytes. *)
Fixpoint _int2bytes (x : Z) (count : nat) : bytes :=
  match count with
  | O => []
  | S n => _int2bytes (x / 256) n ++ [x mod 256]
  end.

(** The fields of a [struct] format in network byte order. *)
Inductive fmt : Type := fmt_B | fmt_H.

Definition fmt_size (f : fmt) : nat :=
  match f with fmt_B => 1%nat | fmt_H => 2%nat end.

Fixpoint unpack_fields (f : list fmt) (b : bytes) : list Z :=
  match f with
  | [] => []
  | x :: f' => _bytes2int (firstn (fmt_size x) b) :: unpack_fields f' (skipn (fmt_size x) b)
  end.

(** Modelled from the spec: [common.unpack] is not part of this module; it is
    [struct.unpack], which reads big-endian unsigned fields and raises when
    the buffer does not have the size of the format. *)
Definition _unpack (f : list fmt) (b : bytes) : result (list Z) :=
  if (List.length b =? fold_right (fun x n => fmt_size x + n) 0 f)%nat
  then Ok (unpack_fields f b)
  else Raise struct_error.

(** A [NamedInt]: an integer with a name. *)
Record NamedInt : Type := mkNamedInt { ni_value : Z; ni_name : string }.

(** Modelled from the spec: [common.NamedInts] is not part of this module;
    "a finite ordered set of named integer values". The model keeps the
    entries in the order they were given. *)
Record NamedInts : Type := mkNamedInts { ni_values : list NamedInt }.

Definition NamedInts_empty : NamedInts := mkNamedInts [].

(** [NamedInts.list(items)]: every integer named by its decimal form. *)
Definition NamedInts_list (items : list Z) : NamedInts :=
  mkNamedInts (map (fun x => mkNamedInt x (str x)) items).

(** [value in choices] for an integer *)
Definition NamedInts_contains_int (value : Z) (c : NamedInts) : bool :=
  existsb (fun n => ni_value n =? value) (ni_values c).

(** [value in choices] for a string *)
Definition NamedInts_contains_str (value : string) (c : NamedInts) : bool :=
  existsb (fun n => String.eqb (ni_name n) value) (ni_values c).

(** [choices[index] = name] *)
Definition NamedInts_setitem (c : NamedInts) (index : Z) (name : string) : NamedInts :=
  mkNamedInts (ni_values c ++ [mkNamedInt index name]).

(** The truth value of a [NamedInts]: it has an entry. *)
Definition NamedInts_bool (c : NamedInts) : bool :=
  match ni_values c with [] => false | _ => true end.

(** ** The tables of feature and register numbers *)

(** The entries of [hidpp20.FEATURE] the module names ([_F]). *)
Record FEATURE : Type := mkFEATURE {
  HI_RES_SCROLLING : Z;
  LOWRES_WHEEL : Z;
  HIRES_WHEEL : Z;
  FN_INVERSION : Z;
  NEW_FN_INVERSION : Z;
  K375S_FN_INVERSION : Z;
  ADJUSTABLE_DPI : Z;
  POINTER_SPEED : Z;
  SMART_SHIFT : Z;
  BACKLIGHT2 : Z;
  REPROG_CONTROLS_V4 : Z;
  KEYBOARD_DISABLE_KEYS : Z;
  MULTIPLATFORM : Z;
  DUALPLATFORM : Z;
  CHANGE_HOST : Z;
  THUMB_WHEEL : Z;
  GESTURE_2 : Z
}.

(** The entries of [hidpp10.REGISTERS] the module names ([_R]). *)
Record REGISTERS : Type := mkREGISTERS {
  keyboard_hand_detection : Z;
  keyboard_fn_swap : Z;
  mouse_button_flags : Z;
  mouse_dpi : Z
}.

(** [hidpp10.DEVICE_KIND] ([_DK]) *)
Inductive DEVICE_KIND : Type := keyboard | mouse | trackball | touchpad.

(** ** The device *)

(** A key of [device.keys] *)
Record ReprogKey : Type := mkReprogKey { key : Z; remappable_to : list Z }.

(** A gesture and a parameter of [hidpp20.get_gestures(device)] *)
Record Gesture : Type := mkGesture {
  gesture : Z; can_be_enabled : bool; default_enabled : bool }.

Record Param : Type := mkParam { param : Z; sub_params : list string }.

(** What the module reads of a device. [feature_request feature function
    params] is [device.feature_request(feature, function, *params)]: the
    reply, [None] when the device did not answer, or an exception. *)
Record Device : Type := mkDevice {
  features : option (list Z);
  online : bool;
  protocol : option Q;
  feature_request : Z -> Z -> bytes -> result (option bytes);
  keys : list ReprogKey;
  get_host_names : option (list (Z * (bool * string)));
  get_gestures : result (list Gesture * list Param)
}.

(** The truth value of [bytes] or [None]: a non-empty reply. *)
Definition reply_bool (reply : option bytes) : bool :=
  match reply with
  | Some (_ :: _) => true
  | _ => false
  end.

(** ** Validators and reader/writers ([logitech_receiver.settings]) *)

(** A raw value given as an integer or as a byte string *)
Inductive raw : Type := raw_int (n : Z) | raw_bytes (b : bytes).

(** The validators, with the arguments the templates pass; an argument left
    to its default is [None]. *)
Inductive Validator : Type :=
| _BooleanV (true_value false_value mask : option raw)
| _RangeV (min_value max_value : Z) (byte_count : Z)
| _ChoicesV (choices : option NamedInts) (byte_count read_skip_byte_count : option Z)
    (write_prefix_bytes : option bytes)
| _ChoicesMapV (choices : list (Z * list Z))
    (key_byte_count byte_count read_skip_byte_count : Z)
    (write_prefix_bytes : bytes) (extra_default : Z)
| _BitFieldV (options : list Z)
| _BitFieldOMV (options : list Gesture)
| _MultipleRangeV (items : list Param) (sub_items : list (Param * list string)).

(** The reader/writers. [_FeatureRW feature read_fnid write_fnid no_reply]
    has the defaults [read_fnid = 0x00], [write_fnid = 0x10] and
    [no_reply = False], written out at each use. *)
Inductive RW : Type :=
| _RegisterRW (register : Z)
| _FeatureRW (feature read_fnid write_fnid : Z) (no_reply : bool)
| _FeatureRWMap (feature read_fnid write_fnid key_byte_count : Z)
| _SmartShiftRW (feature : Z).

(** Modelled from the spec: [settings.FeatureRW.read] is not part of this
    module; the feature adapter reads with "a feature identifier plus a
    function selector", through the transport. *)
Definition FeatureRW_read (feature read_fnid : Z) (device : Device) : result (option bytes) :=
  feature_request device feature read_fnid [].

(** Modelled from the spec: [settings.FeatureRW.write] is not part of this
    module; the feature adapter writes the data with the write function of
    the feature. *)
Definition FeatureRW_write (feature write_fnid : Z) (device : Device) (data_bytes : bytes)
  : result (option bytes) :=
  feature_request device feature write_fnid data_bytes.

(** ** Settings *)

(** What a validator callback returns: [None], the empty list, or a
    validator. *)
Inductive CallbackReturn : Type :=
| ret_None
| ret_empty_list
| ret_validator (v : Validator).

(** The setting classes of [logitech_receiver.settings] *)
Inductive SettingClass : Type :=
| _Setting | _Settings | _BitFieldSetting | _BitFieldOMSetting | _LongSettings.

(** A setting: its class, the strings of its name triple, its reader/writer,
    its validator or its callback, and its keyword arguments. The label
    tables that some templates attach to a setting ([s._labels]) only hold
    display text and are left out. *)
Record Setting : Type := mkSetting {
  setting_class : SettingClass;
  name : string;
  label : string;
  description : option string;
  _rw : RW;
  _validator : option Validator;
  _callback : option (Device -> result CallbackReturn);
  device_kind : option (list DEVICE_KIND);
  persist : bool
}.

Definition name_triple : Type := (string * string * option string)%type.

(** [cls(name, rw, validator, callback=..., device_kind=..., persist=...)] *)
Definition new_setting (cls : SettingClass) (n : name_triple) (rw : RW)
    (validator : option Validator) (callback : option (Device -> result CallbackReturn))
    (device_kind : option (list DEVICE_KIND)) (persist : bool) : Setting :=
  let '(n0, n1, n2) := n in
  mkSetting cls n0 n1 n2 rw validator callback device_kind persist.

Definition with_validator (s : Setting) (v : Validator) : Setting :=
  mkSetting (setting_class s) (name s) (label s) (description s) (_rw s)
            (Some v) (_callback s) (device_kind s) (persist s).

(** Modelled from the spec: [settings.Setting.__call__] is not part of this
    module. A setting with a static validator is bound to the device as it
    is; a setting with a callback runs it on the device, and "the callback
    returns either a ready Codec or a not-applicable signal (absence of
    optional capability, no Codec, the setting is dropped for this device)".
    The header comment of the module says the same: "If the callback
    function returns None the setting is not created for the device." An
    exception of the callback leaves the call. *)
Definition Setting_call (s : Setting) (device : Device) : result (option Setting) :=
  match _callback s with
  | None => Ok (Some s)
  | Some callback =>
      r <- callback device ;;
      match r with
      | ret_validator v => Ok (Some (with_validator s v))
      | ret_None | ret_empty_list => Ok None
      end
  end.

(** ** Common strings for settings: name, label, tool tip *)

Definition nl : string := String "010"%char EmptyString.

Definition _HAND_DETECTION : name_triple :=
  ("hand-detection", "Hand Detection",
   Some "Turn on illumination when the hands hover over the keyboard.").
Definition _SMOOTH_SCROLL : name_triple :=
  ("smooth-scroll", "Smooth Scrolling",
   Some "High-sensitivity mode for vertical scroll with the wheel.").
Definition _SIDE_SCROLL : name_triple :=
  ("side-scroll", "Side Scrolling",
   Some ("When disabled, pushing the wheel sideways sends custom button events" ++ nl ++
         "instead of the standard side-scrolling events.")%string).
Definition _HI_RES_SCROLL : name_triple :=
  ("hi-res-scroll", "High Resolution Scrolling",
   Some "High-sensitivity mode for vertical scroll with the wheel.").
Definition _LOW_RES_SCROLL : name_triple :=
  ("lowres-smooth-scroll", "HID++ Scrolling",
   Some ("HID++ mode for vertical scroll with the wheel." ++ nl ++
         "Effectively turns off wheel scrolling in Linux.")%string).
Definition _HIRES_INV : name_triple :=
  ("hires-smooth-invert", "High Resolution Wheel Invert",
   Some "High-sensitivity wheel invert direction for vertical scroll.").
Definition _HIRES_RES : name_triple :=
  ("hires-smooth-resolution", "Wheel Resolution",
   Some "High-sensitivity mode for vertical scroll with the wheel.").
Definition _FN_SWAP : name_triple :=
  ("fn-swap", "Swap Fx function",
   Some ("When set, the F1..F12 keys will activate their special function," ++ nl ++
         "and you must hold the FN key to activate their standard function." ++ nl ++ nl ++
         "When unset, the F1..F12 keys will activate their standard function," ++ nl ++
         "and you must hold the FN key to activate their special function.")%string).
Definition _DPI : name_triple := ("dpi", "Sensitivity (DPI)", None).
Definition _POINTER_SPEED : name_triple :=
  ("pointer_speed", "Sensitivity (Pointer Speed)",
   Some "Speed multiplier for mouse (256 is normal multiplier).").
Definition _SMART_SHIFT : name_triple :=
  ("smart-shift", "Smart Shift",
   Some ("Automatically switch the mouse wheel between ratchet and freespin mode." ++ nl ++
         "The mouse wheel is always free at 0, and always locked at 50")%string).
Definition _BACKLIGHT : name_triple :=
  ("backlight", "Backlight", Some "Turn illumination on or off on keyboard.").
Definition _REPROGRAMMABLE_KEYS : name_triple :=
  ("reprogrammable-keys", "Actions",
   Some ("Change the action for the key or button." ++ nl ++
         "Changing important actions (such as for the left mouse button) can result in an unusable system.")%string).
Definition _DISABLE_KEYS : name_triple :=
  ("disable-keyboard-keys", "Disable keys", Some "Disable specific keyboard keys.").
Definition _PLATFORM : name_triple :=
  ("multiplatform", "Set OS", Some "Change keys to match OS.").
Definition _CHANGE_HOST : name_triple :=
  ("change-host", "Change Host", Some "Switch connection to a different host").
Definition _THUMB_SCROLL_MODE : name_triple :=
  ("thumb-scroll-mode", "HID++ Thumb Scrolling",
   Some ("HID++ mode for horizontal scroll with the thumb wheel." ++ nl ++
         "Effectively turns off thumb scrolling in Linux.")%string).
Definition _THUMB_SCROLL_INVERT : name_triple :=
  ("thumb-scroll-invert", "Thumb Scroll Invert", Some "Invert thumb scroll direction.").
Definition _GESTURE2_GESTURES : name_triple :=
  ("gesture2-gestures", "Gestures", Some "Tweaks the mouse/touchpad behaviour.").
Definition _GESTURE2_PARAMS : name_triple :=
  ("gesture2-params", "Gesture params",
   Some "Changes numerical parameters of a mouse/touchpad.").

(** ** Setting templates *)

Section Templates.

(** [_F = hidpp20.FEATURE], [_R = hidpp10.REGISTERS]; the name of the local
    machine, [socket.gethostname()]; and whether the module's logger is
    enabled for [DEBUG]. *)
Variable _F : FEATURE.
Variable _R : REGISTERS.
Variable gethostname : string.
Variable _log_isEnabledFor_DEBUG : bool.

Definition _register_hand_detection (_ : unit) : Setting :=
  let validator := _BooleanV (Some (raw_bytes [0x00; 0x00; 0x00]))
                             (Some (raw_bytes [0x00; 0x00; 0x30]))
                             (Some (raw_bytes [0x00; 0x00; 0xFF])) in
  new_setting _Setting _HAND_DETECTION (_RegisterRW (keyboard_hand_detection _R))
              (Some validator) None (Some [keyboard]) true.

Definition _register_fn_swap (_ : unit) : Setting :=
  let validator := _BooleanV (Some (raw_bytes [0x00; 0x01])) None
                             (Some (raw_bytes [0x00; 0x01])) in
  new_setting _Setting _FN_SWAP (_RegisterRW (keyboard_fn_swap _R))
              (Some validator) None (Some [keyboard]) true.

Definition _register_smooth_scroll (_ : unit) : Setting :=
  let validator := _BooleanV (Some (raw_int 0x40)) None (Some (raw_int 0x40)) in
  new_setting _Setting _SMOOTH_SCROLL (_RegisterRW (mouse_button_flags _R))
              (Some validator) None (Some [mouse; trackball]) true.

Definition _register_side_scroll (_ : unit) : Setting :=
  let validator := _BooleanV (Some (raw_int 0x02)) None (Some (raw_int 0x02)) in
  new_setting _Setting _SIDE_SCROLL (_RegisterRW (mouse_button_flags _R))
              (Some validator) None (Some [mouse; trackball]) true.

Definition _register_dpi (choices : option NamedInts) : Setting :=
  new_setting _Setting _DPI (_RegisterRW (mouse_dpi _R))
              (Some (_ChoicesV choices None None None)) None (Some [mouse; trackball]) true.

Definition _feature_fn_swap (_ : unit) : Setting :=
  new_setting _Setting _FN_SWAP (_FeatureRW (FN_INVERSION _F) 0x00 0x10 false)
              (Some (_BooleanV None None None)) None (Some [keyboard]) true.

Definition _feature_new_fn_swap (_ : unit) : Setting :=
  new_setting _Setting _FN_SWAP (_FeatureRW (NEW_FN_INVERSION _F) 0x00 0x10 false)
              (Some (_BooleanV None None None)) None (Some [keyboard]) true.

Definition _feature_k375s_fn_swap (_ : unit) : Setting :=
  let validator := _BooleanV (Some (raw_bytes [0xFF; 0x01])) (Some (raw_bytes [0xFF; 0x00])) None in
  new_setting _Setting _FN_SWAP (_FeatureRW (K375S_FN_INVERSION _F) 0x00 0x10 false)
              (Some validator) None (Some [keyboard]) true.

Definition _feature_backlight2 (_ : unit) : Setting :=
  new_setting _Setting _BACKLIGHT (_FeatureRW (BACKLIGHT2 _F) 0x00 0x10 false)
              (Some (_BooleanV None None None)) None (Some [keyboard]) true.

Definition _feature_hi_res_scroll (_ : unit) : Setting :=
  new_setting _Setting _HI_RES_SCROLL (_FeatureRW (HI_RES_SCROLLING _F) 0x00 0x10 false)
              (Some (_BooleanV None None None)) None (Some [mouse; trackball]) true.

Definition _feature_lowres_smooth_scroll (_ : unit) : Setting :=
  new_setting _Setting _LOW_RES_SCROLL (_FeatureRW (LOWRES_WHEEL _F) 0x00 0x10 false)
              (Some (_BooleanV None None None)) None (Some [mouse; trackball]) true.

Definition _feature_hires_smooth_invert (_ : unit) : Setting :=
  let rw := _FeatureRW (HIRES_WHEEL _F) 0x10 0x20 false in
  let validator := _BooleanV (Some (raw_int 0x04)) None (Some (raw_int 0x04)) in
  new_setting _Setting _HIRES_INV rw (Some validator) None (Some [mouse; trackball]) true.

Definition _feature_hires_smooth_resolution (_ : unit) : Setting :=
  let rw := _FeatureRW (HIRES_WHEEL _F) 0x10 0x20 false in
  let validator := _BooleanV (Some (raw_int 0x02)) None (Some (raw_int 0x02)) in
  new_setting _Setting _HIRES_RES rw (Some validator) None (Some [mouse; trackball]) true.

(** *** Smart shift *)

Definition _MIN_SMART_SHIFT_VALUE : Z := 0.
Definition _MAX_SMART_SHIFT_VALUE : Z := 50.

(** What [_SmartShiftRW.read] returns for the reply [value] of the feature
    reader. *)
Definition _SmartShiftRW_read_value (value : bytes) : bytes :=
  if _bytes2int (slice value 0 1) =? 1 then
    (* Mode = Freespin, map to minimum *)
    _int2bytes _MIN_SMART_SHIFT_VALUE 1
  else
    (* Mode = smart shift, map to the value, capped at maximum *)
    let threshold := Z.min (_bytes2int (slice value 1 2)) _MAX_SMART_SHIFT_VALUE in
    _int2bytes threshold 1.

(** [_SmartShiftRW.read]; slicing [None] raises. *)
Definition _SmartShiftRW_read (feature : Z) (device : Device) : result bytes :=
  value <- FeatureRW_read feature 0x00 device ;;
  match value with
  | None => Raise TypeError
  | Some value => Ok (_SmartShiftRW_read_value value)
  end.

(** The record [data] that [_SmartShiftRW.write] builds from [data_bytes]. *)
Definition _SmartShiftRW_write_data (data_bytes : bytes) : bytes :=
  let threshold := _bytes2int data_bytes in
  (* Freespin at minimum *)
  let mode := if threshold =? _MIN_SMART_SHIFT_VALUE then 1 else 2 in
  (* Ratchet at maximum *)
  let threshold := if threshold =? _MAX_SMART_SHIFT_VALUE then 255 else threshold in
  _int2bytes mode 1 ++ (_int2bytes threshold 1 ++ _int2bytes threshold 1).

(** [_SmartShiftRW.write]: the record goes to the feature writer. *)
Definition _SmartShiftRW_write (feature : Z) (device : Device) (data_bytes : bytes)
  : result (option bytes) :=
  FeatureRW_write feature 0x10 device (_SmartShiftRW_write_data data_bytes).

Definition _feature_smart_shift (_ : unit) : Setting :=
  let validator := _RangeV _MIN_SMART_SHIFT_VALUE _MAX_SMART_SHIFT_VALUE 1 in
  new_setting _Setting _SMART_SHIFT (_SmartShiftRW (SMART_SHIFT _F))
              (Some validator) None (Some [mouse; trackball]) true.

(** *** Adjustable DPI *)

Definition is_None {A : Type} (o : option A) : bool :=
  match o with None => true | Some _ => false end.

(** The loop over the unpacked values: [dpi_list] and [step] are the loop's
    variables, a zero value breaks out of it. *)
Fixpoint dpi_list_loop (vals : list Z) (dpi_list : list Z) (step : option Z)
  : result (list Z * option Z) :=
  match vals with
  | [] => Ok (dpi_list, step)
  | val :: vals' =>
      if val =? 0 then Ok (dpi_list, step)
      else if Z.shiftr val 13 =? 7 then
        _ <- py_assert (is_None step && (List.length dpi_list =? 1)%nat)
                       ("Invalid DPI list item: " ++ str val)%string ;;
        dpi_list_loop vals' dpi_list (Some (Z.land val 0x1fff))
      else dpi_list_loop vals' (dpi_list ++ [val]) step
  end.

(** The statements after the loop: a step (one that is neither [None] nor 0)
    asks for two literals and expands them. *)
Definition dpi_list_expand (dpi_list : list Z) (step : option Z) : result (list Z) :=
  match step with
  | None => Ok dpi_list
  | Some s =>
      if s =? 0 then Ok dpi_list
      else
        _ <- py_assert (List.length dpi_list =? 2)%nat
                       ("Invalid DPI list range: " ++ repr_list dpi_list)%string ;;
        Ok (py_range (nth 0 dpi_list 0) (nth 1 dpi_list 0 + 1) s)
  end.

(** The last statement: a validator when the list is not empty. *)
Definition dpi_choices (dpi_list : list Z) : CallbackReturn :=
  match dpi_list with
  | [] => ret_None
  | _ => ret_validator (_ChoicesV (Some (NamedInts_list dpi_list)) (Some 3) None None)
  end.

Definition _feature_adjustable_dpi_callback (device : Device) : result CallbackReturn :=
  (* [1] getSensorDpiList(sensorIdx) *)
  reply <- feature_request device (ADJUSTABLE_DPI _F) 0x10 [] ;;
  _ <- py_assert (reply_bool reply) "Oops, DPI list cannot be retrieved!" ;;
  vals <- _unpack (repeat fmt_H 7) (slice (match reply with Some r => r | None => [] end) 1 (1 + 14)) ;;
  r <- dpi_list_loop vals [] None ;;
  let '(dpi_list, step) := r in
  dpi_list <- dpi_list_expand dpi_list step ;;
  Ok (dpi_choices dpi_list).

Definition _feature_adjustable_dpi (_ : unit) : Setting :=
  let rw := _FeatureRW (ADJUSTABLE_DPI _F) 0x20 0x30 false in
  new_setting _Setting _DPI rw None (Some _feature_adjustable_dpi_callback)
              (Some [mouse; trackball]) true.

Definition _feature_pointer_speed (_ : unit) : Setting :=
  let validator := _RangeV 0x002e 0x01ff 2 in
  let rw := _FeatureRW (POINTER_SPEED _F) 0x00 0x10 false in
  new_setting _Setting _POINTER_SPEED rw (Some validator) None (Some [mouse; trackball]) true.

(** *** Reprogrammable keys and disabled keys *)

(** [d[k] = v] on a dictionary kept as an association list *)
Fixpoint dict_set {V : Type} (d : list (Z * V)) (k : Z) (v : V) : list (Z * V) :=
  match d with
  | [] => [(k, v)]
  | (k', v') :: d' => if k' =? k then (k, v) :: d' else (k', v') :: dict_set d' k v
  end.

(** [d.get(k)] *)
Fixpoint dict_get {V : Type} (d : list (Z * V)) (k : Z) : option V :=
  match d with
  | [] => None
  | (k', v') :: d' => if k' =? k then Some v' else dict_get d' k
  end.

Definition _feature_reprogrammable_keys_callback (device : Device) : result CallbackReturn :=
  let choices :=
    fold_left (fun choices k =>
                 let tgts := remappable_to k in
                 if (1 <? List.length tgts)%nat then dict_set choices (key k) tgts else choices)
              (keys device) [] in
  match choices with
  | [] => Ok ret_None
  | _ => Ok (ret_validator (_ChoicesMapV choices 2 2 1 [0x00] 0))
  end.

Definition _feature_reprogrammable_keys (_ : unit) : Setting :=
  let rw := _FeatureRWMap (REPROG_CONTROLS_V4 _F) 0x20 0x30 2 in
  new_setting _Settings _REPROGRAMMABLE_KEYS rw None
              (Some _feature_reprogrammable_keys_callback) (Some [keyboard]) true.

(** The options are the keys [special_keys.DISABLE[1 << i]], kept by their
    numbers. Indexing [None] or an empty reply raises. *)
Definition _feature_disable_keyboard_keys_callback (device : Device) : result CallbackReturn :=
  reply <- feature_request device (KEYBOARD_DISABLE_KEYS _F) 0x00 [] ;;
  mask <- match reply with
          | None => Raise TypeError
          | Some [] => Raise IndexError
          | Some (b :: _) => Ok b
          end ;;
  let options :=
    map (fun i => Z.shiftl 1 (Z.of_nat i))
        (filter (fun i => negb (Z.land mask (Z.shiftl 1 (Z.of_nat i)) =? 0)) (seq 0 8)) in
  match options with
  | [] => Ok ret_None
  | _ => Ok (ret_validator (_BitFieldV options))
  end.

Definition _feature_disable_keyboard_keys (_ : unit) : Setting :=
  let rw := _FeatureRW (KEYBOARD_DISABLE_KEYS _F) 0x10 0x20 false in
  new_setting _BitFieldSetting _DISABLE_KEYS rw None
              (Some _feature_disable_keyboard_keys_callback) (Some [keyboard]) true.

(** *** Multiplatform *)

(** multiplatform OS bits *)
Definition OSS : list (string * Z) :=
  [("Linux", 0x0400); ("MacOS", 0x2000); ("Windows", 0x0100); ("iOS", 0x4000);
   ("Android", 0x1000); ("WebOS", 0x8000); ("Chrome", 0x0800); ("WinEmb", 0x0200);
   ("Tizen", 0x0001)].

Definition _str_os_version (version : Z) : string :=
  if version =? 0 then ""
  else if negb (Z.land version 0xFF =? 0)
       then (str (Z.shiftr version 8) ++ "." ++ str (Z.land version 0xFF))%string
       else str (Z.shiftr version 8).

Definition _str_os_versions (low high : Z) : string :=
  if (low =? 0) && (high =? 0) then ""
  else (" " ++ _str_os_version low ++ "-" ++ _str_os_version high)%string.

(** A descriptor: platform, os_flags, low, high *)
Definition descriptor : Type := (Z * Z * Z * Z)%type.

(** The loop [for index in range(0, num_descriptors)], over the indexes. *)
Fixpoint read_descriptors (device : Device) (indexes : list nat) (descriptors : list descriptor)
  : result (list descriptor) :=
  match indexes with
  | [] => Ok descriptors
  | index :: indexes' =>
      d <- feature_request device (MULTIPLATFORM _F) 0x10 [Z.of_nat index] ;;
      d <- match d with None => Raise TypeError | Some d => Ok d end ;;
      fields <- _unpack [fmt_B; fmt_B; fmt_H; fmt_H; fmt_H] (slice d 0 8) ;;
      match fields with
      | [platform; _ignore; os_flags; low; high] =>
          read_descriptors device indexes' (descriptors ++ [(platform, os_flags, low, high)])
      | _ => Raise struct_error
      end
  end.

(** The body of the loop over the table of OS bits: the loop over the
    descriptors. *)
Definition multiplatform_visit (descriptors : list descriptor) (choices : NamedInts)
    (o : string * Z) : NamedInts :=
  let '(os_name, os_bit) := o in
  fold_left
    (fun choices (d : descriptor) =>
       let '(platform, os_flags, low, high) := d in
       let os := (os_name ++ _str_os_versions low high)%string in
       if negb (Z.land os_bit os_flags =? 0)
          && negb (NamedInts_contains_int platform choices)
          && negb (NamedInts_contains_str os choices)
       then NamedInts_setitem choices platform os
       else choices)
    descriptors choices.

(** The two nested loops that fill [choices]. *)
Definition multiplatform_choices (descriptors : list descriptor) : NamedInts :=
  fold_left (multiplatform_visit descriptors) OSS NamedInts_empty.

Definition _feature_multiplatform_callback (device : Device) : result CallbackReturn :=
  infos <- feature_request device (MULTIPLATFORM _F) 0x00 [] ;;
  _ <- py_assert (reply_bool infos) "Oops, multiplatform count cannot be retrieved!" ;;
  hdr <- _unpack [fmt_B; fmt_B; fmt_B] (slice (match infos with Some r => r | None => [] end) 0 3) ;;
  match hdr with
  | [flags; _ignore; num_descriptors] =>
      if Z.land flags 0x02 =? 0 then
        (* can't set platform so don't create setting *)
        Ok ret_empty_list
      else
        descriptors <- read_descriptors device (seq 0 (Z.to_nat num_descriptors)) [] ;;
        let choices := multiplatform_choices descriptors in
        if NamedInts_bool choices
        then Ok (ret_validator (_ChoicesV (Some choices) None (Some 6) (Some [0xff])))
        else Ok ret_None
  | _ => Raise struct_error
  end.

Definition _feature_multiplatform (_ : unit) : Setting :=
  let rw := _FeatureRW (MULTIPLATFORM _F) 0x00 0x30 false in
  new_setting _Setting _PLATFORM rw None (Some _feature_multiplatform_callback) None true.

Definition PLATFORMS : NamedInts :=
  NamedInts_setitem (NamedInts_setitem NamedInts_empty 0x00 "iOS, MacOS") 0x01 "Android, Windows".

Definition _feature_dualplatform (_ : unit) : Setting :=
  let validator := _ChoicesV (Some PLATFORMS) None None None in
  let rw := _FeatureRW (DUALPLATFORM _F) 0x00 0x20 false in
  new_setting _Setting _PLATFORM rw (Some validator) None None true.

(** *** Change host *)

(** [s.partition('.')[0]] *)
Fixpoint partition_dot_head (s : string) : string :=
  match s with
  | EmptyString => EmptyString
  | String c s' => if Ascii.eqb c "."%char then EmptyString else String c (partition_dot_head s')
  end.

Definition _feature_change_host_callback (device : Device) : result CallbackReturn :=
  infos <- feature_request device (CHANGE_HOST _F) 0x00 [] ;;
  _ <- py_assert (reply_bool infos) "Oops, host count cannot be retrieved!" ;;
  hdr <- _unpack [fmt_B; fmt_B] (slice (match infos with Some r => r | None => [] end) 0 2) ;;
  match hdr with
  | [numHosts; currentHost] =>
      let hostNames := match get_host_names device with Some h => h | None => [] end in
      let hostNames :=
        match dict_get hostNames currentHost with
        | Some (_, n) =>
            if String.eqb n "" then
              (* find name of current host and use it *)
              dict_set hostNames currentHost (true, partition_dot_head gethostname)
            else hostNames
        | None => dict_set hostNames currentHost (true, partition_dot_head gethostname)
        end in
      let choices :=
        fold_left
          (fun choices host =>
             let host := Z.of_nat host in
             let '(_ignore, hostName) :=
               match dict_get hostNames host with Some v => v | None => (false, "") end in
             NamedInts_setitem choices host
               (if String.eqb hostName "" then str (host + 1)
                else (str (host + 1) ++ ":" ++ hostName)%string))
          (seq 0 (Z.to_nat numHosts)) NamedInts_empty in
      if NamedInts_bool choices
      then Ok (ret_validator (_ChoicesV (Some choices) None (Some 1) None))
      else Ok ret_None
  | _ => Raise struct_error
  end.

Definition _feature_change_host (_ : unit) : Setting :=
  let rw := _FeatureRW (CHANGE_HOST _F) 0x00 0x10 true in
  new_setting _Setting _CHANGE_HOST rw None (Some _feature_change_host_callback) None false.

Definition _feature_thumb_mode (_ : unit) : Setting :=
  let rw := _FeatureRW (THUMB_WHEEL _F) 0x10 0x20 false in
  let validator := _BooleanV (Some (raw_bytes [0x01; 0x00])) (Some (raw_bytes [0x00; 0x00]))
                             (Some (raw_bytes [0x01; 0x00])) in
  new_setting _Setting _THUMB_SCROLL_MODE rw (Some validator) None (Some [mouse; trackball]) true.

Definition _feature_thumb_invert (_ : unit) : Setting :=
  let rw := _FeatureRW (THUMB_WHEEL _F) 0x10 0x20 false in
  let validator := _BooleanV (Some (raw_bytes [0x00; 0x01])) (Some (raw_bytes [0x00; 0x00]))
                             (Some (raw_bytes [0x00; 0x01])) in
  new_setting _Setting _THUMB_SCROLL_INVERT rw (Some validator) None (Some [mouse; trackball]) true.

(** *** Gestures *)

Definition _feature_gesture2_gestures_callback (device : Device) : result CallbackReturn :=
  g <- get_gestures device ;;
  let options := filter (fun g => can_be_enabled g || default_enabled g) (fst g) in
  match options with
  | [] => Ok ret_None
  | _ => Ok (ret_validator (_BitFieldOMV options))
  end.

Definition _feature_gesture2_gestures (_ : unit) : Setting :=
  let rw := _FeatureRW (GESTURE_2 _F) 0x10 0x20 false in
  new_setting _BitFieldOMSetting _GESTURE2_GESTURES rw None
              (Some _feature_gesture2_gestures_callback) (Some [touchpad; mouse]) true.

Definition _feature_gesture2_params_callback (device : Device) : result CallbackReturn :=
  g <- get_gestures device ;;
  let params := snd g in
  let items := filter (fun i => match sub_params i with [] => false | _ => true end) params in
  match items with
  | [] => Ok ret_None
  | _ =>
      let sub_items := map (fun i => (i, sub_params i)) items in
      Ok (ret_validator (_MultipleRangeV items sub_items))
  end.

Definition _feature_gesture2_params (_ : unit) : Setting :=
  let rw := _FeatureRW (GESTURE_2 _F) 0x70 0x80 false in
  new_setting _LongSettings _GESTURE2_PARAMS rw None
              (Some _feature_gesture2_params_callback) (Some [touchpad; mouse]) true.

(** ** The settings table *)

(** A register template takes no argument, or the choices ([_register_dpi]). *)
Inductive RegisterFn : Type :=
| register_fn (f : unit -> Setting)
| register_fn_choices (f : option NamedInts -> Setting).

(** A row: name, featureID, featureFn, registerFn, identifier *)
Definition Row : Type :=
  (string * option Z * option (unit -> Setting) * option RegisterFn * string)%type.

(** [s.replace('-', '_')] *)
Fixpoint replace_dash (s : string) : string :=
  match s with
  | EmptyString => EmptyString
  | String c s' => String (if Ascii.eqb c "-"%char then "_"%char else c) (replace_dash s')
  end.

Definition _S (n : name_triple) (featureID : option Z) (featureFn : option (unit -> Setting))
    (registerFn : option RegisterFn) (identifier : option string) : Row :=
  let n0 := fst (fst n) in
  (n0, featureID, featureFn, registerFn,
   match identifier with
   | Some (String c i) => String c i
   | _ => replace_dash n0
   end).

Definition _SETTINGS_TABLE : list Row :=
  [ _S _HAND_DETECTION None None (Some (register_fn _register_hand_detection)) None;
    _S _SMOOTH_SCROLL None None (Some (register_fn _register_smooth_scroll)) None;
    _S _SIDE_SCROLL None None (Some (register_fn _register_side_scroll)) None;
    _S _HI_RES_SCROLL (Some (HI_RES_SCROLLING _F)) (Some _feature_hi_res_scroll) None None;
    _S _LOW_RES_SCROLL (Some (LOWRES_WHEEL _F)) (Some _feature_lowres_smooth_scroll) None None;
    _S _HIRES_INV (Some (HIRES_WHEEL _F)) (Some _feature_hires_smooth_invert) None None;
    _S _HIRES_RES (Some (HIRES_WHEEL _F)) (Some _feature_hires_smooth_resolution) None None;
    _S _FN_SWAP (Some (FN_INVERSION _F)) (Some _feature_fn_swap)
       (Some (register_fn _register_fn_swap)) None;
    _S _FN_SWAP (Some (NEW_FN_INVERSION _F)) (Some _feature_new_fn_swap) None
       (Some "new_fn_swap");
    _S _FN_SWAP (Some (K375S_FN_INVERSION _F)) (Some _feature_k375s_fn_swap) None
       (Some "k375s_fn_swap");
    _S _DPI (Some (ADJUSTABLE_DPI _F)) (Some _feature_adjustable_dpi)
       (Some (register_fn_choices _register_dpi)) None;
    _S _POINTER_SPEED (Some (POINTER_SPEED _F)) (Some _feature_pointer_speed) None None;
    _S _SMART_SHIFT (Some (SMART_SHIFT _F)) (Some _feature_smart_shift) None None;
    _S _BACKLIGHT (Some (BACKLIGHT2 _F)) (Some _feature_backlight2) None None;
    _S _REPROGRAMMABLE_KEYS (Some (REPROG_CONTROLS_V4 _F)) (Some _feature_reprogrammable_keys)
       None None;
    _S _DISABLE_KEYS (Some (KEYBOARD_DISABLE_KEYS _F)) (Some _feature_disable_keyboard_keys)
       None None;
    _S _PLATFORM (Some (MULTIPLATFORM _F)) (Some _feature_multiplatform) None None;
    _S _PLATFORM (Some (DUALPLATFORM _F)) (Some _feature_dualplatform) None
       (Some "dualplatform");
    _S _CHANGE_HOST (Some (CHANGE_HOST _F)) (Some _feature_change_host) None None;
    _S _THUMB_SCROLL_MODE (Some (THUMB_WHEEL _F)) (Some _feature_thumb_mode) None None;
    _S _THUMB_SCROLL_INVERT (Some (THUMB_WHEEL _F)) (Some _feature_thumb_invert) None None;
    _S _GESTURE2_GESTURES (Some (GESTURE_2 _F)) (Some _feature_gesture2_gestures) None None;
    _S _GESTURE2_PARAMS (Some (GESTURE_2 _F)) (Some _feature_gesture2_params) None None ].

(** ** Negotiation *)

(** What a run leaves behind: the calls of setting constructors on the
    device, in which the device is queried, and the records of the logger. *)
Inductive event : Type :=
| ev_call (featureId : Z) (n : string)
| ev_debug (featureId : Z) (detected : option Setting)
| ev_error (featureId : Z) (e : exn).

(** A computation that leaves a trace and returns or raises. *)
Definition M (A : Type) : Type := (list event * result A)%type.

Definition mret {A : Type} (a : A) : M A := ([], Ok a).

Definition mbind {A B : Type} (m : M A) (k : A -> M B) : M B :=
  match m with
  | (t, Ok a) => let '(t', r) := k a in (t ++ t', r)
  | (t, Raise e) => (t, Raise e)
  end.

Definition tell (evs : list event) : M unit := (evs, Ok tt).

Definition lift {A : Type} (r : result A) : M A := ([], r).

(** [try: m  except Exception: h] *)
Definition try_except {A : Type} (m : M A) (h : exn -> M A) : M A :=
  match m with
  | (t, Raise e) => let '(t', r) := h e in (t ++ t', r)
  | (t, Ok a) => (t, Ok a)
  end.

Notation "x <<- m ;; k" := (mbind m (fun x => k))
  (at level 61, m at next level, right associativity).

(** [featureId in device.features]; it raises when there are no features. *)
Definition in_features (featureId : Z) (device : Device) : result bool :=
  match features device with
  | None => Raise TypeError
  | Some fs => Ok (existsb (Z.eqb featureId) fs)
  end.

Definition check_feature (device : Device) (n : string) (featureId : Z)
    (featureFn : unit -> Setting) : M (option Setting) :=
  present <<- lift (in_features featureId device) ;;
  if negb present then mret None
  else
    try_except
      (_ <<- tell [ev_call featureId n] ;;
       detected <<- lift (Setting_call (featureFn tt) device) ;;
       _ <<- (if _log_isEnabledFor_DEBUG then tell [ev_debug featureId detected] else mret tt) ;;
       mret detected)
      (fun e =>
         _ <<- tell [ev_error featureId e] ;;
         mret None).

(** [any(s.name == name for s in already_known)] *)
Definition known_by_name (n : string) (already_known : list Setting) : bool :=
  existsb (fun s => String.eqb (name s) n) already_known.

(** The body of the loop of [check_feature_settings] for one row; it returns
    the list [already_known] after the row. *)
Definition check_row (device : Device) (row : Row) (already_known : list Setting)
  : M (list Setting) :=
  let '(n, featureId, featureFn, _, _) := row in
  match featureId, featureFn with
  | Some featureId, Some featureFn =>
      if negb (featureId =? 0) then
        if negb (known_by_name n already_known) then
          setting <<- check_feature device n featureId featureFn ;;
          match setting with
          | Some setting => mret (already_known ++ [setting])
          | None => mret already_known
          end
        else mret already_known
      else mret already_known
  | _, _ => mret already_known
  end.

Fixpoint check_rows (device : Device) (table : list Row) (already_known : list Setting)
  : M (list Setting) :=
  match table with
  | [] => mret already_known
  | row :: table' =>
      already_known <<- check_row device row already_known ;;
      check_rows device table' already_known
  end.

(** [device.protocol and device.protocol < 2.0] *)
Definition protocol_below_2 (device : Device) : bool :=
  match protocol device with
  | None => false
  | Some p => negb (Qeq_bool p 0) && negb (Qle_bool 2 p)
  end.

(** [check_feature_settings] over a table: the returned flag and the list
    [already_known] as the call leaves it. *)
Definition check_feature_settings_in (table : list Row) (device : Device)
    (already_known : list Setting) : M (bool * list Setting) :=
  if is_None (features device) || negb (online device) then mret (false, already_known)
  else if protocol_below_2 device then mret (false, already_known)
  else
    already_known <<- check_rows device table already_known ;;
    mret (true, already_known).

(** Returns True if device was queried to find features, False otherwise *)
Definition check_feature_settings (device : Device) (already_known : list Setting)
  : M (bool * list Setting) :=
  check_feature_settings_in _SETTINGS_TABLE device already_known.

Fixpoint check_feature_setting_in (table : list Row) (device : Device) (setting_name : string)
  : M (option Setting) :=
  match table with
  | [] => mret None
  | (n, featureId, featureFn, _, _) :: table' =>
      match featureId, featureFn with
      | Some featureId, Some featureFn =>
          if String.eqb n setting_name && negb (featureId =? 0) then
            feature <<- check_feature device n featureId featureFn ;;
            match feature with
            | Some feature => mret (Some feature)
            | None => check_feature_setting_in table' device setting_name
            end
          else check_feature_setting_in table' device setting_name
      | _, _ => check_feature_setting_in table' device setting_name
      end
  end.

Definition check_feature_setting (device : Device) (setting_name : string) : M (option Setting) :=
  check_feature_setting_in _SETTINGS_TABLE device setting_name.

End Templates.

(** ** Reading a row *)

(** The components [s[0]], [s[1]], [s[2]] and [s[4]] of a row. *)
Definition row_name (row : Row) : string :=
  let '(n, _, _, _, _) := row in n.

Definition row_featureId (row : Row) : option Z :=
  let '(_, featureId, _, _, _) := row in featureId.

Definition row_featureFn (row : Row) : option (unit -> Setting) :=
  let '(_, _, featureFn, _, _) := row in featureFn.

Definition row_identifier (row : Row) : string :=
  let '(_, _, _, _, identifier) := row in identifier.

(** The device does not advertise the feature of the row. *)
Definition row_absent (fs : list Z) (row : Row) : Prop :=
  forall featureId, row_featureId row = Some featureId -> ~ In featureId fs.

(** [row_absent], decided. *)
Definition row_absent_b (fs : list Z) (row : Row) : bool :=
  match row_featureId row with
  | Some featureId => negb (existsb (Z.eqb featureId) fs)
  | None => true
  end.

(** The setting that the constructor of a row yields on the device, when the
    row has a feature that the device advertises. *)
Definition row_setting (device : Device) (row : Row) : option Setting :=
  match row_featureId row, row_featureFn row, features device with
  | Some featureId, Some featureFn, Some fs =>
      if negb (featureId =? 0) && existsb (Z.eqb featureId) fs then
        match Setting_call (featureFn tt) device with
        | Ok (Some s) => Some s
        | _ => None
        end
      else None
  | _, _, _ => None
  end.

(** The list [already_known] after the row, without the trace. *)
Definition after_row (device : Device) (already_known : list Setting) (row : Row)
  : list Setting :=
  if known_by_name (row_name row) already_known then already_known
  else match row_setting device row with
       | Some s => already_known ++ [s]
       | None => already_known
       end.

(** The constructor of the row builds a setting of the name of the row. *)
Definition row_well_named (row : Row) : bool :=
  match row_featureFn row with
  | Some featureFn => String.eqb (name (featureFn tt)) (row_name row)
  | None => true
  end.

(** A literal DPI value: neither the terminator nor a step. *)
Definition dpi_literal (val : Z) : bool :=
  negb (val =? 0) && negb (Z.shiftr val 13 =? 7).

(** The values that follow the ones the loop reads: none, or a zero first. *)
Definition dpi_terminated (post : list Z) : Prop :=
  match post with
  | [] => True
  | val :: _ => val = 0
  end.

(** The inconsistencies of the values before the terminator: a step value
    that does not come after exactly one literal, two step values, or a step
    other than zero with other than two literals. *)
Definition dpi_inconsistent (pre : list Z) : Prop :=
  (exists l1 v l2,
      pre = l1 ++ v :: l2 /\ Z.shiftr v 13 = 7
      /\ List.length (filter dpi_literal l1) <> 1%nat)
  \/ (exists l1 v l2 w l3,
         pre = l1 ++ v :: l2 ++ w :: l3 /\ Z.shiftr v 13 = 7 /\ Z.shiftr w 13 = 7)
  \/ (exists v,
         In v pre /\ Z.shiftr v 13 = 7 /\ Z.land v 0x1fff <> 0
         /\ List.length (filter dpi_literal pre) <> 2%nat).

(** ** Sample devices *)

(** A numbering of the features and of the registers for the examples. *)
Definition FEATURE_sample : FEATURE :=
  mkFEATURE 0x2120 0x2130 0x2121 0x40A0 0x40A2 0x40A3 0x2201 0x2205 0x2110 0x1982
            0x1B04 0x4521 0x4531 0x4530 0x1814 0x2150 0x6501.

Definition REGISTERS_sample : REGISTERS := mkREGISTERS 0x06 0x09 0x01 0x63.

(** An online device with the given features, protocol version and replies,
    without keys, host names or gestures. *)
Definition sample_device (fs : list Z) (p : option Q)
    (request : Z -> Z -> bytes -> result (option bytes)) : Device :=
  mkDevice (Some fs) true p request [] None (Ok ([], [])).

Definition no_reply : Z -> Z -> bytes -> result (option bytes) :=
  fun _ _ _ => Ok None.

(** A device that answers [getSensorDpiList] with the given reply. *)
Definition dpi_request (reply : bytes) : Z -> Z -> bytes -> result (option bytes) :=
  fun feature function _ =>
    if (feature =? ADJUSTABLE_DPI FEATURE_sample) && (function =? 0x10)
    then Ok (Some reply) else Ok None.

(** The 16 bytes of a DPI reply: the sensor index, then the values. *)
Definition dpi_reply (vals : list Z) : bytes :=
  0 :: flat_map (fun v => _int2bytes v 2) vals ++ [0].

(** A multiplatform device with one descriptor. *)
Definition multiplatform_request (infos d : bytes) : Z -> Z -> bytes -> result (option bytes) :=
  fun feature function _ =>
    if (feature =? MULTIPLATFORM FEATURE_sample) && (function =? 0x00) then Ok (Some infos)
    else if (feature =? MULTIPLATFORM FEATURE_sample) && (function =? 0x10) then Ok (Some d)
    else Ok None.

(** A device that answers the smart-shift reader with the given record. *)
Definition smart_shift_request (value : bytes) : Z -> Z -> bytes -> result (option bytes) :=
  fun feature function _ =>
    if (feature =? SMART_SHIFT FEATURE_sample) && (function =? 0x00)
    then Ok (Some value) else Ok None.

(** ** The tuples of constructors *)

Definition row_registerFn (row : Row) : option RegisterFn :=
  let '(_, _, _, registerFn, _) := row in registerFn.

(** A named tuple: its fields, in order, with their names. *)
Definition namedtuple (V : Type) : Type := list (string * V).

(** [_SETTINGS_LIST._make(values)]: the fields are the identifiers of the
    rows of the table. *)
Definition _SETTINGS_LIST_make {V : Type} (table : list Row) (values : list V) : namedtuple V :=
  combine (map row_identifier table) values.

(** [t.field] *)
Fixpoint getattr {V : Type} (t : namedtuple V) (field : string) : option V :=
  match t with
  | [] => None
  | (f, v) :: t' => if String.eqb f field then Some v else getattr t' field
  end.

Definition RegisterSettings (_F : FEATURE) (_R : REGISTERS) (gethostname : string)
  : namedtuple (option RegisterFn) :=
  _SETTINGS_LIST_make (_SETTINGS_TABLE _F _R gethostname)
                      (map row_registerFn (_SETTINGS_TABLE _F _R gethostname)).

Definition FeatureSettings (_F : FEATURE) (_R : REGISTERS) (gethostname : string)
  : namedtuple (option (unit -> Setting)) :=
  _SETTINGS_LIST_make (_SETTINGS_TABLE _F _R gethostname)
                      (map row_featureFn (_SETTINGS_TABLE _F _R gethostname)).

(** ** Reading a setting and a list *)

(** The feature that a reader/writer addresses, when it addresses one. *)
Definition rw_feature (rw : RW) : option Z :=
  match rw with
  | _RegisterRW _ => None
  | _FeatureRW feature _ _ _ => Some feature
  | _FeatureRWMap feature _ _ _ => Some feature
  | _SmartShiftRW feature => Some feature
  end.

(** A setting has a validator or a callback, and not both. *)
Definition validator_xor_callback (s : Setting) : bool :=
  xorb (negb (is_None (_validator s))) (negb (is_None (_callback s))).

(** [l] keeps some elements of [l'], in their order. *)
Inductive subseq {A : Type} : list A -> list A -> Prop :=
| subseq_nil : subseq [] []
| subseq_skip (x : A) (l l' : list A) : subseq l l' -> subseq l (x :: l')
| subseq_take (x : A) (l l' : list A) : subseq l l' -> subseq (x :: l) (x :: l').

(** A byte *)
Definition is_byte (b : Z) : Prop := 0 <= b < 256.

(** * Properties *)

(** ** Bytes and integers *)

Lemma int2bytes_1 (x : Z) : _int2bytes x 1 = [x mod 256].
Proof. reflexivity. Qed.

Lemma bytes2int_1 (b : Z) : _bytes2int [b] = b.
Proof. unfold _bytes2int. simpl. lia. Qed.

Lemma bytes2int_2 (hi lo : Z) : _bytes2int [hi; lo] = hi * 256 + lo.
Proof. unfold _bytes2int. simpl. lia. Qed.

Lemma byte_mod (b : Z) : 0 <= b < 256 -> b mod 256 = b.
Proof. intros H. apply Z.mod_small. exact H. Qed.

(** ** Smart shift *)

Lemma smart_shift_write_data (v : Z) :
  0 <= v <= 50 ->
  _SmartShiftRW_write_data (_int2bytes v 1)
  = if v =? 0 then [1; 0; 0] else if v =? 50 then [2; 255; 255] else [2; v; v].
Proof.
  intros Hv. unfold _SmartShiftRW_write_data.
  rewrite (int2bytes_1 v), bytes2int_1, (byte_mod v) by lia.
  unfold _MIN_SMART_SHIFT_VALUE, _MAX_SMART_SHIFT_VALUE. cbv zeta.
  destruct (v =? 0) eqn:E0.
  - apply Z.eqb_eq in E0. subst v. reflexivity.
  - destruct (v =? 50) eqn:E50.
    + reflexivity.
    + rewrite !int2bytes_1, (byte_mod v) by lia. reflexivity.
Qed.

Lemma smart_shift_read_value (mode threshold : Z) (rest : bytes) :
  0 <= threshold < 256 ->
  _SmartShiftRW_read_value (mode :: threshold :: rest)
  = [if mode =? 1 then 0 else Z.min threshold 50].
Proof.
  intros Ht. unfold _SmartShiftRW_read_value, slice.
  cbn [Nat.sub firstn skipn]. rewrite !bytes2int_1.
  unfold _MIN_SMART_SHIFT_VALUE, _MAX_SMART_SHIFT_VALUE.
  destruct (mode =? 1); rewrite int2bytes_1.
  - reflexivity.
  - rewrite byte_mod by lia. reflexivity.
Qed.

(** C3. For a threshold [v] in [0, 50] the smart-shift writer sends the
    record (1, 0, 0) when [v = 0], (2, 255, 255) when [v = 50] and (2, v, v)
    otherwise; the reader maps a record whose mode byte is 1 to 0 and any
    other record to the minimum of its threshold byte and 50; reading the
    record that was written gives [v] back. *)
Theorem smart_shift_codec (feature : Z) (device : Device) (v mode threshold : Z) (rest : bytes) :
  0 <= v <= 50 ->
  0 <= threshold < 256 ->
  feature_request device feature 0x00 [] = Ok (Some (mode :: threshold :: rest)) ->
  let record := if v =? 0 then [1; 0; 0] else if v =? 50 then [2; 255; 255] else [2; v; v] in
  _SmartShiftRW_write_data (_int2bytes v 1) = record
  /\ _SmartShiftRW_write feature device (_int2bytes v 1)
     = feature_request device feature 0x10 record
  /\ _SmartShiftRW_read feature device = Ok [if mode =? 1 then 0 else Z.min threshold 50]
  /\ _SmartShiftRW_read_value record = _int2bytes v 1
  /\ _bytes2int (_SmartShiftRW_read_value record) = v.
Proof.
  intros Hv Ht Hreply record.
  assert (Hw : _SmartShiftRW_write_data (_int2bytes v 1) = record)
    by (apply smart_shift_write_data; exact Hv).
  assert (Hr : _SmartShiftRW_read_value record = [v]).
  { unfold record. destruct (v =? 0) eqn:E0.
    - apply Z.eqb_eq in E0. subst v. reflexivity.
    - destruct (v =? 50) eqn:E50.
      + apply Z.eqb_eq in E50. subst v. reflexivity.
      + rewrite smart_shift_read_value by lia.
        change (2 =? 1) with false. cbv iota.
        rewrite Z.min_l by lia. reflexivity. }
  repeat split.
  - exact Hw.
  - unfold _SmartShiftRW_write, FeatureRW_write. rewrite Hw. reflexivity.
  - unfold _SmartShiftRW_read, FeatureRW_read. rewrite Hreply. unfold rbind.
    rewrite smart_shift_read_value by exact Ht. reflexivity.
  - rewrite Hr, int2bytes_1, byte_mod by lia. reflexivity.
  - rewrite Hr. apply bytes2int_1.
Qed.

Lemma smart_shift_codec_witness :
  _SmartShiftRW_write_data (_int2bytes 25 1) = [2; 25; 25]
  /\ _SmartShiftRW_read (SMART_SHIFT FEATURE_sample)
       (sample_device [SMART_SHIFT FEATURE_sample] (Some (45 # 10)) (smart_shift_request [2; 255; 30]))
     = Ok [50]
  /\ _bytes2int (_SmartShiftRW_read_value [2; 25; 25]) = 25.
Proof.
  pose proof (@smart_shift_codec (SMART_SHIFT FEATURE_sample)
                (sample_device [SMART_SHIFT FEATURE_sample] (Some (45 # 10))
                               (smart_shift_request [2; 255; 30]))
                25 2 255 [30]) as H.
  destruct H as (Hw & _ & Hr & _ & Hb).
  - lia.
  - lia.
  - reflexivity.
  - exact (conj Hw (conj Hr Hb)).
Defined.

(** ** The DPI list *)

Lemma step_not_zero (v : Z) : Z.shiftr v 13 = 7 -> (v =? 0) = false.
Proof.
  intros H. apply Z.eqb_neq. intros ->. rewrite Z.shiftr_0_l in H. discriminate.
Qed.

Lemma dpi_literal_inv (v : Z) :
  dpi_literal v = true -> (v =? 0) = false /\ (Z.shiftr v 13 =? 7) = false.
Proof.
  unfold dpi_literal. intros H. apply andb_true_iff in H. destruct H as [H1 H2].
  apply negb_true_iff in H1. apply negb_true_iff in H2. auto.
Qed.

Lemma step_not_literal (v : Z) : Z.shiftr v 13 = 7 -> dpi_literal v = false.
Proof.
  intros H. unfold dpi_literal. apply Z.eqb_eq in H. rewrite H.
  apply andb_false_r.
Qed.

Lemma dpi_loop_literal (v : Z) (rest dl : list Z) (st : option Z) :
  dpi_literal v = true ->
  dpi_list_loop (v :: rest) dl st = dpi_list_loop rest (dl ++ [v]) st.
Proof.
  intros H. apply dpi_literal_inv in H. destruct H as [H1 H2].
  cbn [dpi_list_loop]. rewrite H1, H2. reflexivity.
Qed.

Lemma dpi_loop_step (v : Z) (rest dl : list Z) (st : option Z) :
  Z.shiftr v 13 = 7 ->
  dpi_list_loop (v :: rest) dl st
  = (_ <- py_assert (is_None st && (List.length dl =? 1)%nat)
                    ("Invalid DPI list item: " ++ str v)%string ;;
     dpi_list_loop rest dl (Some (Z.land v 0x1fff))).
Proof.
  intros H. cbn [dpi_list_loop]. rewrite (step_not_zero v H).
  apply Z.eqb_eq in H. rewrite H. reflexivity.
Qed.

Lemma dpi_loop_end (post dl : list Z) (st : option Z) :
  dpi_terminated post -> dpi_list_loop post dl st = Ok (dl, st).
Proof.
  destruct post as [|z post]; intros H.
  - reflexivity.
  - simpl in H. subst z. reflexivity.
Qed.

Lemma dpi_loop_literals (l : list Z) :
  forall rest dl st,
    forallb dpi_literal l = true ->
    dpi_list_loop (l ++ rest) dl st = dpi_list_loop rest (dl ++ l) st.
Proof.
  induction l as [|x l IH]; intros rest dl st H.
  - rewrite app_nil_r. reflexivity.
  - simpl in H. apply andb_true_iff in H. destruct H as [Hx Hl].
    rewrite <- app_comm_cons, dpi_loop_literal by exact Hx.
    rewrite IH by exact Hl. rewrite <- app_assoc. reflexivity.
Qed.

(** A value other than zero is a step or a literal. *)
Lemma dpi_value_cases (x : Z) :
  x <> 0 -> Z.shiftr x 13 = 7 \/ dpi_literal x = true.
Proof.
  intros Hx. unfold dpi_literal.
  destruct (Z.shiftr x 13 =? 7) eqn:E.
  - left. apply Z.eqb_eq. exact E.
  - right. apply Z.eqb_neq in Hx. rewrite Hx. reflexivity.
Qed.

Lemma dpi_loop_raise (vals : list Z) :
  forall dl st e, dpi_list_loop vals dl st = Raise e -> exists msg, e = AssertionError msg.
Proof.
  induction vals as [|x vals IH]; intros dl st e H.
  - discriminate.
  - cbn [dpi_list_loop] in H. destruct (x =? 0); [discriminate|].
    destruct (Z.shiftr x 13 =? 7).
    + unfold py_assert, rbind in H.
      destruct (is_None st && (List.length dl =? 1)%nat).
      * eapply IH. exact H.
      * inversion H. eauto.
    + eapply IH. exact H.
Qed.

Lemma dpi_loop_step_misplaced (l1 : list Z) :
  forall v rest dl st,
    Forall (fun x => x <> 0) l1 ->
    Z.shiftr v 13 = 7 ->
    (List.length dl + List.length (filter dpi_literal l1) <> 1)%nat ->
    exists msg, dpi_list_loop (l1 ++ v :: rest) dl st = Raise (AssertionError msg).
Proof.
  induction l1 as [|x l1 IH]; intros v rest dl st Hnz Hv Hlen.
  - simpl in Hlen. rewrite Nat.add_0_r in Hlen.
    rewrite app_nil_l, dpi_loop_step by exact Hv.
    apply Nat.eqb_neq in Hlen. rewrite Hlen, andb_false_r. simpl. eauto.
  - inversion Hnz as [|? ? Hx Hnz']; subst.
    rewrite <- app_comm_cons.
    destruct (dpi_value_cases _ Hx) as [Hs|Hl].
    + rewrite dpi_loop_step by exact Hs.
      simpl in Hlen. rewrite (step_not_literal _ Hs) in Hlen.
      destruct (is_None st && (List.length dl =? 1)%nat); simpl.
      * apply IH; assumption.
      * eauto.
    + rewrite dpi_loop_literal by exact Hl.
      apply IH; try assumption.
      simpl in Hlen. rewrite Hl in Hlen. simpl in Hlen.
      rewrite length_app. simpl. lia.
Qed.

Lemma dpi_loop_second_step (l2 : list Z) :
  forall w rest dl s,
    Forall (fun x => x <> 0) l2 ->
    Z.shiftr w 13 = 7 ->
    exists msg, dpi_list_loop (l2 ++ w :: rest) dl (Some s) = Raise (AssertionError msg).
Proof.
  induction l2 as [|x l2 IH]; intros w rest dl s Hnz Hw.
  - rewrite app_nil_l, dpi_loop_step by exact Hw. simpl. eauto.
  - inversion Hnz as [|? ? Hx Hnz']; subst.
    rewrite <- app_comm_cons.
    destruct (dpi_value_cases _ Hx) as [Hs|Hl].
    + rewrite dpi_loop_step by exact Hs. simpl. eauto.
    + rewrite dpi_loop_literal by exact Hl. apply IH; assumption.
Qed.

Lemma dpi_loop_two_steps (l1 : list Z) :
  forall v l2 w rest dl st,
    Forall (fun x => x <> 0) (l1 ++ v :: l2) ->
    Z.shiftr v 13 = 7 ->
    Z.shiftr w 13 = 7 ->
    exists msg,
      dpi_list_loop (l1 ++ v :: l2 ++ w :: rest) dl st = Raise (AssertionError msg).
Proof.
  induction l1 as [|x l1 IH]; intros v l2 w rest dl st Hnz Hv Hw.
  - rewrite app_nil_l in *. inversion Hnz as [|? ? _ Hnz2]; subst.
    rewrite dpi_loop_step by exact Hv.
    destruct (is_None st && (List.length dl =? 1)%nat); simpl.
    + apply dpi_loop_second_step; assumption.
    + eauto.
  - rewrite <- app_comm_cons in *. inversion Hnz as [|? ? Hx Hnz']; subst.
    destruct (dpi_value_cases _ Hx) as [Hs|Hl].
    + rewrite dpi_loop_step by exact Hs.
      destruct (is_None st && (List.length dl =? 1)%nat); simpl.
      * apply Forall_app in Hnz'. destruct Hnz' as [Hnz1 _].
        apply dpi_loop_second_step; assumption.
      * eauto.
    + rewrite dpi_loop_literal by exact Hl. apply IH; assumption.
Qed.

Lemma dpi_loop_some_stays (vals : list Z) :
  forall dl s dl' st',
    dpi_list_loop vals dl (Some s) = Ok (dl', st') -> st' = Some s.
Proof.
  induction vals as [|x vals IH]; intros dl s dl' st' H.
  - inversion H. reflexivity.
  - cbn [dpi_list_loop] in H. destruct (x =? 0).
    + inversion H. reflexivity.
    + destruct (Z.shiftr x 13 =? 7).
      * simpl in H. discriminate.
      * eapply IH. exact H.
Qed.

Lemma dpi_loop_ok (pre : list Z) :
  forall post dl st dl' st',
    Forall (fun x => x <> 0) pre ->
    dpi_terminated post ->
    dpi_list_loop (pre ++ post) dl st = Ok (dl', st') ->
    dl' = dl ++ filter dpi_literal pre
    /\ (forall v, In v pre -> Z.shiftr v 13 = 7 -> st' = Some (Z.land v 0x1fff)).
Proof.
  induction pre as [|x pre IH]; intros post dl st dl' st' Hnz Hpost H.
  - rewrite app_nil_l, dpi_loop_end in H by exact Hpost. inversion H; subst.
    rewrite app_nil_r. split; [reflexivity|]. intros v [].
  - rewrite <- app_comm_cons in H. inversion Hnz as [|? ? Hx Hnz']; subst.
    destruct (dpi_value_cases _ Hx) as [Hs|Hl].
    + rewrite dpi_loop_step in H by exact Hs.
      destruct (is_None st && (List.length dl =? 1)%nat); simpl in H; [|discriminate].
      pose proof (dpi_loop_some_stays _ _ _ _ _ H) as Hst.
      destruct (IH _ _ _ _ _ Hnz' Hpost H) as [Hdl Hsteps].
      simpl. rewrite (step_not_literal _ Hs). split; [exact Hdl|].
      intros v [Hv|Hv] Hvs.
      * subst v. exact Hst.
      * apply Hsteps; assumption.
    + rewrite dpi_loop_literal in H by exact Hl.
      destruct (IH _ _ _ _ _ Hnz' Hpost H) as [Hdl Hsteps].
      simpl. rewrite Hl. split.
      * rewrite Hdl, <- app_assoc. reflexivity.
      * intros v [Hv|Hv] Hvs.
        -- subst v. rewrite (step_not_literal _ Hvs) in Hl. discriminate.
        -- apply Hsteps; assumption.
Qed.

(** The callback on a device that answers: the loop, the expansion and the
    choices, on the seven values of the reply. *)
Lemma dpi_callback_on_reply (_F : FEATURE) (device : Device) (reply : bytes) (vals : list Z) :
  feature_request device (ADJUSTABLE_DPI _F) 0x10 [] = Ok (Some reply) ->
  _unpack (repeat fmt_H 7) (slice reply 1 15) = Ok vals ->
  _feature_adjustable_dpi_callback _F device
  = (r <- dpi_list_loop vals [] None ;;
     dpi_list <- dpi_list_expand (fst r) (snd r) ;;
     Ok (dpi_choices dpi_list)).
Proof.
  intros Hreply Hunpack. unfold _feature_adjustable_dpi_callback.
  rewrite Hreply. cbn [rbind].
  destruct reply as [|b reply]; [discriminate Hunpack|].
  cbn [reply_bool py_assert rbind].
  change (1 + 14)%nat with 15%nat. rewrite Hunpack. cbn [rbind].
  destruct (dpi_list_loop vals [] None) as [[dl st]|e]; reflexivity.
Qed.

Lemma unpack_7H_words (reply : bytes) (vals : list Z) :
  _unpack (repeat fmt_H 7) (slice reply 1 15) = Ok vals ->
  vals = map (fun i => nth (1 + 2 * i) reply 0 * 256 + nth (2 + 2 * i) reply 0) (seq 0 7).
Proof.
  intros H.
  do 15 (destruct reply as [|? reply]; [discriminate H|]).
  unfold _unpack, slice in H. cbn [Nat.sub skipn firstn List.length] in H.
  cbn [repeat fold_right fmt_size Nat.add Nat.eqb] in H.
  inversion H as [Hv]. clear H Hv.
  cbn [repeat unpack_fields fmt_size firstn skipn].
  rewrite !bytes2int_2. reflexivity.
Qed.

Lemma nth_map_seq (f : nat -> Z) (n k : nat) (d : Z) :
  (k < n)%nat -> nth k (map f (seq 0 n)) d = f k.
Proof.
  intros Hk.
  rewrite (nth_indep _ d (f O)) by (rewrite length_map, length_seq; exact Hk).
  rewrite map_nth, seq_nth by exact Hk. reflexivity.
Qed.

Lemma py_range_nth (a b s : Z) (k : nat) :
  (k < List.length (py_range a b s))%nat ->
  nth k (py_range a b s) 0 = a + Z.of_nat k * s.
Proof.
  unfold py_range. rewrite length_map, length_seq. intros Hk.
  rewrite nth_map_seq by exact Hk. reflexivity.
Qed.

Lemma py_range_In (a b s x : Z) :
  0 < s ->
  In x (py_range a (b + 1) s) <-> exists k, 0 <= k /\ x = a + k * s /\ x <= b.
Proof.
  intros Hs. unfold py_range. rewrite in_map_iff.
  replace (b + 1 - a + s - 1) with (b - a + s) by lia.
  pose proof (Z.mul_div_le (b - a + s) s Hs) as Hle.
  split.
  - intros (k & Hx & Hk). apply in_seq in Hk. exists (Z.of_nat k).
    split; [lia|]. split; [lia|].
    assert (Z.of_nat k < (b - a + s) / s) by lia. nia.
  - intros (k & Hk & Hx & Hb). exists (Z.to_nat k).
    rewrite Z2Nat.id by exact Hk. split; [lia|].
    apply in_seq. split; [lia|].
    assert (k + 1 <= (b - a + s) / s) by (apply Z.div_le_lower_bound; nia).
    lia.
Qed.

Lemma py_range_length (a b s : Z) :
  0 < s -> a <= b ->
  List.length (py_range a (b + 1) s) = Z.to_nat ((b - a) / s + 1).
Proof.
  intros Hs Hab. unfold py_range. rewrite length_map, length_seq.
  replace (b + 1 - a + s - 1) with (b - a + 1 * s) by lia.
  rewrite Z.div_add by lia. reflexivity.
Qed.

Lemma py_range_empty (a b s : Z) :
  0 < s -> b < a -> py_range a (b + 1) s = [].
Proof.
  intros Hs Hba. unfold py_range.
  assert (H : (b + 1 - a + s - 1) / s < 1) by (apply Z.div_lt_upper_bound; lia).
  replace (Z.to_nat ((b + 1 - a + s - 1) / s)) with O by lia. reflexivity.
Qed.

Lemma py_range_last (a b s : Z) :
  0 < s -> a <= b -> (b - a) mod s = 0 ->
  last (py_range a (b + 1) s) 0 = b.
Proof.
  intros Hs Hab Hdiv. unfold py_range.
  replace (b + 1 - a + s - 1) with (b - a + 1 * s) by lia.
  rewrite Z.div_add by lia.
  assert (Hq : 0 <= (b - a) / s) by (apply Z.div_pos; lia).
  replace (Z.to_nat ((b - a) / s + 1)) with (S (Z.to_nat ((b - a) / s))) by lia.
  rewrite seq_S, map_app. cbn [map Nat.add]. rewrite last_last.
  rewrite Z2Nat.id by exact Hq.
  pose proof (Z.div_mod (b - a) s) as Hdm. rewrite Hdiv in Hdm. lia.
Qed.

(** C4, as amended. The DPI-list resolver reads seven big-endian 16-bit
    values from the reply and stops at the first zero. Without a step value
    the choices are the literals before the terminator (no setting when
    there is none). A value whose top three bits are 111 is a step of its
    lower 13 bits: between two literals [first] and [last], a step other
    than zero gives the choices [range(first, last + 1, step)], that is
    [first], [first + step], ... as long as they do not exceed [last]. The
    sequence ends at [last] when [first <= last] and the step divides
    [last - first]; it is empty, and there is no setting, when
    [last < first]. The literals 800 and 3200 with the step 200 give the 13
    choices 800, 1000, ..., 3200. *)
Theorem dpi_list_resolution (_F : FEATURE) (device : Device) (reply : bytes)
    (pre post : list Z) :
  feature_request device (ADJUSTABLE_DPI _F) 0x10 [] = Ok (Some reply) ->
  _unpack (repeat fmt_H 7) (slice reply 1 15) = Ok (pre ++ post) ->
  dpi_terminated post ->
  pre ++ post
  = map (fun i => nth (1 + 2 * i) reply 0 * 256 + nth (2 + 2 * i) reply 0) (seq 0 7)
  /\ (forallb dpi_literal pre = true ->
      _feature_adjustable_dpi_callback _F device
      = Ok (match pre with
            | [] => ret_None
            | _ => ret_validator (_ChoicesV (Some (NamedInts_list pre)) (Some 3) None None)
            end))
  /\ (forall first sv last,
         pre = [first; sv; last] ->
         dpi_literal first = true -> dpi_literal last = true ->
         Z.shiftr sv 13 = 7 -> Z.land sv 0x1fff <> 0 ->
         let step := Z.land sv 0x1fff in
         let choices := py_range first (last + 1) step in
         _feature_adjustable_dpi_callback _F device
         = Ok (if first <=? last
               then ret_validator (_ChoicesV (Some (NamedInts_list choices)) (Some 3) None None)
               else ret_None)
         /\ (forall x, In x choices <-> exists k, 0 <= k /\ x = first + k * step /\ x <= last)
         /\ (forall k, (k < List.length choices)%nat ->
                       nth k choices 0 = first + Z.of_nat k * step)
         /\ (first <= last ->
             List.length choices = Z.to_nat ((last - first) / step + 1))
         /\ (first <= last -> (last - first) mod step = 0 -> List.last choices 0 = last)
         /\ (last < first -> choices = []))
  /\ py_range 800 (3200 + 1) 200
     = [800; 1000; 1200; 1400; 1600; 1800; 2000; 2200; 2400; 2600; 2800; 3000; 3200].
Proof.
  intros Hreply Hunpack Hpost.
  pose proof (dpi_callback_on_reply _ _ _ _ Hreply Hunpack) as Hcb.
  split; [apply unpack_7H_words; exact Hunpack|].
  split; [|split].
  - intros Hlit. rewrite Hcb.
    rewrite dpi_loop_literals, dpi_loop_end by assumption.
    cbn [rbind fst snd dpi_list_expand app]. destruct pre; reflexivity.
  - intros first sv last Hpre Hf Hl Hsv Hnz step choices.
    assert (Hstep : 0 < step).
    { assert (0 <= Z.land sv 0x1fff) by (apply Z.land_nonneg; right; lia).
      unfold step. lia. }
    split; [|split; [|split; [|split; [|split]]]].
    + rewrite Hcb. subst pre. cbn [app].
      rewrite dpi_loop_literal by exact Hf.
      rewrite dpi_loop_step by exact Hsv. cbn [app is_None List.length Nat.eqb andb py_assert rbind].
      rewrite dpi_loop_literal by exact Hl.
      rewrite dpi_loop_end by exact Hpost. cbn [rbind fst snd app dpi_list_expand].
      apply Z.eqb_neq in Hnz. rewrite Hnz.
      cbn [List.length Nat.eqb py_assert rbind nth].
      fold step. fold choices.
      destruct (Z.leb_spec first last) as [Hle|Hlt].
      * pose proof (py_range_length first last step Hstep Hle) as Hlen.
        fold choices in Hlen.
        assert (0 <= (last - first) / step) by (apply Z.div_pos; lia).
        destruct choices as [|c choices']; [cbn [List.length] in Hlen; lia|reflexivity].
      * unfold choices. rewrite py_range_empty by assumption. reflexivity.
    + intros x. apply py_range_In. exact Hstep.
    + intros k. apply py_range_nth.
    + intros Hle. apply py_range_length; assumption.
    + intros Hle Hdiv. apply py_range_last; assumption.
    + intros Hlt. apply py_range_empty; assumption.
  - reflexivity.
Qed.

Lemma dpi_list_resolution_witness :
  _feature_adjustable_dpi_callback FEATURE_sample
    (sample_device [ADJUSTABLE_DPI FEATURE_sample] (Some (45 # 10))
                   (dpi_request (dpi_reply [800; 0xE0C8; 3200; 0; 0; 0; 0])))
  = Ok (ret_validator
          (_ChoicesV
             (Some (NamedInts_list
                      [800; 1000; 1200; 1400; 1600; 1800; 2000; 2200; 2400; 2600; 2800;
                       3000; 3200]))
             (Some 3) None None))
  /\ _feature_adjustable_dpi_callback FEATURE_sample
       (sample_device [ADJUSTABLE_DPI FEATURE_sample] (Some (45 # 10))
                      (dpi_request (dpi_reply [400; 800; 1600; 0; 3200; 0; 0])))
     = Ok (ret_validator (_ChoicesV (Some (NamedInts_list [400; 800; 1600])) (Some 3)
                                    None None)).
Proof.
  split.
  - pose proof (dpi_list_resolution FEATURE_sample
                  (sample_device [ADJUSTABLE_DPI FEATURE_sample] (Some (45 # 10))
                     (dpi_request (dpi_reply [800; 0xE0C8; 3200; 0; 0; 0; 0])))
                  (dpi_reply [800; 0xE0C8; 3200; 0; 0; 0; 0])
                  [800; 0xE0C8; 3200] [0; 0; 0; 0]
                  eq_refl eq_refl eq_refl) as (_ & _ & Hstep & Hrange).
    destruct (Hstep 800 0xE0C8 3200 eq_refl eq_refl eq_refl eq_refl) as (Hcb & _).
    + discriminate.
    + rewrite Hcb. change (Z.land 0xE0C8 0x1fff) with 200. rewrite Hrange. reflexivity.
  - pose proof (dpi_list_resolution FEATURE_sample
                  (sample_device [ADJUSTABLE_DPI FEATURE_sample] (Some (45 # 10))
                     (dpi_request (dpi_reply [400; 800; 1600; 0; 3200; 0; 0])))
                  (dpi_reply [400; 800; 1600; 0; 3200; 0; 0])
                  [400; 800; 1600] [0; 3200; 0; 0]
                  eq_refl eq_refl eq_refl) as (_ & Hlit & _).
    apply Hlit. reflexivity.
Defined.

(** C4, as stated, fails when the step does not divide the distance of the
    endpoints: for the literals 800 and 1100 with the step 200 the choices
    are 800 and 1000, and the sequence does not reach the endpoint 1100. *)
Lemma dpi_range_misses_last_endpoint :
  let reply := dpi_reply [800; 0xE0C8; 1100; 0; 0; 0; 0] in
  let device :=
    sample_device [ADJUSTABLE_DPI FEATURE_sample] (Some (45 # 10)) (dpi_request reply) in
  _unpack (repeat fmt_H 7) (slice reply 1 15) = Ok [800; 0xE0C8; 1100; 0; 0; 0; 0]
  /\ dpi_literal 800 = true /\ dpi_literal 1100 = true
  /\ Z.shiftr 0xE0C8 13 = 7 /\ Z.land 0xE0C8 0x1fff = 200
  /\ _feature_adjustable_dpi_callback FEATURE_sample device
     = Ok (ret_validator
             (_ChoicesV (Some (mkNamedInts [mkNamedInt 800 "800"; mkNamedInt 1000 "1000"]))
                        (Some 3) None None))
  /\ ~ In 1100 [800; 1000].
Proof.
  repeat split. intros [H|[H|[]]]; discriminate H.
Qed.

(** C10, as amended. When the reply holds one literal, then the value 0xE000
    (a step of zero), then literals only up to the terminator, the resolver
    does not raise and does not expand: the choices are the literals. *)
Theorem dpi_zero_step_ignored (_F : FEATURE) (device : Device) (reply : bytes)
    (lit : Z) (rest post : list Z) :
  feature_request device (ADJUSTABLE_DPI _F) 0x10 [] = Ok (Some reply) ->
  _unpack (repeat fmt_H 7) (slice reply 1 15) = Ok (lit :: 0xE000 :: rest ++ post) ->
  dpi_literal lit = true ->
  forallb dpi_literal rest = true ->
  dpi_terminated post ->
  _feature_adjustable_dpi_callback _F device
  = Ok (ret_validator (_ChoicesV (Some (NamedInts_list (lit :: rest))) (Some 3) None None)).
Proof.
  intros Hreply Hunpack Hlit Hrest Hpost.
  rewrite (dpi_callback_on_reply _ _ _ _ Hreply Hunpack).
  rewrite dpi_loop_literal by exact Hlit.
  rewrite dpi_loop_step by reflexivity.
  cbn [app is_None List.length Nat.eqb andb py_assert rbind].
  rewrite dpi_loop_literals, dpi_loop_end by assumption.
  reflexivity.
Qed.

Lemma dpi_zero_step_ignored_witness :
  _feature_adjustable_dpi_callback FEATURE_sample
    (sample_device [ADJUSTABLE_DPI FEATURE_sample] (Some (45 # 10))
                   (dpi_request (dpi_reply [800; 0xE000; 1600; 0; 0; 0; 0])))
  = Ok (ret_validator (_ChoicesV (Some (NamedInts_list [800; 1600])) (Some 3) None None)).
Proof.
  apply (dpi_zero_step_ignored FEATURE_sample
           (sample_device [ADJUSTABLE_DPI FEATURE_sample] (Some (45 # 10))
                          (dpi_request (dpi_reply [800; 0xE000; 1600; 0; 0; 0; 0])))
           (dpi_reply [800; 0xE000; 1600; 0; 0; 0; 0]) 800 [1600] [0; 0; 0; 0]);
    reflexivity.
Defined.

(** C10, as stated, fails when another step value follows the zero step: the
    reply 800, 0xE000, 0xE0C8 has the zero step after exactly one literal,
    and the resolver raises. *)
Lemma dpi_zero_step_then_step_raises :
  let device :=
    sample_device [ADJUSTABLE_DPI FEATURE_sample] (Some (45 # 10))
                  (dpi_request (dpi_reply [800; 0xE000; 0xE0C8; 0; 0; 0; 0])) in
  _unpack (repeat fmt_H 7) (slice (dpi_reply [800; 0xE000; 0xE0C8; 0; 0; 0; 0]) 1 15)
  = Ok [800; 0xE000; 0xE0C8; 0; 0; 0; 0]
  /\ dpi_literal 800 = true
  /\ Z.shiftr 0xE000 13 = 7 /\ Z.land 0xE000 0x1fff = 0
  /\ _feature_adjustable_dpi_callback FEATURE_sample device
     = Raise (AssertionError "Invalid DPI list item: 57544").
Proof.
  repeat split.
Qed.

(** ** Negotiation *)

Lemma snd_mbind {A B : Type} (m : M A) (k : A -> M B) (a : A) :
  snd m = Ok a -> snd (mbind m k) = snd (k a).
Proof.
  destruct m as [t r]. simpl. intros ->. destruct (k a). reflexivity.
Qed.

Lemma fst_mbind {A B : Type} (m : M A) (k : A -> M B) (a : A) :
  snd m = Ok a -> fst (mbind m k) = fst m ++ fst (k a).
Proof.
  destruct m as [t r]. simpl. intros ->. destruct (k a). reflexivity.
Qed.

Lemma known_by_name_In (n : string) (known : list Setting) :
  known_by_name n known = true <-> In n (map name known).
Proof.
  unfold known_by_name. rewrite existsb_exists, in_map_iff. split.
  - intros (s & Hs & E). apply String.eqb_eq in E. eauto.
  - intros (s & E & Hs). exists s. split; [exact Hs|]. apply String.eqb_eq. exact E.
Qed.

Lemma known_by_name_app (n : string) (known added : list Setting) :
  known_by_name n (known ++ added) = known_by_name n known || known_by_name n added.
Proof. unfold known_by_name. apply existsb_app. Qed.

Lemma Setting_call_name (t s : Setting) (device : Device) :
  Setting_call t device = Ok (Some s) -> name s = name t.
Proof.
  unfold Setting_call. destruct (_callback t) as [callback|].
  - destruct (callback device) as [[| |v]|e]; simpl; intros H; inversion H. reflexivity.
  - intros H. inversion H. reflexivity.
Qed.

Lemma NoDup_snoc {A : Type} (l : list A) (x : A) :
  NoDup l -> ~ In x l -> NoDup (l ++ [x]).
Proof.
  induction l as [|y l IH]; intros Hnd Hx.
  - constructor; [intros []|constructor].
  - inversion Hnd as [|? ? Hy Hl]; subst. cbn [app]. constructor.
    + intros Hin. apply in_app_or in Hin. destruct Hin as [Hin|[<-|[]]].
      * exact (Hy Hin).
      * apply Hx. left. reflexivity.
    + apply IH; [exact Hl|]. intros Hin. apply Hx. right. exact Hin.
Qed.

Section Rows.

Variable dbg : bool.
Variable device : Device.
Variable fs : list Z.
Hypothesis Hfs : features device = Some fs.

(** [check_feature] on a device that has features: it returns, and it logs
    what the constructor raised. *)
Lemma check_feature_eq (n : string) (featureId : Z) (featureFn : unit -> Setting) :
  check_feature dbg device n featureId featureFn
  = if existsb (Z.eqb featureId) fs then
      match Setting_call (featureFn tt) device with
      | Ok detected =>
          (ev_call featureId n :: (if dbg then [ev_debug featureId detected] else []),
           Ok detected)
      | Raise e => ([ev_call featureId n; ev_error featureId e], Ok None)
      end
    else ([], Ok None).
Proof.
  unfold check_feature, in_features. rewrite Hfs. cbn [lift mbind].
  destruct (existsb (Z.eqb featureId) fs); cbn [negb]; [|reflexivity].
  destruct (Setting_call (featureFn tt) device) as [detected|e]; destruct dbg; reflexivity.
Qed.

Lemma check_row_snd (row : Row) (known : list Setting) :
  snd (check_row dbg device row known) = Ok (after_row device known row).
Proof.
  destruct row as [[[[n featureId] featureFn] registerFn] identifier].
  unfold check_row, after_row, row_setting.
  cbn [row_name row_featureId row_featureFn]. rewrite Hfs.
  destruct featureId as [featureId|]; [|destruct (known_by_name n known); reflexivity].
  destruct featureFn as [featureFn|]; [|destruct (known_by_name n known); reflexivity].
  destruct (featureId =? 0); cbn [negb andb];
    [destruct (known_by_name n known); reflexivity|].
  destruct (known_by_name n known); cbn [negb]; [reflexivity|].
  rewrite check_feature_eq.
  destruct (existsb (Z.eqb featureId) fs); [|reflexivity].
  destruct (Setting_call (featureFn tt) device) as [[s|]|e]; reflexivity.
Qed.

Lemma check_rows_snd (table : list Row) :
  forall known,
    snd (check_rows dbg device table known) = Ok (fold_left (after_row device) table known).
Proof.
  induction table as [|row table IH]; intros known.
  - reflexivity.
  - cbn [check_rows fold_left].
    rewrite (snd_mbind _ _ _ (check_row_snd row known)). apply IH.
Qed.

(** The trace of a row: the call of the constructor and what is logged. *)
Lemma check_row_fst (n : string) (featureId : Z) (featureFn : unit -> Setting)
    (registerFn : option RegisterFn) (identifier : string) (known : list Setting) :
  fst (check_row dbg device (n, Some featureId, Some featureFn, registerFn, identifier) known)
  = if negb (featureId =? 0) && negb (known_by_name n known)
       && existsb (Z.eqb featureId) fs
    then ev_call featureId n
           :: match Setting_call (featureFn tt) device with
              | Ok detected => if dbg then [ev_debug featureId detected] else []
              | Raise e => [ev_error featureId e]
              end
    else [].
Proof.
  unfold check_row.
  destruct (featureId =? 0); cbn [negb andb]; [reflexivity|].
  destruct (known_by_name n known); cbn [negb andb]; [reflexivity|].
  rewrite check_feature_eq.
  destruct (existsb (Z.eqb featureId) fs); [|reflexivity].
  destruct (Setting_call (featureFn tt) device) as [[s|]|e]; destruct dbg; reflexivity.
Qed.

(** Rows only add to the list. *)
Lemma after_row_extends (known : list Setting) (row : Row) :
  exists added, after_row device known row = known ++ added
                /\ forall s, In s added -> row_setting device row = Some s
                                          /\ known_by_name (row_name row) known = false.
Proof.
  unfold after_row. destruct (known_by_name (row_name row) known) eqn:E.
  - exists []. rewrite app_nil_r. split; [reflexivity|]. intros s [].
  - destruct (row_setting device row) as [s|].
    + exists [s]. split; [reflexivity|]. intros s' [<-|[]]. auto.
    + exists []. rewrite app_nil_r. split; [reflexivity|]. intros s [].
Qed.

Lemma after_rows_extends (table : list Row) :
  forall known, exists added, fold_left (after_row device) table known = known ++ added.
Proof.
  induction table as [|row table IH]; intros known.
  - exists []. rewrite app_nil_r. reflexivity.
  - cbn [fold_left]. destruct (after_row_extends known row) as (a1 & E1 & _).
    destruct (IH (after_row device known row)) as (a2 & E2).
    exists (a1 ++ a2). rewrite E2, E1, app_assoc. reflexivity.
Qed.

Lemma after_rows_keeps_names (table : list Row) (known : list Setting) (n : string) :
  known_by_name n known = true ->
  known_by_name n (fold_left (after_row device) table known) = true.
Proof.
  intros H. destruct (after_rows_extends table known) as (added & ->).
  rewrite known_by_name_app, H. reflexivity.
Qed.

Lemma after_row_absent (known : list Setting) (row : Row) :
  row_absent fs row -> after_row device known row = known.
Proof.
  intros Habs. unfold after_row, row_setting. rewrite Hfs.
  destruct (known_by_name (row_name row) known); [reflexivity|].
  destruct (row_featureId row) as [featureId|] eqn:E; [|reflexivity].
  destruct (row_featureFn row); [|reflexivity].
  destruct (existsb (Z.eqb featureId) fs) eqn:Ex.
  - exfalso. apply existsb_exists in Ex. destruct Ex as (x & Hx & Ex).
    apply Z.eqb_eq in Ex. subst x. exact (Habs featureId E Hx).
  - rewrite andb_false_r. reflexivity.
Qed.

Lemma after_rows_absent (table : list Row) (known : list Setting) :
  Forall (row_absent fs) table -> fold_left (after_row device) table known = known.
Proof.
  induction 1 as [|row table Hrow _ IH]; [reflexivity|].
  cbn [fold_left]. rewrite after_row_absent by exact Hrow. exact IH.
Qed.

Lemma row_setting_well_named (row : Row) (s : Setting) :
  row_well_named row = true -> row_setting device row = Some s -> name s = row_name row.
Proof.
  unfold row_well_named, row_setting. rewrite Hfs.
  destruct (row_featureId row) as [featureId|]; [|discriminate].
  destruct (row_featureFn row) as [featureFn|]; [|discriminate].
  intros Hn. apply String.eqb_eq in Hn.
  destruct (negb (featureId =? 0) && existsb (Z.eqb featureId) fs); [|discriminate].
  destruct (Setting_call (featureFn tt) device) as [[s'|]|e] eqn:E; try discriminate.
  intros H. inversion H. subst s'. rewrite <- Hn. eapply Setting_call_name. exact E.
Qed.

(** On a table whose constructors keep the names of their rows, a row of the
    table finds its name in the list after the run, or yields no setting. *)
Lemma after_rows_settled (table : list Row) :
  forall known row,
    forallb row_well_named table = true ->
    In row table ->
    known_by_name (row_name row) (fold_left (after_row device) table known) = true
    \/ row_setting device row = None.
Proof.
  induction table as [|r table IH]; intros known row Hwn Hin; [destruct Hin|].
  cbn [forallb] in Hwn. apply andb_true_iff in Hwn. destruct Hwn as [Hr Hwn].
  cbn [fold_left]. destruct Hin as [<-|Hin]; [|apply IH; assumption].
  unfold after_row at 2.
  destruct (known_by_name (row_name r) known) eqn:E.
  - left. apply after_rows_keeps_names. exact E.
  - destruct (row_setting device r) as [s|] eqn:Es; [|right; reflexivity].
    left. apply after_rows_keeps_names. rewrite known_by_name_app.
    cbn [known_by_name existsb].
    rewrite (row_setting_well_named r s Hr Es), String.eqb_refl, orb_true_r. reflexivity.
Qed.

Lemma after_rows_fixed (table : list Row) (known : list Setting) :
  (forall row, In row table ->
               known_by_name (row_name row) known = true \/ row_setting device row = None) ->
  fold_left (after_row device) table known = known.
Proof.
  induction table as [|r table IH]; intros H; [reflexivity|].
  cbn [fold_left].
  assert (E : after_row device known r = known).
  { unfold after_row. destruct (H r (or_introl eq_refl)) as [Hk|Hn].
    - rewrite Hk. reflexivity.
    - rewrite Hn. destruct (known_by_name (row_name r) known); reflexivity. }
  rewrite E. apply IH. intros row Hin. apply H. right. exact Hin.
Qed.

Lemma after_rows_idempotent (table : list Row) (known : list Setting) :
  forallb row_well_named table = true ->
  fold_left (after_row device) table (fold_left (after_row device) table known)
  = fold_left (after_row device) table known.
Proof.
  intros Hwn. apply after_rows_fixed. intros row Hin.
  apply after_rows_settled; assumption.
Qed.

Lemma after_rows_NoDup (table : list Row) :
  forall known,
    forallb row_well_named table = true ->
    NoDup (map name known) ->
    NoDup (map name (fold_left (after_row device) table known)).
Proof.
  induction table as [|r table IH]; intros known Hwn Hnd; [exact Hnd|].
  cbn [forallb] in Hwn. apply andb_true_iff in Hwn. destruct Hwn as [Hr Hwn].
  cbn [fold_left]. apply IH; [exact Hwn|].
  unfold after_row. destruct (known_by_name (row_name r) known) eqn:E; [exact Hnd|].
  destruct (row_setting device r) as [s|] eqn:Es; [|exact Hnd].
  rewrite map_app. cbn [map]. apply NoDup_snoc; [exact Hnd|].
  rewrite (row_setting_well_named r s Hr Es), <- known_by_name_In, E. discriminate.
Qed.

End Rows.

Lemma check_feature_settings_in_snd (dbg : bool) (table : list Row) (device : Device)
    (known : list Setting) :
  snd (check_feature_settings_in dbg table device known)
  = Ok (if is_None (features device) || negb (online device) then (false, known)
        else if protocol_below_2 device then (false, known)
        else (true, fold_left (after_row device) table known)).
Proof.
  unfold check_feature_settings_in.
  destruct (features device) as [fs|] eqn:Hfs; [|reflexivity].
  cbn [is_None orb].
  destruct (online device); cbn [negb]; [|reflexivity].
  destruct (protocol_below_2 device); [reflexivity|].
  rewrite (snd_mbind _ _ _ (check_rows_snd dbg device fs Hfs table known)).
  reflexivity.
Qed.

Lemma check_feature_settings_in_fst (dbg : bool) (table : list Row) (device : Device)
    (known : list Setting) :
  fst (check_feature_settings_in dbg table device known)
  = if is_None (features device) || negb (online device) then []
    else if protocol_below_2 device then []
    else fst (check_rows dbg device table known).
Proof.
  unfold check_feature_settings_in.
  destruct (features device) as [fs|] eqn:Hfs; [|reflexivity].
  cbn [is_None orb].
  destruct (online device); cbn [negb]; [|reflexivity].
  destruct (protocol_below_2 device); [reflexivity|].
  rewrite (fst_mbind _ _ _ (check_rows_snd dbg device fs Hfs table known)).
  apply app_nil_r.
Qed.

Lemma In_existsb (x : Z) (fs : list Z) : In x fs -> existsb (Z.eqb x) fs = true.
Proof.
  intros H. apply existsb_exists. exists x. split; [exact H|apply Z.eqb_refl].
Qed.

Lemma row_setting_eq (device : Device) (fs : list Z) (row : Row) (featureId : Z)
    (featureFn : unit -> Setting) :
  features device = Some fs ->
  row_featureId row = Some featureId ->
  row_featureFn row = Some featureFn ->
  featureId <> 0 ->
  In featureId fs ->
  row_setting device row
  = match Setting_call (featureFn tt) device with
    | Ok (Some s) => Some s
    | _ => None
    end.
Proof.
  intros Hfs Hid Hfn Hnz Hin. unfold row_setting. rewrite Hid, Hfn, Hfs.
  apply Z.eqb_neq in Hnz. rewrite Hnz, (In_existsb _ _ Hin). reflexivity.
Qed.

Lemma check_row_absent (dbg : bool) (device : Device) (fs : list Z) (row : Row)
    (known : list Setting) :
  features device = Some fs ->
  row_absent fs row ->
  check_row dbg device row known = ([], Ok known).
Proof.
  intros Hfs Habs.
  destruct row as [[[[n featureId] featureFn] registerFn] identifier].
  unfold check_row.
  destruct featureId as [featureId|]; [|reflexivity].
  destruct featureFn as [featureFn|]; [|reflexivity].
  destruct (featureId =? 0); cbn [negb]; [reflexivity|].
  destruct (known_by_name n known); cbn [negb]; [reflexivity|].
  rewrite (check_feature_eq dbg device fs Hfs).
  destruct (existsb (Z.eqb featureId) fs) eqn:Ex; [|reflexivity].
  exfalso. apply existsb_exists in Ex. destruct Ex as (x & Hx & Ex).
  apply Z.eqb_eq in Ex. subst x. exact (Habs featureId eq_refl Hx).
Qed.

(** C1, as amended. On a device that passes the gates and advertises the
    features of the rows [A] and [C] of the table and of no other row, when
    the constructors of [A] and [C] yield settings and the setting of [A]
    does not have the name of the row [C], [check_feature_settings] leaves
    exactly the setting of [A] and then the setting of [C], in the order of
    the rows; a row whose feature the device does not advertise is not
    probed and adds nothing. *)
Theorem check_feature_settings_catalog_order (dbg : bool) (device : Device) (fs : list Z)
    (T1 T2 T3 : list Row) (A C : Row) (fA fC : Z) (fnA fnC : unit -> Setting)
    (sA sC : Setting) :
  features device = Some fs ->
  online device = true ->
  protocol_below_2 device = false ->
  Forall (row_absent fs) T1 -> Forall (row_absent fs) T2 -> Forall (row_absent fs) T3 ->
  row_featureId A = Some fA -> row_featureFn A = Some fnA -> fA <> 0 -> In fA fs ->
  Setting_call (fnA tt) device = Ok (Some sA) ->
  row_featureId C = Some fC -> row_featureFn C = Some fnC -> fC <> 0 -> In fC fs ->
  Setting_call (fnC tt) device = Ok (Some sC) ->
  name sA <> row_name C ->
  snd (check_feature_settings_in dbg (T1 ++ A :: T2 ++ C :: T3) device [])
  = Ok (true, [sA; sC])
  /\ forall row known, row_absent fs row -> check_row dbg device row known = ([], Ok known).
Proof.
  intros Hfs Hon Hp H1 H2 H3 HAid HAfn HAnz HAin HA HCid HCfn HCnz HCin HC Hname.
  split; [|intros row known; apply check_row_absent; exact Hfs].
  rewrite check_feature_settings_in_snd, Hfs, Hon, Hp. cbn [is_None negb orb].
  rewrite fold_left_app. cbn [fold_left]. rewrite fold_left_app. cbn [fold_left].
  rewrite (after_rows_absent device fs Hfs T1 [] H1).
  assert (EA : after_row device [] A = [sA]).
  { unfold after_row. cbn [known_by_name existsb].
    rewrite (row_setting_eq device fs A fA fnA Hfs HAid HAfn HAnz HAin), HA. reflexivity. }
  rewrite EA, (after_rows_absent device fs Hfs T2 [sA] H2).
  assert (EC : after_row device [sA] C = [sA; sC]).
  { unfold after_row. cbn [known_by_name existsb].
    apply String.eqb_neq in Hname. rewrite Hname. cbn [orb].
    rewrite (row_setting_eq device fs C fC fnC Hfs HCid HCfn HCnz HCin), HC. reflexivity. }
  rewrite EC, (after_rows_absent device fs Hfs T3 [sA; sC] H3). reflexivity.
Qed.

Lemma check_feature_on_raise (dbg : bool) (device : Device) (fs : list Z) (n : string)
    (featureId : Z) (featureFn : unit -> Setting) (e : exn) :
  features device = Some fs ->
  In featureId fs ->
  Setting_call (featureFn tt) device = Raise e ->
  check_feature dbg device n featureId featureFn
  = ([ev_call featureId n; ev_error featureId e], Ok None).
Proof.
  intros Hfs Hin Hraise.
  rewrite (check_feature_eq dbg device fs Hfs), (In_existsb _ _ Hin), Hraise.
  reflexivity.
Qed.

Lemma check_row_on_raise (dbg : bool) (device : Device) (fs : list Z) (n : string)
    (featureId : Z) (featureFn : unit -> Setting) (registerFn : option RegisterFn)
    (identifier : string) (e : exn) (known : list Setting) :
  features device = Some fs ->
  In featureId fs ->
  Setting_call (featureFn tt) device = Raise e ->
  check_row dbg device (n, Some featureId, Some featureFn, registerFn, identifier) known
  = (if negb (featureId =? 0) && negb (known_by_name n known)
     then [ev_call featureId n; ev_error featureId e] else [],
     Ok known).
Proof.
  intros Hfs Hin Hraise. unfold check_row.
  destruct (featureId =? 0); cbn [negb andb]; [reflexivity|].
  destruct (known_by_name n known); cbn [negb andb]; [reflexivity|].
  rewrite (check_feature_on_raise dbg device fs n featureId featureFn e Hfs Hin Hraise).
  reflexivity.
Qed.

(** C2. When the constructor of a row raises on the device,
    [check_feature] catches the exception, logs it with the feature and
    returns [None]; the row leaves the list as it is; the run gives the list
    it gives without the row, and it returns: nothing is raised to the
    caller. *)
Theorem check_feature_settings_isolates_failures (dbg : bool) (device : Device)
    (fs : list Z) (T1 T2 : list Row) (n : string) (featureId : Z)
    (featureFn : unit -> Setting) (registerFn : option RegisterFn) (identifier : string)
    (e : exn) (known : list Setting) :
  features device = Some fs ->
  In featureId fs ->
  Setting_call (featureFn tt) device = Raise e ->
  let row := (n, Some featureId, Some featureFn, registerFn, identifier) in
  check_feature dbg device n featureId featureFn
  = ([ev_call featureId n; ev_error featureId e], Ok None)
  /\ (forall known',
         check_row dbg device row known'
         = (if negb (featureId =? 0) && negb (known_by_name n known')
            then [ev_call featureId n; ev_error featureId e] else [],
            Ok known'))
  /\ snd (check_feature_settings_in dbg (T1 ++ row :: T2) device known)
     = snd (check_feature_settings_in dbg (T1 ++ T2) device known)
  /\ exists flag l,
       snd (check_feature_settings_in dbg (T1 ++ row :: T2) device known) = Ok (flag, l).
Proof.
  intros Hfs Hin Hraise row.
  assert (Hrow : forall known', after_row device known' row = known').
  { intros known'. unfold after_row, row_setting.
    cbn [row row_name row_featureId row_featureFn]. rewrite Hfs, Hraise.
    destruct (known_by_name n known'); [reflexivity|].
    destruct (negb (featureId =? 0) && existsb (Z.eqb featureId) fs); reflexivity. }
  split; [apply (check_feature_on_raise dbg device fs); assumption|]. split; [|split].
  - intros known'. apply (check_row_on_raise dbg device fs); assumption.
  - rewrite !check_feature_settings_in_snd.
    rewrite !fold_left_app. cbn [fold_left]. rewrite Hrow. reflexivity.
  - rewrite check_feature_settings_in_snd.
    destruct (is_None (features device) || negb (online device)); [eauto|].
    destruct (protocol_below_2 device); eauto.
Qed.

Lemma row_absent_b_Forall (fs : list Z) (table : list Row) :
  forallb (row_absent_b fs) table = true -> Forall (row_absent fs) table.
Proof.
  intros H. apply Forall_forall. intros row Hrow featureId Hid Hin.
  rewrite forallb_forall in H. specialize (H row Hrow).
  unfold row_absent_b in H. rewrite Hid, (In_existsb _ _ Hin) in H. discriminate.
Qed.

Lemma check_feature_settings_catalog_order_witness :
  snd (check_feature_settings FEATURE_sample REGISTERS_sample "host" false
         (sample_device [HI_RES_SCROLLING FEATURE_sample; POINTER_SPEED FEATURE_sample]
                        (Some (45 # 10)) no_reply) [])
  = Ok (true, [_feature_hi_res_scroll FEATURE_sample tt;
               _feature_pointer_speed FEATURE_sample tt]).
Proof.
  pose (table := _SETTINGS_TABLE FEATURE_sample REGISTERS_sample "host").
  pose (fs := [HI_RES_SCROLLING FEATURE_sample; POINTER_SPEED FEATURE_sample]).
  pose (device := sample_device fs (Some (45 # 10)) no_reply).
  refine (proj1 (check_feature_settings_catalog_order false device fs
            (firstn 3 table) (firstn 7 (skipn 4 table)) (skipn 12 table)
            (_S _HI_RES_SCROLL (Some (HI_RES_SCROLLING FEATURE_sample))
                (Some (_feature_hi_res_scroll FEATURE_sample)) None None)
            (_S _POINTER_SPEED (Some (POINTER_SPEED FEATURE_sample))
                (Some (_feature_pointer_speed FEATURE_sample)) None None)
            (HI_RES_SCROLLING FEATURE_sample) (POINTER_SPEED FEATURE_sample)
            (_feature_hi_res_scroll FEATURE_sample) (_feature_pointer_speed FEATURE_sample)
            (_feature_hi_res_scroll FEATURE_sample tt) (_feature_pointer_speed FEATURE_sample tt)
            eq_refl eq_refl eq_refl _ _ _ eq_refl eq_refl _ _ eq_refl
            eq_refl eq_refl _ _ eq_refl _)).
  - apply row_absent_b_Forall. reflexivity.
  - apply row_absent_b_Forall. reflexivity.
  - apply row_absent_b_Forall. reflexivity.
  - discriminate.
  - left. reflexivity.
  - discriminate.
  - right. left. reflexivity.
  - discriminate.
Defined.

(** C1, as stated, fails for rows of one name: the table has the rows
    [fn_swap], [new_fn_swap] and [k375s_fn_swap] in this order, the device
    advertises the features of the first and of the third but not of the
    second, both constructors yield a setting, and the list holds the
    setting of the first row only. *)
Lemma fn_swap_rows_give_one_setting :
  let table := _SETTINGS_TABLE FEATURE_sample REGISTERS_sample "host" in
  let fs := [FN_INVERSION FEATURE_sample; K375S_FN_INVERSION FEATURE_sample] in
  let device := sample_device fs (Some (45 # 10)) no_reply in
  firstn 3 (skipn 7 table)
  = [("fn-swap", Some (FN_INVERSION FEATURE_sample), Some (_feature_fn_swap FEATURE_sample),
      Some (register_fn (_register_fn_swap REGISTERS_sample)), "fn_swap");
     ("fn-swap", Some (NEW_FN_INVERSION FEATURE_sample),
      Some (_feature_new_fn_swap FEATURE_sample), None, "new_fn_swap");
     ("fn-swap", Some (K375S_FN_INVERSION FEATURE_sample),
      Some (_feature_k375s_fn_swap FEATURE_sample), None, "k375s_fn_swap")]
  /\ forallb (row_absent_b fs) (firstn 7 table ++ skipn 10 table) = true
  /\ ~ In (NEW_FN_INVERSION FEATURE_sample) fs
  /\ Setting_call (_feature_fn_swap FEATURE_sample tt) device
     = Ok (Some (_feature_fn_swap FEATURE_sample tt))
  /\ Setting_call (_feature_k375s_fn_swap FEATURE_sample tt) device
     = Ok (Some (_feature_k375s_fn_swap FEATURE_sample tt))
  /\ check_feature_settings FEATURE_sample REGISTERS_sample "host" false device []
     = ([ev_call (FN_INVERSION FEATURE_sample) "fn-swap"],
        Ok (true, [_feature_fn_swap FEATURE_sample tt])).
Proof.
  cbv zeta. repeat split. intros [H|[H|[]]]; discriminate H.
Qed.

Lemma check_feature_settings_isolates_failures_witness :
  let device :=
    sample_device [HI_RES_SCROLLING FEATURE_sample; ADJUSTABLE_DPI FEATURE_sample]
                  (Some (45 # 10)) no_reply in
  check_feature false device "dpi" (ADJUSTABLE_DPI FEATURE_sample)
                (_feature_adjustable_dpi FEATURE_sample)
  = ([ev_call (ADJUSTABLE_DPI FEATURE_sample) "dpi";
      ev_error (ADJUSTABLE_DPI FEATURE_sample)
               (AssertionError "Oops, DPI list cannot be retrieved!")], Ok None)
  /\ snd (check_feature_settings FEATURE_sample REGISTERS_sample "host" false device [])
     = Ok (true, [_feature_hi_res_scroll FEATURE_sample tt]).
Proof.
  intros device.
  pose (table := _SETTINGS_TABLE FEATURE_sample REGISTERS_sample "host").
  destruct (check_feature_settings_isolates_failures false device
              [HI_RES_SCROLLING FEATURE_sample; ADJUSTABLE_DPI FEATURE_sample]
              (firstn 10 table) (skipn 11 table)
              "dpi" (ADJUSTABLE_DPI FEATURE_sample) (_feature_adjustable_dpi FEATURE_sample)
              (Some (register_fn_choices (_register_dpi REGISTERS_sample))) "dpi"
              (AssertionError "Oops, DPI list cannot be retrieved!") [])
    as (Hcf & _ & Hrun & _).
  - reflexivity.
  - right. left. reflexivity.
  - reflexivity.
  - split; [exact Hcf|].
    change (snd (check_feature_settings FEATURE_sample REGISTERS_sample "host" false device []))
      with (snd (check_feature_settings_in false
                   (firstn 10 table
                    ++ ("dpi", Some (ADJUSTABLE_DPI FEATURE_sample),
                        Some (_feature_adjustable_dpi FEATURE_sample),
                        Some (register_fn_choices (_register_dpi REGISTERS_sample)), "dpi")
                    :: skipn 11 table) device [])).
    rewrite Hrun. reflexivity.
Defined.

(** ** Inconsistent DPI lists *)

Lemma dpi_inconsistent_raises (pre post : list Z) :
  Forall (fun x => x <> 0) pre ->
  dpi_terminated post ->
  dpi_inconsistent pre ->
  exists msg,
    (r <- dpi_list_loop (pre ++ post) [] None ;;
     dpi_list <- dpi_list_expand (fst r) (snd r) ;;
     Ok (dpi_choices dpi_list))
    = Raise (AssertionError msg).
Proof.
  intros Hnz Hpost [(l1 & v & l2 & -> & Hv & Hlen)
                   |[(l1 & v & l2 & w & l3 & -> & Hv & Hw)
                    |(v & Hin & Hv & Hstep & Hlen)]].
  - apply Forall_app in Hnz. destruct Hnz as [Hnz1 _].
    rewrite <- app_assoc, <- app_comm_cons.
    destruct (dpi_loop_step_misplaced l1 v (l2 ++ post) [] None Hnz1 Hv Hlen) as (msg & ->).
    exists msg. reflexivity.
  - assert (Hnz1 : Forall (fun x => x <> 0) (l1 ++ v :: l2)).
    { replace (l1 ++ v :: l2 ++ w :: l3) with ((l1 ++ v :: l2) ++ w :: l3) in Hnz
        by (rewrite <- app_assoc; reflexivity).
      apply Forall_app in Hnz. tauto. }
    replace ((l1 ++ v :: l2 ++ w :: l3) ++ post) with (l1 ++ v :: l2 ++ w :: (l3 ++ post))
      by (rewrite <- !app_assoc, <- !app_comm_cons, <- app_assoc; reflexivity).
    destruct (dpi_loop_two_steps l1 v l2 w (l3 ++ post) [] None Hnz1 Hv Hw) as (msg & ->).
    exists msg. reflexivity.
  - destruct (dpi_list_loop (pre ++ post) [] None) as [[dl st]|e] eqn:E.
    + destruct (dpi_loop_ok pre post [] None dl st Hnz Hpost E) as [Hdl Hst].
      rewrite (Hst v Hin Hv). cbn [rbind fst snd dpi_list_expand].
      apply Z.eqb_neq in Hstep. rewrite Hstep.
      cbn [app] in Hdl. subst dl. apply Nat.eqb_neq in Hlen. rewrite Hlen.
      cbn [py_assert rbind]. eauto.
    + destruct (dpi_loop_raise _ _ _ _ E) as (msg & ->). exists msg. reflexivity.
Qed.

(** C5, as amended. When a step value does not come after exactly one
    literal, when there are two step values, or when a step other than zero
    comes with other than two literals, the resolver raises;
    [check_feature] catches the error, logs it and returns [None], and the
    row of the table adds no setting. *)
Theorem dpi_inconsistency_raises (_F : FEATURE) (_R : REGISTERS) (dbg : bool)
    (device : Device) (fs : list Z) (reply : bytes) (pre post : list Z) :
  features device = Some fs ->
  In (ADJUSTABLE_DPI _F) fs ->
  feature_request device (ADJUSTABLE_DPI _F) 0x10 [] = Ok (Some reply) ->
  _unpack (repeat fmt_H 7) (slice reply 1 15) = Ok (pre ++ post) ->
  Forall (fun x => x <> 0) pre ->
  dpi_terminated post ->
  dpi_inconsistent pre ->
  exists msg,
    _feature_adjustable_dpi_callback _F device = Raise (AssertionError msg)
    /\ check_feature dbg device "dpi" (ADJUSTABLE_DPI _F) (_feature_adjustable_dpi _F)
       = ([ev_call (ADJUSTABLE_DPI _F) "dpi";
           ev_error (ADJUSTABLE_DPI _F) (AssertionError msg)], Ok None)
    /\ forall known,
         snd (check_row dbg device
                (_S _DPI (Some (ADJUSTABLE_DPI _F)) (Some (_feature_adjustable_dpi _F))
                    (Some (register_fn_choices (_register_dpi _R))) None) known)
         = Ok known.
Proof.
  intros Hfs Hin Hreply Hunpack Hnz Hpost Hbad.
  destruct (dpi_inconsistent_raises pre post Hnz Hpost Hbad) as (msg & Hmsg).
  exists msg.
  assert (Hcb : _feature_adjustable_dpi_callback _F device = Raise (AssertionError msg)).
  { rewrite (dpi_callback_on_reply _ _ _ _ Hreply Hunpack). exact Hmsg. }
  assert (Hcall : Setting_call (_feature_adjustable_dpi _F tt) device
                  = Raise (AssertionError msg)).
  { unfold Setting_call. cbn [_feature_adjustable_dpi new_setting _DPI _callback].
    rewrite Hcb. reflexivity. }
  split; [exact Hcb|].
  split; [apply (check_feature_on_raise dbg device fs); assumption|].
  intros known. change (_S _DPI (Some (ADJUSTABLE_DPI _F)) (Some (_feature_adjustable_dpi _F))
                           (Some (register_fn_choices (_register_dpi _R))) None)
    with ("dpi", Some (ADJUSTABLE_DPI _F), Some (_feature_adjustable_dpi _F),
          Some (register_fn_choices (_register_dpi _R)), "dpi").
  rewrite (check_row_on_raise dbg device fs "dpi" (ADJUSTABLE_DPI _F)
             (_feature_adjustable_dpi _F) _ "dpi" (AssertionError msg) known Hfs Hin Hcall).
  reflexivity.
Qed.

Lemma dpi_inconsistency_raises_witness :
  let reply := dpi_reply [800; 0xE0C8; 0; 0; 0; 0; 0] in
  let device :=
    sample_device [ADJUSTABLE_DPI FEATURE_sample] (Some (45 # 10)) (dpi_request reply) in
  exists msg,
    _feature_adjustable_dpi_callback FEATURE_sample device = Raise (AssertionError msg)
    /\ check_feature false device "dpi" (ADJUSTABLE_DPI FEATURE_sample)
                     (_feature_adjustable_dpi FEATURE_sample)
       = ([ev_call (ADJUSTABLE_DPI FEATURE_sample) "dpi";
           ev_error (ADJUSTABLE_DPI FEATURE_sample) (AssertionError msg)], Ok None).
Proof.
  intros reply device.
  destruct (dpi_inconsistency_raises FEATURE_sample REGISTERS_sample false device
              [ADJUSTABLE_DPI FEATURE_sample] reply [800; 0xE0C8] [0; 0; 0; 0; 0])
    as (msg & Hcb & Hcf & _).
  - reflexivity.
  - left. reflexivity.
  - reflexivity.
  - reflexivity.
  - repeat constructor; discriminate.
  - reflexivity.
  - right. right. exists 0xE0C8. repeat split.
    + right. left. reflexivity.
    + discriminate.
    + discriminate.
  - exists msg. exact (conj Hcb Hcf).
Defined.

(** C5, as stated, fails for a step of zero: the reply 800, 0xE000 holds a
    step value and one literal, not two, and the resolver returns the
    choice 800 instead of raising. *)
Lemma dpi_zero_step_one_literal_returns :
  let reply := dpi_reply [800; 0xE000; 0; 0; 0; 0; 0] in
  let device :=
    sample_device [ADJUSTABLE_DPI FEATURE_sample] (Some (45 # 10)) (dpi_request reply) in
  _unpack (repeat fmt_H 7) (slice reply 1 15) = Ok ([800; 0xE000] ++ [0; 0; 0; 0; 0])
  /\ Z.shiftr 0xE000 13 = 7
  /\ List.length (filter dpi_literal [800; 0xE000]) = 1%nat
  /\ _feature_adjustable_dpi_callback FEATURE_sample device
     = Ok (ret_validator (_ChoicesV (Some (NamedInts_list [800])) (Some 3) None None)).
Proof.
  repeat split.
Qed.

(** ** Rows, names and keys *)

Lemma SETTINGS_TABLE_well_named (_F : FEATURE) (_R : REGISTERS) (gethostname : string) :
  forallb row_well_named (_SETTINGS_TABLE _F _R gethostname) = true.
Proof. reflexivity. Qed.

Section Runs.

Variable dbg : bool.
Variable device : Device.
Variable fs : list Z.
Hypothesis Hfs : features device = Some fs.

(** A row with an advertised feature is probed, or its name is in the list. *)
Lemma check_rows_probes (table : list Row) :
  forall known n featureId featureFn registerFn identifier,
    In (n, Some featureId, Some featureFn, registerFn, identifier) table ->
    featureId <> 0 ->
    In featureId fs ->
    In (ev_call featureId n) (fst (check_rows dbg device table known))
    \/ known_by_name n (fold_left (after_row device) table known) = true.
Proof.
  induction table as [|r table IH];
    intros known n featureId featureFn registerFn identifier Hin Hnz Hadv; [destruct Hin|].
  cbn [check_rows].
  rewrite (fst_mbind _ _ _ (check_row_snd dbg device fs Hfs r known)).
  destruct Hin as [->|Hin].
  - destruct (known_by_name n known) eqn:E.
    + right. apply after_rows_keeps_names. exact E.
    + left. apply in_or_app. left.
      rewrite (check_row_fst dbg device fs Hfs), E, (In_existsb _ _ Hadv).
      apply Z.eqb_neq in Hnz. rewrite Hnz. left. reflexivity.
  - cbn [fold_left].
    destruct (IH (after_row device known r) n featureId featureFn registerFn identifier
                 Hin Hnz Hadv) as [H|H].
    + left. apply in_or_app. right. exact H.
    + right. exact H.
Qed.

(** What a run adds has new names, all different, on a table whose
    constructors keep the names of their rows. *)
Lemma after_rows_added (table : list Row) :
  forall known,
    forallb row_well_named table = true ->
    exists added,
      fold_left (after_row device) table known = known ++ added
      /\ (forall s, In s added -> ~ In (name s) (map name known))
      /\ NoDup (map name added).
Proof.
  induction table as [|r table IH]; intros known Hwn.
  - exists []. rewrite app_nil_r. split; [reflexivity|]. split; [intros s []|apply NoDup_nil].
  - cbn [forallb] in Hwn. apply andb_true_iff in Hwn. destruct Hwn as [Hr Hwn].
    cbn [fold_left]. unfold after_row at 2.
    destruct (known_by_name (row_name r) known) eqn:E; [apply IH; exact Hwn|].
    destruct (row_setting device r) as [s|] eqn:Es; [|apply IH; exact Hwn].
    destruct (IH (known ++ [s]) Hwn) as (added & Eq & Hnew & Hnd).
    assert (Hs : ~ In (name s) (map name known)).
    { rewrite (row_setting_well_named device fs Hfs r s Hr Es), <- known_by_name_In, E.
      discriminate. }
    exists (s :: added). split; [|split].
    + rewrite Eq, <- app_assoc. reflexivity.
    + intros s' [<-|Hs']; [exact Hs|].
      intros Hin. apply (Hnew s' Hs'). rewrite map_app. apply in_or_app. left. exact Hin.
    + cbn [map]. constructor; [|exact Hnd].
      intros Hin. apply in_map_iff in Hin. destruct Hin as (s' & Hn & Hs').
      apply (Hnew s' Hs'). rewrite map_app. apply in_or_app. right. left.
      symmetry. exact Hn.
Qed.

End Runs.

(** C6, as amended. A row is skipped when a setting of its name (the first
    string of its name triple, not its identifier) is in the list, and only
    then: a row whose feature is advertised and whose name is not in the
    list is probed. In a run over the table every row with an advertised
    feature is probed or finds its name in the list, and the run adds no
    second setting of a name. *)
Theorem rows_skipped_by_name (_F : FEATURE) (_R : REGISTERS) (gethostname : string)
    (dbg : bool) (device : Device) (fs : list Z) (known : list Setting) :
  features device = Some fs ->
  online device = true ->
  protocol_below_2 device = false ->
  NoDup (map name known) ->
  (forall n featureId featureFn registerFn identifier known',
      featureId <> 0 -> In featureId fs ->
      fst (check_row dbg device (n, Some featureId, Some featureFn, registerFn, identifier)
                     known')
      = if known_by_name n known' then []
        else ev_call featureId n
               :: match Setting_call (featureFn tt) device with
                  | Ok detected => if dbg then [ev_debug featureId detected] else []
                  | Raise e => [ev_error featureId e]
                  end)
  /\ exists l,
       snd (check_feature_settings _F _R gethostname dbg device known) = Ok (true, l)
       /\ NoDup (map name l)
       /\ forall n featureId featureFn registerFn identifier,
            In (n, Some featureId, Some featureFn, registerFn, identifier)
               (_SETTINGS_TABLE _F _R gethostname) ->
            featureId <> 0 -> In featureId fs ->
            In (ev_call featureId n)
               (fst (check_feature_settings _F _R gethostname dbg device known))
            \/ In n (map name l).
Proof.
  intros Hfs Hon Hp Hnd. split.
  - intros n featureId featureFn registerFn identifier known' Hnz Hadv.
    rewrite (check_row_fst dbg device fs Hfs), (In_existsb _ _ Hadv).
    apply Z.eqb_neq in Hnz. rewrite Hnz. cbn [negb andb].
    destruct (known_by_name n known'); reflexivity.
  - exists (fold_left (after_row device) (_SETTINGS_TABLE _F _R gethostname) known).
    unfold check_feature_settings.
    rewrite check_feature_settings_in_snd, check_feature_settings_in_fst, Hfs, Hon, Hp.
    cbn [is_None negb orb]. split; [reflexivity|]. split.
    + apply (after_rows_NoDup device fs Hfs); [apply SETTINGS_TABLE_well_named|exact Hnd].
    + intros n featureId featureFn registerFn identifier Hin Hnz Hadv.
      rewrite <- known_by_name_In.
      apply (check_rows_probes dbg device fs Hfs _ known n featureId featureFn registerFn
                               identifier Hin Hnz Hadv).
Qed.

(** C7. A run of [check_feature_settings] only appends to the list:
    settings whose names were not in the list, no two of one name; a second
    run on the list of the first run, on the same device, returns the same
    flag and leaves the list as it is. *)
Theorem check_feature_settings_idempotent (_F : FEATURE) (_R : REGISTERS)
    (gethostname : string) (dbg : bool) (device : Device) (known : list Setting) :
  exists flag added,
    snd (check_feature_settings _F _R gethostname dbg device known)
    = Ok (flag, known ++ added)
    /\ (forall s, In s added -> ~ In (name s) (map name known))
    /\ NoDup (map name added)
    /\ snd (check_feature_settings _F _R gethostname dbg device (known ++ added))
       = Ok (flag, known ++ added).
Proof.
  unfold check_feature_settings.
  pose proof (fun k => check_feature_settings_in_snd dbg (_SETTINGS_TABLE _F _R gethostname)
                                                     device k) as Hsnd.
  destruct (is_None (features device) || negb (online device)) eqn:Hgate.
  - exists false, []. rewrite app_nil_r, Hsnd, ?Hgate.
    split; [reflexivity|]. split; [intros s []|]. split; [apply NoDup_nil|reflexivity].
  - destruct (protocol_below_2 device) eqn:Hp.
    + exists false, []. rewrite app_nil_r, Hsnd, ?Hgate, ?Hp.
      split; [reflexivity|]. split; [intros s []|]. split; [apply NoDup_nil|reflexivity].
    + assert (Hfs : exists fs, features device = Some fs).
      { destruct (features device) as [fs|]; [eauto|discriminate Hgate]. }
      destruct Hfs as [fs Hfs].
      destruct (after_rows_added device fs Hfs (_SETTINGS_TABLE _F _R gethostname) known
                  (SETTINGS_TABLE_well_named _F _R gethostname))
        as (added & Eq & Hnew & Hnd).
      exists true, added. rewrite !Hsnd, ?Hgate, ?Hp, <- Eq.
      rewrite (after_rows_idempotent device fs Hfs _ known
                 (SETTINGS_TABLE_well_named _F _R gethostname)).
      split; [reflexivity|]. split; [exact Hnew|]. split; [exact Hnd|reflexivity].
Qed.

Lemma rows_skipped_by_name_witness :
  let device :=
    sample_device [FN_INVERSION FEATURE_sample; NEW_FN_INVERSION FEATURE_sample]
                  (Some (45 # 10)) no_reply in
  exists l,
    snd (check_feature_settings FEATURE_sample REGISTERS_sample "host" false device [])
    = Ok (true, l)
    /\ NoDup (map name l).
Proof.
  intros device.
  destruct (rows_skipped_by_name FEATURE_sample REGISTERS_sample "host" false device
              [FN_INVERSION FEATURE_sample; NEW_FN_INVERSION FEATURE_sample] [])
    as (_ & l & Hl & Hnd & _).
  - reflexivity.
  - reflexivity.
  - reflexivity.
  - apply NoDup_nil.
  - exists l. exact (conj Hl Hnd).
Defined.

(** C6, as stated, fails on a device that advertises FN_INVERSION and
    NEW_FN_INVERSION: the list is empty, so it holds no key; the row
    [new_fn_swap] has an advertised feature; it is not probed, because the
    setting of the row [fn_swap] has its name, fn-swap. *)
Lemma new_fn_swap_row_not_probed :
  let fs := [FN_INVERSION FEATURE_sample; NEW_FN_INVERSION FEATURE_sample] in
  let device := sample_device fs (Some (45 # 10)) no_reply in
  let run := check_feature_settings FEATURE_sample REGISTERS_sample "host" false device [] in
  In ("fn-swap", Some (NEW_FN_INVERSION FEATURE_sample),
      Some (_feature_new_fn_swap FEATURE_sample), None, "new_fn_swap")
     (_SETTINGS_TABLE FEATURE_sample REGISTERS_sample "host")
  /\ In (NEW_FN_INVERSION FEATURE_sample) fs
  /\ fst run = [ev_call (FN_INVERSION FEATURE_sample) "fn-swap"]
  /\ snd run = Ok (true, [_feature_fn_swap FEATURE_sample tt]).
Proof.
  cbv zeta. split; [|split; [|split]].
  - do 8 right. left. reflexivity.
  - right. left. reflexivity.
  - reflexivity.
  - reflexivity.
Qed.

(** ** The gate of the protocol version *)

Lemma protocol_below_2_iff (device : Device) :
  protocol_below_2 device = true
  <-> exists p, protocol device = Some p /\ ~ (p == 0)%Q /\ (p < 2)%Q.
Proof.
  unfold protocol_below_2. destruct (protocol device) as [p|].
  - rewrite andb_true_iff, !negb_true_iff. split.
    + intros [H0 H2]. exists p. split; [reflexivity|]. split.
      * intros E. apply Qeq_bool_iff in E. rewrite E in H0. discriminate.
      * apply Qnot_le_lt. intros E. apply Qle_bool_iff in E. rewrite E in H2. discriminate.
    + intros (q & Hq & H0 & H2). inversion Hq. subst q. split.
      * destruct (Qeq_bool p 0) eqn:E; [|reflexivity].
        exfalso. apply H0. apply Qeq_bool_iff. exact E.
      * destruct (Qle_bool 2 p) eqn:E; [|reflexivity].
        exfalso. apply Qle_bool_iff in E. exact (Qlt_not_le _ _ H2 E).
  - split; [discriminate|]. intros (p & Hp & _). discriminate.
Qed.

(** C8, as amended. When the device has no features, is offline, or has a
    protocol version that is known (neither [None] nor 0) and below 2.0,
    [check_feature_settings] returns [False], probes nothing and adds
    nothing. A device is probed only when it is online, has features, and
    its protocol version is unknown ([None] or 0) or at least 2.0. *)
Theorem discovery_gate (_F : FEATURE) (_R : REGISTERS) (gethostname : string) (dbg : bool)
    (device : Device) (known : list Setting) :
  (features device = None \/ online device = false
   \/ (exists p, protocol device = Some p /\ ~ (p == 0)%Q /\ (p < 2)%Q) ->
   check_feature_settings _F _R gethostname dbg device known = ([], Ok (false, known)))
  /\ (forall featureId n,
         In (ev_call featureId n)
            (fst (check_feature_settings _F _R gethostname dbg device known)) ->
         features device <> None /\ online device = true
         /\ (protocol device = None
             \/ exists p, protocol device = Some p /\ ((p == 0)%Q \/ (2 <= p)%Q))).
Proof.
  split.
  - intros H. unfold check_feature_settings, check_feature_settings_in.
    destruct (is_None (features device) || negb (online device)) eqn:Hgate; [reflexivity|].
    destruct H as [H|[H|H]].
    + rewrite H in Hgate. discriminate.
    + rewrite H, orb_true_r in Hgate. discriminate.
    + apply protocol_below_2_iff in H. rewrite H. reflexivity.
  - intros featureId n Hin. unfold check_feature_settings in Hin.
    rewrite check_feature_settings_in_fst in Hin.
    destruct (features device) as [fs|]; [|destruct Hin]. cbn [is_None orb] in Hin.
    destruct (online device); [|destruct Hin]. cbn [negb] in Hin.
    split; [discriminate|]. split; [reflexivity|].
    unfold protocol_below_2 in Hin. destruct (protocol device) as [p|]; [|left; reflexivity].
    right. exists p. split; [reflexivity|].
    destruct (Qeq_bool p 0) eqn:E0.
    + left. apply Qeq_bool_iff. exact E0.
    + destruct (Qle_bool 2 p) eqn:E2; [|destruct Hin].
      right. apply Qle_bool_iff. exact E2.
Qed.

Lemma discovery_gate_witness :
  check_feature_settings FEATURE_sample REGISTERS_sample "host" false
    (sample_device [HI_RES_SCROLLING FEATURE_sample] (Some 1%Q) no_reply) []
  = ([], Ok (false, [])).
Proof.
  apply (proj1 (discovery_gate FEATURE_sample REGISTERS_sample "host" false
                  (sample_device [HI_RES_SCROLLING FEATURE_sample] (Some 1%Q) no_reply) [])).
  right. right. exists 1%Q. split; [reflexivity|]. split.
  - discriminate.
  - reflexivity.
Defined.

(** C8, as stated, fails for a device whose protocol version is unknown: with
    the version 0, which is below 2.0, and with the version [None], the
    device is probed and gets a setting. *)
Lemma unknown_protocol_is_probed :
  let run p :=
    check_feature_settings FEATURE_sample REGISTERS_sample "host" false
      (sample_device [HI_RES_SCROLLING FEATURE_sample] p no_reply) [] in
  (0 < 2)%Q
  /\ run (Some 0%Q)
     = ([ev_call (HI_RES_SCROLLING FEATURE_sample) "hi-res-scroll"],
        Ok (true, [_feature_hi_res_scroll FEATURE_sample tt]))
  /\ run None
     = ([ev_call (HI_RES_SCROLLING FEATURE_sample) "hi-res-scroll"],
        Ok (true, [_feature_hi_res_scroll FEATURE_sample tt])).
Proof.
  cbv zeta. split; [reflexivity|]. split; reflexivity.
Qed.

(** ** Multiplatform *)

Section OneDescriptor.

Variables platform os_flags low high : Z.

(** Once the platform has a choice, the other OS bits add nothing. *)
Lemma visit_platform_known (oss : list (string * Z)) (choices : NamedInts) :
  NamedInts_contains_int platform choices = true ->
  fold_left (multiplatform_visit [(platform, os_flags, low, high)]) oss choices = choices.
Proof.
  intros Hknown. induction oss as [|[os_name os_bit] oss IH]; [reflexivity|].
  cbn [fold_left]. unfold multiplatform_visit at 2. cbn [fold_left].
  rewrite Hknown. cbn [negb]. rewrite andb_false_r. cbn [andb]. exact IH.
Qed.

Lemma visit_first_match (oss : list (string * Z)) :
  fold_left (multiplatform_visit [(platform, os_flags, low, high)]) oss NamedInts_empty
  = match find (fun o => negb (Z.land (snd o) os_flags =? 0)) oss with
    | Some (os_name, _) =>
        mkNamedInts [mkNamedInt platform (os_name ++ _str_os_versions low high)%string]
    | None => NamedInts_empty
    end.
Proof.
  induction oss as [|[os_name os_bit] oss IH]; [reflexivity|].
  cbn [fold_left find snd]. unfold multiplatform_visit at 2. cbn [fold_left].
  destruct (Z.land os_bit os_flags =? 0); cbn [negb andb].
  - exact IH.
  - cbn [NamedInts_contains_int NamedInts_contains_str NamedInts_empty ni_values existsb
         negb andb NamedInts_setitem app].
    apply visit_platform_known.
    cbn [NamedInts_contains_int ni_values existsb ni_value].
    rewrite Z.eqb_refl. reflexivity.
Qed.

Lemma multiplatform_choices_single :
  multiplatform_choices [(platform, os_flags, low, high)]
  = match find (fun o => negb (Z.land (snd o) os_flags =? 0)) OSS with
    | Some (os_name, _) =>
        mkNamedInts [mkNamedInt platform (os_name ++ _str_os_versions low high)%string]
    | None => NamedInts_empty
    end.
Proof. exact (visit_first_match OSS). Qed.

End OneDescriptor.

(** C9, as amended. For a reply with the settable flag and one descriptor,
    the multiplatform callback gives one choice however many entries of the
    table [OSS] the bitmap of the descriptor matches: the platform of the
    descriptor, named after the first matching entry in the order of the
    table (and no setting when no entry matches), because an entry is
    skipped when the platform has a choice already. *)
Theorem multiplatform_single_descriptor (_F : FEATURE) (device : Device)
    (flags ignored : Z) (infos_rest d : bytes) (platform ignored' os_flags low high : Z) :
  feature_request device (MULTIPLATFORM _F) 0x00 [] = Ok (Some (flags :: ignored :: 1 :: infos_rest)) ->
  Z.land flags 0x02 <> 0 ->
  feature_request device (MULTIPLATFORM _F) 0x10 [0] = Ok (Some d) ->
  _unpack [fmt_B; fmt_B; fmt_H; fmt_H; fmt_H] (slice d 0 8)
  = Ok [platform; ignored'; os_flags; low; high] ->
  _feature_multiplatform_callback _F device
  = Ok (match find (fun o => negb (Z.land (snd o) os_flags =? 0)) OSS with
        | Some (os_name, _) =>
            ret_validator
              (_ChoicesV
                 (Some (mkNamedInts
                          [mkNamedInt platform (os_name ++ _str_os_versions low high)%string]))
                 None (Some 6) (Some [0xff]))
        | None => ret_None
        end).
Proof.
  intros Hinfos Hflags Hd Hunpack. unfold _feature_multiplatform_callback.
  rewrite Hinfos. cbn [rbind reply_bool py_assert].
  change (slice (flags :: ignored :: 1 :: infos_rest) 0 3) with [flags; ignored; 1].
  unfold _unpack at 1.
  cbn [skipn firstn List.length fold_right fmt_size Nat.add Nat.eqb rbind unpack_fields].
  rewrite !bytes2int_1.
  apply Z.eqb_neq in Hflags. rewrite Hflags.
  change (seq 0 (Z.to_nat 1)) with [O]. cbn [read_descriptors].
  change (Z.of_nat 0) with 0. rewrite Hd. cbn [rbind].
  rewrite Hunpack. cbn [rbind read_descriptors app].
  rewrite multiplatform_choices_single.
  destruct (find (fun o => negb (Z.land (snd o) os_flags =? 0)) OSS) as [[os_name os_bit]|];
    reflexivity.
Qed.

Lemma multiplatform_single_descriptor_witness :
  _feature_multiplatform_callback FEATURE_sample
    (sample_device [MULTIPLATFORM FEATURE_sample] (Some (45 # 10))
       (multiplatform_request [0x02; 0; 1] [1; 0; 0x21; 0x00; 0x0A; 0x00; 0x0A; 0x0F; 0; 0]))
  = Ok (ret_validator
          (_ChoicesV (Some (mkNamedInts [mkNamedInt 1 "MacOS 10-10.15"]))
                     None (Some 6) (Some [0xff]))).
Proof.
  apply (multiplatform_single_descriptor FEATURE_sample
           (sample_device [MULTIPLATFORM FEATURE_sample] (Some (45 # 10))
              (multiplatform_request [0x02; 0; 1]
                                     [1; 0; 0x21; 0x00; 0x0A; 0x00; 0x0A; 0x0F; 0; 0]))
           0x02 0 [] [1; 0; 0x21; 0x00; 0x0A; 0x00; 0x0A; 0x0F; 0; 0]
           1 0 0x2100 0x0A00 0x0A0F).
  - reflexivity.
  - discriminate.
  - reflexivity.
  - reflexivity.
Defined.

(** C9, as stated, fails: the reply has the settable flag and one descriptor
    whose bitmap, 0x2400, matches the two entries Linux and MacOS of the
    table, and the callback gives one choice, not two. *)
Lemma multiplatform_two_bits_one_choice :
  let device :=
    sample_device [MULTIPLATFORM FEATURE_sample] (Some (45 # 10))
      (multiplatform_request [0x02; 0; 1] [1; 0; 0x24; 0x00; 0; 0; 0; 0; 0; 0]) in
  map fst (filter (fun o => negb (Z.land (snd o) 0x2400 =? 0)) OSS) = ["Linux"; "MacOS"]
  /\ _feature_multiplatform_callback FEATURE_sample device
     = Ok (ret_validator
             (_ChoicesV (Some (mkNamedInts [mkNamedInt 1 "Linux"]))
                        None (Some 6) (Some [0xff]))).
Proof.
  split; reflexivity.
Qed.

(** * Further properties *)

(** ** The DPI list: when the resolver raises *)

Lemma filter_all {A : Type} (p : A -> bool) (l : list A) :
  forallb p l = true -> filter p l = l.
Proof.
  induction l as [|x l IH]; [reflexivity|].
  cbn [forallb filter]. intros H. apply andb_true_iff in H. destruct H as [Hx Hl].
  rewrite Hx, IH by exact Hl. reflexivity.
Qed.

(** The values before the terminator are literals, or a first step value
    comes after literals. *)
Lemma dpi_first_step (pre : list Z) :
  Forall (fun x => x <> 0) pre ->
  forallb dpi_literal pre = true
  \/ exists l1 v l2,
       pre = l1 ++ v :: l2 /\ forallb dpi_literal l1 = true /\ Z.shiftr v 13 = 7.
Proof.
  induction 1 as [|x pre Hx _ IH]; [left; reflexivity|].
  destruct (dpi_value_cases x Hx) as [Hs|Hl].
  - right. exists [], x, pre. auto.
  - destruct IH as [IH|(l1 & v & l2 & -> & Hl1 & Hv)].
    + left. cbn [forallb]. rewrite Hl, IH. reflexivity.
    + right. exists (x :: l1), v, l2. cbn [forallb app]. rewrite Hl, Hl1. auto.
Qed.

(** X1. On a reply that unpacks, the resolver raises exactly when the values
    before the terminator are inconsistent; otherwise it returns. *)
Theorem dpi_resolver_raises_iff (_F : FEATURE) (device : Device) (reply : bytes)
    (pre post : list Z) :
  feature_request device (ADJUSTABLE_DPI _F) 0x10 [] = Ok (Some reply) ->
  _unpack (repeat fmt_H 7) (slice reply 1 15) = Ok (pre ++ post) ->
  Forall (fun x => x <> 0) pre ->
  dpi_terminated post ->
  (dpi_inconsistent pre <-> exists e, _feature_adjustable_dpi_callback _F device = Raise e).
Proof.
  intros Hreply Hunpack Hnz Hpost.
  rewrite (dpi_callback_on_reply _ _ _ _ Hreply Hunpack). split.
  - intros Hbad. destruct (dpi_inconsistent_raises pre post Hnz Hpost Hbad) as (msg & ->).
    eauto.
  - intros (e & He).
    destruct (dpi_first_step pre Hnz) as [Hlit|(l1 & v & l2 & Hpre & Hl1 & Hv)].
    { rewrite dpi_loop_literals, dpi_loop_end in He by assumption.
      cbn [rbind fst snd dpi_list_expand] in He. discriminate. }
    subst pre.
    destruct (Nat.eq_dec (List.length (filter dpi_literal l1)) 1) as [Hlen|Hlen];
      [|left; exists l1, v, l2; auto].
    apply Forall_app in Hnz. destruct Hnz as [_ Hnz]. inversion Hnz as [|? ? _ Hnz2]; subst.
    destruct (dpi_first_step l2 Hnz2) as [Hl2|(m1 & w & m2 & -> & _ & Hw)];
      [|right; left; exists l1, v, m1, w, m2; auto].
    rewrite (filter_all _ _ Hl1) in Hlen.
    destruct l1 as [|lit [|? ?]]; try discriminate Hlen.
    cbn [forallb] in Hl1. rewrite andb_true_r in Hl1.
    cbn [app] in He. rewrite dpi_loop_literal in He by exact Hl1.
    rewrite dpi_loop_step in He by exact Hv.
    cbn [app is_None List.length Nat.eqb andb py_assert rbind] in He.
    rewrite dpi_loop_literals, dpi_loop_end in He by assumption.
    cbn [rbind fst snd dpi_list_expand app] in He.
    destruct (Z.land v 8191 =? 0) eqn:Hstep; [discriminate He|].
    right. right. exists v. split; [right; left; reflexivity|]. split; [exact Hv|].
    split; [apply Z.eqb_neq; exact Hstep|].
    cbn [app filter]. rewrite Hl1, (step_not_literal v Hv), (filter_all _ _ Hl2).
    cbn [List.length]. intros Hlen2.
    destruct l2 as [|last [|? ?]]; try discriminate Hlen2.
    cbn [List.length Nat.eqb py_assert rbind] in He. discriminate He.
Qed.

Lemma dpi_resolver_raises_iff_witness :
  exists e,
    _feature_adjustable_dpi_callback FEATURE_sample
      (sample_device [ADJUSTABLE_DPI FEATURE_sample] (Some (45 # 10))
                     (dpi_request (dpi_reply [0xE0C8; 800; 3200; 0; 0; 0; 0])))
    = Raise e.
Proof.
  apply (proj1 (dpi_resolver_raises_iff FEATURE_sample
                  (sample_device [ADJUSTABLE_DPI FEATURE_sample] (Some (45 # 10))
                     (dpi_request (dpi_reply [0xE0C8; 800; 3200; 0; 0; 0; 0])))
                  (dpi_reply [0xE0C8; 800; 3200; 0; 0; 0; 0])
                  [0xE0C8; 800; 3200] [0; 0; 0; 0] eq_refl eq_refl
                  ltac:(repeat constructor; discriminate) eq_refl)).
  left. exists [], 0xE0C8, [800; 3200]. repeat split. discriminate.
Defined.

(** X2. When the device does not answer the DPI list request (no reply, or an
    empty one), the callback fails its first assertion; [check_feature] logs
    the error and returns [None]. *)
Theorem dpi_callback_without_reply (_F : FEATURE) (dbg : bool) (device : Device)
    (fs : list Z) (reply : option bytes) :
  features device = Some fs ->
  In (ADJUSTABLE_DPI _F) fs ->
  feature_request device (ADJUSTABLE_DPI _F) 0x10 [] = Ok reply ->
  reply = None \/ reply = Some [] ->
  _feature_adjustable_dpi_callback _F device
  = Raise (AssertionError "Oops, DPI list cannot be retrieved!")
  /\ check_feature dbg device "dpi" (ADJUSTABLE_DPI _F) (_feature_adjustable_dpi _F)
     = ([ev_call (ADJUSTABLE_DPI _F) "dpi";
         ev_error (ADJUSTABLE_DPI _F) (AssertionError "Oops, DPI list cannot be retrieved!")],
        Ok None).
Proof.
  intros Hfs Hin Hreply Hno.
  assert (Hcb : _feature_adjustable_dpi_callback _F device
                = Raise (AssertionError "Oops, DPI list cannot be retrieved!")).
  { unfold _feature_adjustable_dpi_callback. rewrite Hreply.
    destruct Hno as [-> | ->]; reflexivity. }
  split; [exact Hcb|].
  apply (check_feature_on_raise dbg device fs); [exact Hfs|exact Hin|].
  unfold Setting_call. cbn [_feature_adjustable_dpi new_setting _DPI _callback].
  rewrite Hcb. reflexivity.
Qed.

Lemma dpi_callback_without_reply_witness :
  _feature_adjustable_dpi_callback FEATURE_sample
    (sample_device [ADJUSTABLE_DPI FEATURE_sample] (Some (45 # 10)) (dpi_request []))
  = Raise (AssertionError "Oops, DPI list cannot be retrieved!").
Proof.
  apply (proj1 (dpi_callback_without_reply FEATURE_sample false
                  (sample_device [ADJUSTABLE_DPI FEATURE_sample] (Some (45 # 10))
                                 (dpi_request []))
                  [ADJUSTABLE_DPI FEATURE_sample] (Some [])
                  eq_refl (or_introl eq_refl) eq_refl (or_intror eq_refl))).
Defined.

(** X3. Whatever the device answers, a DPI callback that returns gives
    [None] or a choices validator on three bytes over a list of DPI values
    that is not empty; it never gives the empty list or empty choices. *)
Theorem dpi_callback_result_shape (_F : FEATURE) (device : Device) (r : CallbackReturn) :
  _feature_adjustable_dpi_callback _F device = Ok r ->
  r = ret_None
  \/ exists dpi_list,
       dpi_list <> []
       /\ r = ret_validator (_ChoicesV (Some (NamedInts_list dpi_list)) (Some 3) None None).
Proof.
  unfold _feature_adjustable_dpi_callback. intros H.
  destruct (feature_request device (ADJUSTABLE_DPI _F) 16 []) as [reply|e];
    [|discriminate H].
  cbn [rbind] in H.
  destruct (py_assert (reply_bool reply) "Oops, DPI list cannot be retrieved!");
    [|discriminate H].
  cbn [rbind] in H.
  destruct (_unpack (repeat fmt_H 7)
              (slice match reply with Some r0 => r0 | None => [] end 1 (1 + 14)))
    as [vals|e]; [|discriminate H].
  cbn [rbind] in H.
  destruct (dpi_list_loop vals [] None) as [[dl st]|e]; [|discriminate H].
  cbn [rbind] in H.
  destruct (dpi_list_expand dl st) as [l|e]; [|discriminate H].
  cbn [rbind] in H. inversion H. subst r.
  destruct l as [|x l]; [left; reflexivity|].
  right. exists (x :: l). split; [discriminate|reflexivity].
Qed.

Lemma dpi_callback_result_shape_witness :
  ret_validator (_ChoicesV (Some (NamedInts_list [400; 800])) (Some 3) None None) = ret_None
  \/ exists dpi_list,
       dpi_list <> []
       /\ ret_validator (_ChoicesV (Some (NamedInts_list [400; 800])) (Some 3) None None)
          = ret_validator (_ChoicesV (Some (NamedInts_list dpi_list)) (Some 3) None None).
Proof.
  apply (dpi_callback_result_shape FEATURE_sample
           (sample_device [ADJUSTABLE_DPI FEATURE_sample] (Some (45 # 10))
                          (dpi_request (dpi_reply [400; 800; 0; 0; 0; 0; 0])))).
  reflexivity.
Defined.

(** ** Smart shift: what the reader returns *)

(** X4. For every reply of bytes, however short, the smart-shift reader
    returns one byte between 0 and 50, the range of the validator of the
    setting; it raises only when there is no reply. *)
Theorem smart_shift_read_in_range (feature : Z) (device : Device) (value : bytes) :
  feature_request device feature 0x00 [] = Ok (Some value) ->
  Forall is_byte value ->
  exists threshold,
    _SmartShiftRW_read feature device = Ok [threshold]
    /\ _MIN_SMART_SHIFT_VALUE <= threshold <= _MAX_SMART_SHIFT_VALUE.
Proof.
  intros Hreply Hbytes.
  unfold _SmartShiftRW_read, FeatureRW_read. rewrite Hreply. cbn [rbind].
  unfold _SmartShiftRW_read_value, _MIN_SMART_SHIFT_VALUE, _MAX_SMART_SHIFT_VALUE.
  destruct (_bytes2int (slice value 0 1) =? 1).
  - exists 0. split; [reflexivity|lia].
  - assert (Ht : 0 <= _bytes2int (slice value 1 2)).
    { destruct value as [|m [|t rest]]; try (cbv; discriminate).
      unfold slice. cbn [Nat.sub skipn firstn]. rewrite bytes2int_1.
      inversion Hbytes as [|? ? _ Hb]; subst. inversion Hb as [|? ? Ht _]; subst.
      unfold is_byte in Ht. lia. }
    exists (Z.min (_bytes2int (slice value 1 2)) 50).
    rewrite int2bytes_1, byte_mod by lia. split; [reflexivity|lia].
Qed.

Lemma smart_shift_read_in_range_witness :
  exists threshold,
    _SmartShiftRW_read (SMART_SHIFT FEATURE_sample)
      (sample_device [SMART_SHIFT FEATURE_sample] (Some (45 # 10)) (smart_shift_request [2]))
    = Ok [threshold]
    /\ 0 <= threshold <= 50.
Proof.
  apply (smart_shift_read_in_range (SMART_SHIFT FEATURE_sample)
           (sample_device [SMART_SHIFT FEATURE_sample] (Some (45 # 10))
                          (smart_shift_request [2])) [2] eq_refl).
  repeat constructor; unfold is_byte; lia.
Defined.

(** ** Disabled keys and reprogrammable keys *)

Lemma land_bit (mask : Z) (i : nat) :
  (Z.land mask (Z.shiftl 1 (Z.of_nat i)) =? 0) = negb (Z.testbit mask (Z.of_nat i)).
Proof.
  rewrite Z.shiftl_1_l.
  assert (Hi : 0 <= Z.of_nat i) by lia.
  destruct (Z.testbit mask (Z.of_nat i)) eqn:Hbit; cbn [negb].
  - apply Z.eqb_neq. intros H0.
    assert (Hb : Z.testbit (Z.land mask (2 ^ Z.of_nat i)) (Z.of_nat i) = true).
    { rewrite Z.land_spec, Hbit, Z.pow2_bits_true by exact Hi. reflexivity. }
    rewrite H0, Z.bits_0 in Hb. discriminate.
  - apply Z.eqb_eq. apply Z.bits_inj'. intros n Hn.
    rewrite Z.land_spec, Z.bits_0, Z.pow2_bits_eqb by exact Hi.
    destruct (Z.eqb_spec (Z.of_nat i) n) as [<-|_].
    + rewrite Hbit. reflexivity.
    + apply andb_false_r.
Qed.

(** X5. The callback of the disabled keys indexes the reply: without a reply
    it raises [TypeError], with an empty one [IndexError]. Otherwise its
    options are exactly the keys [1 << i], for [i] below 8, whose bit is set
    in the first byte of the reply: a key that the device does not report is
    never an option, and there is no setting when no bit is set. *)
Theorem disable_keys_options (_F : FEATURE) (device : Device) (reply : option bytes) :
  feature_request device (KEYBOARD_DISABLE_KEYS _F) 0x00 [] = Ok reply ->
  match reply with
  | None => _feature_disable_keyboard_keys_callback _F device = Raise TypeError
  | Some [] => _feature_disable_keyboard_keys_callback _F device = Raise IndexError
  | Some (mask :: _) =>
      exists options,
        _feature_disable_keyboard_keys_callback _F device
        = Ok (match options with
              | [] => ret_None
              | _ => ret_validator (_BitFieldV options)
              end)
        /\ forall o,
             In o options
             <-> exists i, (i < 8)%nat /\ o = 2 ^ Z.of_nat i
                           /\ Z.testbit mask (Z.of_nat i) = true
  end.
Proof.
  intros Hreply. unfold _feature_disable_keyboard_keys_callback. rewrite Hreply.
  destruct reply as [[|mask rest]|]; [reflexivity| |reflexivity].
  cbn [rbind].
  exists (map (fun i => Z.shiftl 1 (Z.of_nat i))
              (filter (fun i => negb (Z.land mask (Z.shiftl 1 (Z.of_nat i)) =? 0)) (seq 0 8))).
  split.
  - destruct (map _ _); reflexivity.
  - intros o. rewrite in_map_iff. split.
    + intros (i & Ho & Hi). apply filter_In in Hi. destruct Hi as [Hi Hbit].
      apply in_seq in Hi. rewrite land_bit, negb_involutive in Hbit.
      exists i. rewrite <- Ho, Z.shiftl_1_l. split; [lia|]. split; [reflexivity|exact Hbit].
    + intros (i & Hi & Ho & Hbit). exists i. rewrite Z.shiftl_1_l. split; [auto|].
      apply filter_In. split; [apply in_seq; lia|].
      rewrite land_bit, negb_involutive. exact Hbit.
Qed.

Lemma disable_keys_options_witness :
  _feature_disable_keyboard_keys_callback FEATURE_sample
    (sample_device [KEYBOARD_DISABLE_KEYS FEATURE_sample] (Some (45 # 10)) no_reply)
  = Raise TypeError.
Proof.
  apply (disable_keys_options FEATURE_sample
           (sample_device [KEYBOARD_DISABLE_KEYS FEATURE_sample] (Some (45 # 10)) no_reply)
           None eq_refl).
Defined.

Lemma dict_get_set {V : Type} (d : list (Z * V)) (k k' : Z) (v : V) :
  dict_get (dict_set d k v) k' = if k =? k' then Some v else dict_get d k'.
Proof.
  induction d as [|[k0 v0] d IH]; cbn [dict_set dict_get].
  - reflexivity.
  - destruct (Z.eqb_spec k0 k) as [->|Hne]; cbn [dict_get].
    + destruct (k =? k'); reflexivity.
    + rewrite IH. destruct (Z.eqb_spec k0 k') as [<-|_]; [|reflexivity].
      destruct (Z.eqb_spec k k0) as [->|_]; [contradiction|reflexivity].
Qed.

Lemma dict_set_keys {V : Type} (d : list (Z * V)) (k : Z) (v : V) :
  NoDup (map fst d) -> NoDup (map fst (dict_set d k v)).
Proof.
  induction d as [|[k0 v0] d IH]; cbn [dict_set map fst]; intros Hnd.
  - constructor; [intros []|constructor].
  - inversion Hnd as [|? ? Hk0 Hd]; subst.
    destruct (Z.eqb_spec k0 k) as [->|Hne]; cbn [map fst].
    + constructor; assumption.
    + constructor; [|apply IH; exact Hd].
      intros Hin. apply Hk0. clear - Hin Hne.
      induction d as [|[k1 v1] d IHd]; cbn [dict_set map fst] in *.
      * destruct Hin as [E|[]]. congruence.
      * destruct (Z.eqb_spec k1 k) as [->|_]; cbn [map fst] in Hin.
        -- destruct Hin as [E|Hin]; [congruence|right; exact Hin].
        -- destruct Hin as [E|Hin]; [left; exact E|right; apply IHd; exact Hin].
Qed.

(** The loop of the reprogrammable keys, from any dictionary. *)
Lemma reprog_loop (ks : list ReprogKey) :
  forall choices,
    NoDup (map fst choices) ->
    let choices' :=
      fold_left (fun choices k =>
                   let tgts := remappable_to k in
                   if (1 <? List.length tgts)%nat then dict_set choices (key k) tgts
                   else choices) ks choices in
    NoDup (map fst choices')
    /\ (forall k tgts,
           dict_get choices' k = Some tgts ->
           dict_get choices k = Some tgts
           \/ exists rk, In rk ks /\ key rk = k /\ remappable_to rk = tgts
                         /\ (1 < List.length tgts)%nat)
    /\ (forall rk, In rk ks -> (1 < List.length (remappable_to rk))%nat ->
                   dict_get choices' (key rk) <> None)
    /\ (forall k, dict_get choices k <> None -> dict_get choices' k <> None).
Proof.
  induction ks as [|rk0 ks IH]; intros choices Hnd; cbn [fold_left].
  - cbv zeta. split; [exact Hnd|]. split; [auto|]. split; [intros rk []|auto].
  - cbv zeta.
    destruct (1 <? List.length (remappable_to rk0))%nat eqn:Hlen.
    + destruct (IH (dict_set choices (key rk0) (remappable_to rk0))
                   (dict_set_keys choices _ _ Hnd)) as (H1 & H2 & H3 & H4).
      split; [exact H1|]. split; [|split].
      * intros k tgts Hget. destruct (H2 k tgts Hget) as [Hset|(rk & Hin & Hrk)].
        -- rewrite dict_get_set in Hset.
           destruct (Z.eqb_spec (key rk0) k) as [E|_]; [|left; exact Hset].
           right. exists rk0. inversion Hset. subst tgts.
           apply Nat.ltb_lt in Hlen.
           split; [left; reflexivity|]. split; [exact E|]. split; [reflexivity|exact Hlen].
        -- right. exists rk. split; [right; exact Hin|exact Hrk].
      * intros rk [<-|Hin] Hrk.
        -- apply H4. rewrite dict_get_set, Z.eqb_refl. discriminate.
        -- apply H3; assumption.
      * intros k Hk. apply H4. rewrite dict_get_set.
        destruct (key rk0 =? k); [discriminate|exact Hk].
    + destruct (IH choices Hnd) as (H1 & H2 & H3 & H4).
      split; [exact H1|]. split; [|split; [|exact H4]].
      * intros k tgts Hget. destruct (H2 k tgts Hget) as [Hc|(rk & Hin & Hrk)];
          [left; exact Hc|].
        right. exists rk. split; [right; exact Hin|exact Hrk].
      * intros rk [<-|Hin] Hrk.
        -- apply Nat.ltb_lt in Hrk. rewrite Hrk in Hlen. discriminate.
        -- apply H3; assumption.
Qed.

(** X6. The choices of the reprogrammable keys hold exactly the keys of the
    device that can be remapped to more than one target, each once, with the
    targets of such a key; a device without such a key gets no setting. *)
Theorem reprogrammable_keys_choices (device : Device) :
  exists choices,
    _feature_reprogrammable_keys_callback device
    = Ok (match choices with
          | [] => ret_None
          | _ => ret_validator (_ChoicesMapV choices 2 2 1 [0x00] 0)
          end)
    /\ NoDup (map fst choices)
    /\ (forall k tgts,
           dict_get choices k = Some tgts ->
           exists rk, In rk (keys device) /\ key rk = k /\ remappable_to rk = tgts
                      /\ (1 < List.length tgts)%nat)
    /\ (forall rk, In rk (keys device) -> (1 < List.length (remappable_to rk))%nat ->
                   dict_get choices (key rk) <> None)
    /\ (choices = []
        <-> forall rk, In rk (keys device) -> (List.length (remappable_to rk) <= 1)%nat).
Proof.
  unfold _feature_reprogrammable_keys_callback.
  destruct (reprog_loop (keys device) [] (NoDup_nil _)) as (H1 & H2 & H3 & _).
  cbv zeta in H1, H2, H3.
  set (choices := fold_left _ (keys device) []) in *.
  exists choices. split; [destruct choices; reflexivity|]. split; [exact H1|].
  split; [|split; [exact H3|]].
  - intros k tgts Hget. destruct (H2 k tgts Hget) as [Hc|H]; [discriminate Hc|exact H].
  - split.
    + intros E rk Hin. destruct (Nat.le_gt_cases (List.length (remappable_to rk)) 1) as [Hle|Hgt];
        [exact Hle|].
      exfalso. apply (H3 rk Hin Hgt). rewrite E. reflexivity.
    + intros Hall. destruct choices as [|[k tgts] choices']; [reflexivity|].
      exfalso. destruct (H2 k tgts) as [Hc|(rk & Hin & _ & Htg & Hlen)].
      * cbn [dict_get]. rewrite Z.eqb_refl. reflexivity.
      * discriminate Hc.
      * specialize (Hall rk Hin). rewrite Htg in Hall. lia.
Qed.

(** ** Change host *)

Lemma setitem_fold {A : Type} (f : NamedInts -> A -> NamedInts) (v : A -> Z)
    (n : A -> string) (l : list A) :
  (forall c x, f c x = NamedInts_setitem c (v x) (n x)) ->
  forall c,
    fold_left f l c = mkNamedInts (ni_values c ++ map (fun x => mkNamedInt (v x) (n x)) l).
Proof.
  intros Hf. induction l as [|x l IH]; intros c; cbn [fold_left map].
  - rewrite app_nil_r. destruct c. reflexivity.
  - rewrite IH, Hf. unfold NamedInts_setitem. cbn [ni_values].
    rewrite <- app_assoc. reflexivity.
Qed.

(** X7. The change-host callback gives one choice per host, numbered from 0
    in order, and no setting for a device without hosts. A host is labelled
    by its number plus one, followed by a colon and its name when it has
    one; its name is the stored one, and for the current host without a
    stored name the name of the local machine up to its first dot. *)
Theorem change_host_choices (_F : FEATURE) (gethostname : string) (device : Device)
    (numHosts currentHost : Z) (rest : bytes) :
  feature_request device (CHANGE_HOST _F) 0x00 []
  = Ok (Some (numHosts :: currentHost :: rest)) ->
  let stored host :=
    match dict_get (match get_host_names device with Some h => h | None => [] end) host with
    | Some (_, hostName) => hostName
    | None => ""
    end in
  let hostName host :=
    if (currentHost =? host) && String.eqb (stored host) ""
    then partition_dot_head gethostname else stored host in
  let choice host :=
    mkNamedInt host (if String.eqb (hostName host) "" then str (host + 1)
                     else (str (host + 1) ++ ":" ++ hostName host)%string) in
  let choices := map (fun i => choice (Z.of_nat i)) (seq 0 (Z.to_nat numHosts)) in
  _feature_change_host_callback _F gethostname device
  = Ok (match choices with
        | [] => ret_None
        | _ => ret_validator (_ChoicesV (Some (mkNamedInts choices)) None (Some 1) None)
        end)
  /\ map ni_value choices = map Z.of_nat (seq 0 (Z.to_nat numHosts)).
Proof.
  intros Hreply stored hostName choice choices. split.
  - unfold _feature_change_host_callback. rewrite Hreply.
    cbn [rbind reply_bool py_assert].
    change (slice (numHosts :: currentHost :: rest) 0 2) with [numHosts; currentHost].
    unfold _unpack.
    cbn [List.length fold_right fmt_size Nat.add Nat.eqb rbind unpack_fields firstn skipn].
    rewrite !bytes2int_1.
    set (names := match get_host_names device with Some h => h | None => [] end) in *.
    set (names' := match dict_get names currentHost with
                   | Some (_, n) =>
                       if String.eqb n ""
                       then dict_set names currentHost (true, partition_dot_head gethostname)
                       else names
                   | None => dict_set names currentHost (true, partition_dot_head gethostname)
                   end).
    assert (Hnames : forall host,
               match dict_get names' host with Some v => v | None => (false, "") end
               = (fst match dict_get names' host with Some v => v | None => (false, "") end,
                  hostName host)).
    { intros host. unfold hostName, stored, names'.
      destruct (dict_get names currentHost) as [[b n]|] eqn:Hcur.
      - destruct (String.eqb n "") eqn:Hn.
        + rewrite dict_get_set. destruct (Z.eqb_spec currentHost host) as [<-|_].
          * rewrite Hcur, Hn. reflexivity.
          * cbn [andb]. destruct (dict_get names host) as [[b' n']|]; reflexivity.
        + destruct (Z.eqb_spec currentHost host) as [<-|_].
          * rewrite Hcur, Hn. reflexivity.
          * cbn [andb]. destruct (dict_get names host) as [[b' n']|]; reflexivity.
      - rewrite dict_get_set. destruct (Z.eqb_spec currentHost host) as [<-|_].
        + rewrite Hcur. reflexivity.
        + cbn [andb]. destruct (dict_get names host) as [[b' n']|]; reflexivity. }
    rewrite (setitem_fold _ (fun i => Z.of_nat i) (fun i => ni_name (choice (Z.of_nat i)))).
    + cbn [NamedInts_empty ni_values app]. fold choices.
      unfold NamedInts_bool. cbn [ni_values].
      change (map (fun x => mkNamedInt (Z.of_nat x) (ni_name (choice (Z.of_nat x))))
                  (seq 0 (Z.to_nat numHosts))) with choices.
      destruct choices; reflexivity.
    + intros c i. cbv zeta. rewrite (Hnames (Z.of_nat i)). reflexivity.
  - unfold choices. rewrite map_map. reflexivity.
Qed.

Lemma change_host_choices_witness :
  _feature_change_host_callback FEATURE_sample "box.local"
    (mkDevice (Some [CHANGE_HOST FEATURE_sample]) true (Some (45 # 10))
              (fun _ _ _ => Ok (Some [3; 1; 0])) [] (Some [(0, (false, "desk"))])
              (Ok ([], [])))
  = Ok (ret_validator
          (_ChoicesV (Some (mkNamedInts [mkNamedInt 0 "1:desk"; mkNamedInt 1 "2:box";
                                         mkNamedInt 2 "3"]))
                     None (Some 1) None)).
Proof.
  apply (proj1 (change_host_choices FEATURE_sample "box.local"
                  (mkDevice (Some [CHANGE_HOST FEATURE_sample]) true (Some (45 # 10))
                            (fun _ _ _ => Ok (Some [3; 1; 0])) []
                            (Some [(0, (false, "desk"))]) (Ok ([], [])))
                  3 1 [0] eq_refl)).
Defined.

(** ** Multiplatform: versions, flags and choices *)

(** X8. An OS version holds the major number above its low byte and the
    minor number in it: version 0 prints as nothing, a version with a minor
    number as major.minor, another version as its major number. A range of
    versions prints as nothing exactly when both ends are 0; otherwise it is
    a space, the low end, a dash and the high end, where an end at 0 prints
    as nothing and leaves the dash. *)
Theorem str_os_version_format (major minor low high : Z) :
  0 <= major -> 0 <= minor < 256 ->
  _str_os_version (major * 256 + minor)
  = (if (major =? 0) && (minor =? 0) then ""
     else if minor =? 0 then str major
     else (str major ++ "." ++ str minor)%string)
  /\ (_str_os_versions low high = "" <-> low = 0 /\ high = 0)
  /\ (low <> 0 \/ high <> 0 ->
      _str_os_versions low high
      = (" " ++ _str_os_version low ++ "-" ++ _str_os_version high)%string)
  /\ (high <> 0 -> _str_os_versions 0 high = (" -" ++ _str_os_version high)%string)
  /\ (low <> 0 -> _str_os_versions low 0 = (" " ++ _str_os_version low ++ "-")%string).
Proof.
  intros Hmajor Hminor.
  assert (Hhi : Z.shiftr (major * 256 + minor) 8 = major).
  { rewrite Z.shiftr_div_pow2 by lia. change (2 ^ 8) with 256.
    rewrite Z.div_add_l by lia. rewrite Z.div_small by lia. lia. }
  assert (Hlo : Z.land (major * 256 + minor) 255 = minor).
  { change 255 with (Z.ones 8). rewrite Z.land_ones by lia. change (2 ^ 8) with 256.
    rewrite Z.add_comm, Z.mod_add by lia. apply Z.mod_small. exact Hminor. }
  assert (Hrange : forall l h,
             l <> 0 \/ h <> 0 ->
             _str_os_versions l h
             = (" " ++ _str_os_version l ++ "-" ++ _str_os_version h)%string).
  { intros l h Hnz. unfold _str_os_versions.
    destruct (Z.eqb_spec l 0) as [El|El]; [|reflexivity].
    destruct (Z.eqb_spec h 0) as [Eh|Eh]; [|reflexivity].
    exfalso. destruct Hnz; contradiction. }
  split; [|split; [|split; [apply Hrange|split]]].
  - unfold _str_os_version. rewrite Hhi, Hlo.
    destruct (Z.eqb_spec minor 0) as [->|Hm].
    + rewrite Z.add_0_r, andb_true_r.
      destruct (Z.eqb_spec major 0) as [->|HM]; [reflexivity|].
      destruct (Z.eqb_spec (major * 256) 0); [lia|reflexivity].
    + rewrite andb_false_r.
      destruct (Z.eqb_spec (major * 256 + minor) 0); [lia|reflexivity].
  - split.
    + intros Hempty. destruct (Z.eq_dec low 0) as [El|El].
      * destruct (Z.eq_dec high 0) as [Eh|Eh]; [split; assumption|].
        exfalso. pose proof (Hrange low high (or_intror Eh)) as H.
        rewrite Hempty in H. discriminate H.
      * exfalso. pose proof (Hrange low high (or_introl El)) as H.
        rewrite Hempty in H. discriminate H.
    + intros [-> ->]. reflexivity.
  - intros Hh. rewrite Hrange by (right; exact Hh). reflexivity.
  - intros Hl. rewrite Hrange by (left; exact Hl). reflexivity.
Qed.

Lemma str_os_version_format_witness :
  _str_os_version (10 * 256 + 15) = "10.15"
  /\ _str_os_versions 0 0x0B00 = " -11"
  /\ _str_os_versions (10 * 256 + 15) 0 = " 10.15-".
Proof.
  destruct (str_os_version_format 10 15 0 0x0B00) as (H1 & _ & _ & H4 & _); [lia|lia|].
  destruct (str_os_version_format 10 15 (10 * 256 + 15) 0) as (_ & _ & _ & _ & H5);
    [lia|lia|].
  split; [exact H1|]. split.
  - rewrite H4 by discriminate. reflexivity.
  - rewrite H5 by discriminate. reflexivity.
Defined.

(** X9. When the settable flag of the header is not set, the multiplatform
    callback returns the empty list without reading a descriptor, whatever
    the count of descriptors and whatever the device would answer for them. *)
Theorem multiplatform_not_settable (_F : FEATURE) (device : Device)
    (flags ignored num_descriptors : Z) (rest : bytes) :
  feature_request device (MULTIPLATFORM _F) 0x00 []
  = Ok (Some (flags :: ignored :: num_descriptors :: rest)) ->
  Z.land flags 0x02 = 0 ->
  _feature_multiplatform_callback _F device = Ok ret_empty_list.
Proof.
  intros Hinfos Hflags. unfold _feature_multiplatform_callback.
  rewrite Hinfos. cbn [rbind reply_bool py_assert].
  change (slice (flags :: ignored :: num_descriptors :: rest) 0 3)
    with [flags; ignored; num_descriptors].
  unfold _unpack.
  cbn [skipn firstn List.length fold_right fmt_size Nat.add Nat.eqb rbind unpack_fields].
  rewrite !bytes2int_1, Hflags. reflexivity.
Qed.

Lemma multiplatform_not_settable_witness :
  _feature_multiplatform_callback FEATURE_sample
    (sample_device [MULTIPLATFORM FEATURE_sample] (Some (45 # 10))
       (fun _ function _ => if function =? 0 then Ok (Some [0x01; 0; 2])
                            else Raise (DeviceError "no answer")))
  = Ok ret_empty_list.
Proof.
  apply (multiplatform_not_settable FEATURE_sample
           (sample_device [MULTIPLATFORM FEATURE_sample] (Some (45 # 10))
              (fun _ function _ => if function =? 0 then Ok (Some [0x01; 0; 2])
                                   else Raise (DeviceError "no answer")))
           0x01 0 2 []); reflexivity.
Defined.

Lemma fold_left_invariant {A B : Type} (P : A -> Prop) (f : A -> B -> A) (l : list B) :
  (forall a b, In b l -> P a -> P (f a b)) ->
  forall a, P a -> P (fold_left f l a).
Proof.
  induction l as [|b l IH]; intros Hf a Ha; [exact Ha|].
  cbn [fold_left]. apply IH.
  - intros a' b' Hb'. apply Hf. right. exact Hb'.
  - apply Hf; [left; reflexivity|exact Ha].
Qed.

Lemma contains_int_In (value : Z) (c : NamedInts) :
  NamedInts_contains_int value c = false -> ~ In value (map ni_value (ni_values c)).
Proof.
  unfold NamedInts_contains_int. intros H Hin. apply in_map_iff in Hin.
  destruct Hin as (n & Hn & Hin).
  assert (E : existsb (fun n => ni_value n =? value) (ni_values c) = true).
  { apply existsb_exists. exists n. split; [exact Hin|apply Z.eqb_eq; exact Hn]. }
  rewrite E in H. discriminate.
Qed.

Lemma contains_str_In (value : string) (c : NamedInts) :
  NamedInts_contains_str value c = false -> ~ In value (map ni_name (ni_values c)).
Proof.
  unfold NamedInts_contains_str. intros H Hin. apply in_map_iff in Hin.
  destruct Hin as (n & Hn & Hin).
  assert (E : existsb (fun n => String.eqb (ni_name n) value) (ni_values c) = true).
  { apply existsb_exists. exists n. split; [exact Hin|apply String.eqb_eq; exact Hn]. }
  rewrite E in H. discriminate.
Qed.

(** X10. Whatever the descriptors, the choices of the multiplatform callback
    hold no platform twice and no name twice, and every choice is the
    platform of a descriptor named after an entry of [OSS] whose bit is set
    in the bitmap of that descriptor, with the versions of the descriptor. *)
Theorem multiplatform_choices_distinct (descriptors : list descriptor) :
  let choices := ni_values (multiplatform_choices descriptors) in
  NoDup (map ni_value choices)
  /\ NoDup (map ni_name choices)
  /\ forall c,
       In c choices ->
       exists os_name os_bit platform os_flags low high,
         In (os_name, os_bit) OSS
         /\ In (platform, os_flags, low, high) descriptors
         /\ Z.land os_bit os_flags <> 0
         /\ c = mkNamedInt platform (os_name ++ _str_os_versions low high)%string.
Proof.
  cbv zeta. unfold multiplatform_choices.
  apply (fold_left_invariant
           (fun c => NoDup (map ni_value (ni_values c))
                     /\ NoDup (map ni_name (ni_values c))
                     /\ forall x, In x (ni_values c) ->
                          exists os_name os_bit platform os_flags low high,
                            In (os_name, os_bit) OSS
                            /\ In (platform, os_flags, low, high) descriptors
                            /\ Z.land os_bit os_flags <> 0
                            /\ x = mkNamedInt platform
                                     (os_name ++ _str_os_versions low high)%string)).
  - intros c [os_name os_bit] Hos Hc. unfold multiplatform_visit.
    apply (fold_left_invariant
             (fun c => NoDup (map ni_value (ni_values c))
                       /\ NoDup (map ni_name (ni_values c))
                       /\ forall x, In x (ni_values c) ->
                            exists os_name os_bit platform os_flags low high,
                              In (os_name, os_bit) OSS
                              /\ In (platform, os_flags, low, high) descriptors
                              /\ Z.land os_bit os_flags <> 0
                              /\ x = mkNamedInt platform
                                       (os_name ++ _str_os_versions low high)%string));
      [|exact Hc].
    clear c Hc. intros c [[[platform os_flags] low] high] Hd (Hv & Hn & Hfrom).
    cbv zeta.
    destruct (Z.land os_bit os_flags =? 0) eqn:Hbit; cbn [negb andb]; [auto|].
    destruct (NamedInts_contains_int platform c) eqn:Hp; cbn [negb andb]; [auto|].
    destruct (NamedInts_contains_str (os_name ++ _str_os_versions low high) c) eqn:Hs;
      cbn [negb]; [auto|].
    unfold NamedInts_setitem. cbn [ni_values]. rewrite !map_app. cbn [map ni_value ni_name].
    split; [apply NoDup_snoc; [exact Hv|apply contains_int_In; exact Hp]|].
    split; [apply NoDup_snoc; [exact Hn|apply contains_str_In; exact Hs]|].
    intros x Hx. apply in_app_or in Hx. destruct Hx as [Hx|[<-|[]]]; [auto|].
    exists os_name, os_bit, platform, os_flags, low, high.
    apply Z.eqb_neq in Hbit. auto.
  - cbn. split; [constructor|]. split; [constructor|]. intros x [].
Qed.

(** ** Negotiation: one setting, and the whole table *)

Lemma find_name_none (n : string) (l : list Setting) :
  known_by_name n l = false -> find (fun s => String.eqb (name s) n) l = None.
Proof.
  unfold known_by_name. induction l as [|s l IH]; [reflexivity|].
  cbn [existsb find]. destruct (String.eqb (name s) n); [discriminate|exact IH].
Qed.

Lemma find_app_none {A : Type} (p : A -> bool) (l l' : list A) :
  find p l = None -> find p (l ++ l') = find p l'.
Proof.
  induction l as [|x l IH]; [reflexivity|].
  cbn [find app]. destruct (p x); [discriminate|exact IH].
Qed.

Lemma row_setting_inv (device : Device) (fs : list Z) (row : Row) (s : Setting) :
  features device = Some fs ->
  row_setting device row = Some s ->
  exists featureId featureFn,
    row_featureId row = Some featureId /\ row_featureFn row = Some featureFn
    /\ featureId <> 0 /\ In featureId fs
    /\ Setting_call (featureFn tt) device = Ok (Some s).
Proof.
  intros Hfs. unfold row_setting. rewrite Hfs.
  destruct (row_featureId row) as [featureId|]; [|discriminate].
  destruct (row_featureFn row) as [featureFn|]; [|discriminate].
  destruct (featureId =? 0) eqn:Ez; [discriminate|]. cbn [negb andb].
  destruct (existsb (Z.eqb featureId) fs) eqn:Ex; [|discriminate].
  destruct (Setting_call (featureFn tt) device) as [[s'|]|e] eqn:Ecall; try discriminate.
  intros H. inversion H. subst s'.
  exists featureId, featureFn. apply Z.eqb_neq in Ez.
  apply existsb_exists in Ex. destruct Ex as (x & Hx & Ex). apply Z.eqb_eq in Ex. subst x.
  split; [reflexivity|]. split; [reflexivity|]. split; [exact Ez|].
  split; [exact Hx|exact Ecall].
Qed.

Section OneSetting.

Variable dbg : bool.
Variable device : Device.
Variable fs : list Z.
Hypothesis Hfs : features device = Some fs.

Lemma check_feature_snd (n : string) (featureId : Z) (featureFn : unit -> Setting)
    (registerFn : option RegisterFn) (identifier : string) :
  featureId <> 0 ->
  snd (check_feature dbg device n featureId featureFn)
  = Ok (row_setting device (n, Some featureId, Some featureFn, registerFn, identifier)).
Proof.
  intros Hnz. rewrite (check_feature_eq dbg device fs Hfs). unfold row_setting.
  cbn [row_featureId row_featureFn]. rewrite Hfs.
  apply Z.eqb_neq in Hnz. rewrite Hnz. cbn [negb andb].
  destruct (existsb (Z.eqb featureId) fs); [|reflexivity].
  destruct (Setting_call (featureFn tt) device) as [[s|]|e]; reflexivity.
Qed.

Lemma after_row_no_setting (known : list Setting) (row : Row) :
  row_setting device row = None -> after_row device known row = known.
Proof.
  intros H. unfold after_row. rewrite H.
  destruct (known_by_name (row_name row) known); reflexivity.
Qed.

(** A row of another name leaves the list without a setting of the name. *)
Lemma after_row_other_name (n : string) (known : list Setting) (row : Row) :
  row_well_named row = true ->
  known_by_name n known = false ->
  String.eqb (row_name row) n = false ->
  known_by_name n (after_row device known row) = false.
Proof.
  intros Hwn Hknown Hname.
  destruct (after_row_extends device known row) as (added & -> & Hadded).
  rewrite known_by_name_app, Hknown. cbn [orb].
  unfold known_by_name. destruct (existsb _ added) eqn:E; [|reflexivity].
  apply existsb_exists in E. destruct E as (s & Hs & Es).
  destruct (Hadded s Hs) as [Hrow _].
  rewrite (row_setting_well_named device fs Hfs row s Hwn Hrow), Hname in Es. discriminate.
Qed.

Lemma check_feature_setting_in_snd (n : string) (table : list Row) :
  forall known,
    forallb row_well_named table = true ->
    known_by_name n known = false ->
    snd (check_feature_setting_in dbg table device n)
    = Ok (find (fun s => String.eqb (name s) n) (fold_left (after_row device) table known)).
Proof.
  induction table as [|row table IH]; intros known Hwn Hknown.
  - cbn [check_feature_setting_in fold_left mret snd]. rewrite find_name_none by exact Hknown.
    reflexivity.
  - cbn [forallb] in Hwn. apply andb_true_iff in Hwn. destruct Hwn as [Hrow Hwn].
    cbn [fold_left].
    assert (Hskip : after_row device known row = known
                    \/ String.eqb (row_name row) n = false ->
                    snd (check_feature_setting_in dbg table device n)
                    = Ok (find (fun s => String.eqb (name s) n)
                               (fold_left (after_row device) table
                                          (after_row device known row)))).
    { intros [E|E].
      - rewrite E. apply IH; assumption.
      - apply IH; [exact Hwn|]. apply after_row_other_name; assumption. }
    destruct row as [[[[rn featureId] featureFn] registerFn] identifier].
    cbn [check_feature_setting_in].
    destruct featureId as [featureId|];
      [|apply Hskip; left; apply after_row_no_setting; reflexivity].
    destruct featureFn as [featureFn|];
      [|apply Hskip; left; apply after_row_no_setting; reflexivity].
    destruct (String.eqb rn n) eqn:En; cbn [andb]; [|apply Hskip; right; exact En].
    destruct (Z.eqb_spec featureId 0) as [Ez|Ez]; cbn [negb].
    { apply Hskip. left. apply after_row_no_setting. unfold row_setting.
      cbn [row_featureId row_featureFn]. rewrite Hfs. subst featureId. reflexivity. }
    apply String.eqb_eq in En. subst rn.
    rewrite (snd_mbind _ _ _ (check_feature_snd n featureId featureFn registerFn identifier Ez)).
    unfold after_row at 2. cbn [row_name]. rewrite Hknown.
    destruct (row_setting device (n, Some featureId, Some featureFn, registerFn, identifier))
      as [s|] eqn:Es.
    + destruct (after_rows_extends device table (known ++ [s])) as (added & ->).
      rewrite <- !app_assoc, find_app_none by (apply find_name_none; exact Hknown).
      cbn [app find].
      rewrite (row_setting_well_named device fs Hfs _ s Hrow Es). cbn [row_name].
      rewrite String.eqb_refl. reflexivity.
    + apply IH; assumption.
Qed.

(** What a run adds comes from rows of the table, in their order. *)
Lemma after_rows_from_rows (table : list Row) :
  forall known,
    exists rows added,
      fold_left (after_row device) table known = known ++ added
      /\ subseq rows table
      /\ Forall2 (fun row s => row_setting device row = Some s) rows added.
Proof.
  induction table as [|row table IH]; intros known.
  - exists [], []. rewrite app_nil_r. repeat constructor.
  - cbn [fold_left]. unfold after_row at 2.
    destruct (known_by_name (row_name row) known).
    + destruct (IH known) as (rows & added & E & Hsub & Hall).
      exists rows, added. split; [exact E|]. split; [constructor; exact Hsub|exact Hall].
    + destruct (row_setting device row) as [s|] eqn:Es.
      * destruct (IH (known ++ [s])) as (rows & added & E & Hsub & Hall).
        exists (row :: rows), (s :: added). rewrite E, <- app_assoc.
        split; [reflexivity|]. split; constructor; assumption.
      * destruct (IH known) as (rows & added & E & Hsub & Hall).
        exists rows, added. split; [exact E|]. split; [constructor; exact Hsub|exact Hall].
Qed.

End OneSetting.

(** X11. On a device that passes the gates of [check_feature_settings], for
    a name that no setting of the list carries, [check_feature_setting]
    returns the setting of that name that [check_feature_settings] adds to
    the list, and [None] when it adds none. *)
Theorem check_feature_setting_agrees (_F : FEATURE) (_R : REGISTERS) (gethostname : string)
    (dbg : bool) (device : Device) (fs : list Z) (known : list Setting) (n : string) :
  features device = Some fs ->
  online device = true ->
  protocol_below_2 device = false ->
  ~ In n (map name known) ->
  exists l,
    snd (check_feature_settings _F _R gethostname dbg device known) = Ok (true, l)
    /\ snd (check_feature_setting _F _R gethostname dbg device n)
       = Ok (find (fun s => String.eqb (name s) n) l).
Proof.
  intros Hfs Hon Hp Hn.
  exists (fold_left (after_row device) (_SETTINGS_TABLE _F _R gethostname) known).
  unfold check_feature_settings, check_feature_setting.
  rewrite check_feature_settings_in_snd, Hfs, Hon, Hp. cbn [is_None negb orb].
  split; [reflexivity|].
  apply (check_feature_setting_in_snd dbg device fs Hfs);
    [apply SETTINGS_TABLE_well_named|].
  destruct (known_by_name n known) eqn:E; [|reflexivity].
  exfalso. apply Hn. apply known_by_name_In. exact E.
Qed.

Lemma check_feature_setting_agrees_witness :
  snd (check_feature_setting FEATURE_sample REGISTERS_sample "host" false
         (sample_device [K375S_FN_INVERSION FEATURE_sample] (Some (45 # 10)) no_reply)
         "fn-swap")
  = Ok (Some (_feature_k375s_fn_swap FEATURE_sample tt)).
Proof.
  destruct (check_feature_setting_agrees FEATURE_sample REGISTERS_sample "host" false
              (sample_device [K375S_FN_INVERSION FEATURE_sample] (Some (45 # 10)) no_reply)
              [K375S_FN_INVERSION FEATURE_sample] [] "fn-swap"
              eq_refl eq_refl eq_refl (fun H => H)) as (l & Hl & Hone).
  rewrite Hone. inversion Hl. reflexivity.
Defined.

(** X12. [check_feature_setting] has no gate of its own: on a device without
    feature metadata it raises [TypeError] as soon as the table has a row of
    that name with a feature, and it returns [None] for a name that no row
    with a feature carries; in both cases no constructor is called. *)
Theorem check_feature_setting_without_features (dbg : bool) (table : list Row)
    (device : Device) (n : string) :
  features device = None ->
  check_feature_setting_in dbg table device n
  = ([],
     if existsb (fun row =>
                   String.eqb (row_name row) n
                   && match row_featureId row, row_featureFn row with
                      | Some featureId, Some _ => negb (featureId =? 0)
                      | _, _ => false
                      end) table
     then Raise TypeError else Ok None).
Proof.
  intros Hfs. induction table as [|row table IH]; [reflexivity|].
  destruct row as [[[[rn featureId] featureFn] registerFn] identifier].
  cbn [check_feature_setting_in existsb row_name row_featureId row_featureFn].
  destruct featureId as [featureId|]; [|rewrite andb_false_r; exact IH].
  destruct featureFn as [featureFn|]; [|rewrite andb_false_r; exact IH].
  destruct (String.eqb rn n && negb (featureId =? 0)); [|exact IH].
  unfold check_feature, in_features. rewrite Hfs. reflexivity.
Qed.

Lemma check_feature_setting_without_features_witness :
  check_feature_setting FEATURE_sample REGISTERS_sample "host" false
    (mkDevice None true (Some (45 # 10)) no_reply [] None (Ok ([], []))) "dpi"
  = ([], Raise TypeError)
  /\ check_feature_setting FEATURE_sample REGISTERS_sample "host" false
       (mkDevice None true (Some (45 # 10)) no_reply [] None (Ok ([], []))) "hand-detection"
     = ([], Ok None).
Proof.
  split.
  - apply (check_feature_setting_without_features false
             (_SETTINGS_TABLE FEATURE_sample REGISTERS_sample "host")
             (mkDevice None true (Some (45 # 10)) no_reply [] None (Ok ([], []))) "dpi"
             eq_refl).
  - apply (check_feature_setting_without_features false
             (_SETTINGS_TABLE FEATURE_sample REGISTERS_sample "host")
             (mkDevice None true (Some (45 # 10)) no_reply [] None (Ok ([], [])))
             "hand-detection" eq_refl).
Defined.

(** X13. Over any table, what [check_feature_settings] appends to the list
    comes from rows of the table, one setting per row and in the order of
    the rows: each is the setting that the constructor of its row yields on
    the device, for a row whose feature the device advertises. *)
Theorem check_feature_settings_sound (dbg : bool) (table : list Row) (device : Device)
    (fs : list Z) (known l : list Setting) :
  features device = Some fs ->
  snd (check_feature_settings_in dbg table device known) = Ok (true, l) ->
  exists rows added,
    l = known ++ added
    /\ subseq rows table
    /\ Forall2 (fun row s =>
                  exists featureId featureFn,
                    row_featureId row = Some featureId /\ row_featureFn row = Some featureFn
                    /\ featureId <> 0 /\ In featureId fs
                    /\ Setting_call (featureFn tt) device = Ok (Some s))
               rows added.
Proof.
  intros Hfs Hrun. rewrite check_feature_settings_in_snd in Hrun.
  destruct (is_None (features device) || negb (online device)); [discriminate Hrun|].
  destruct (protocol_below_2 device); [discriminate Hrun|].
  inversion Hrun as [Hl]. clear Hrun Hl.
  destruct (after_rows_from_rows device table known) as (rows & added & E & Hsub & Hall).
  exists rows, added. split; [exact E|]. split; [exact Hsub|].
  clear E Hsub. induction Hall as [|row s rows added Hrow _ IH]; constructor; [|exact IH].
  apply (row_setting_inv device fs row s Hfs Hrow).
Qed.

Lemma check_feature_settings_sound_witness :
  exists rows added,
    [_feature_hi_res_scroll FEATURE_sample tt; _feature_pointer_speed FEATURE_sample tt]
    = [] ++ added
    /\ subseq rows (_SETTINGS_TABLE FEATURE_sample REGISTERS_sample "host")
    /\ List.length rows = List.length added.
Proof.
  destruct (check_feature_settings_sound false
              (_SETTINGS_TABLE FEATURE_sample REGISTERS_sample "host")
              (sample_device [HI_RES_SCROLLING FEATURE_sample; POINTER_SPEED FEATURE_sample]
                             (Some (45 # 10)) no_reply)
              [HI_RES_SCROLLING FEATURE_sample; POINTER_SPEED FEATURE_sample] []
              [_feature_hi_res_scroll FEATURE_sample tt;
               _feature_pointer_speed FEATURE_sample tt]
              eq_refl eq_refl) as (rows & added & E & Hsub & Hall).
  exists rows, added. split; [exact E|]. split; [exact Hsub|].
  exact (Forall2_length Hall).
Defined.

(** X14. On a device that passes the gates, every row of the table whose
    feature is advertised and whose constructor yields a setting is
    represented after the run: the list holds a setting of the name of the
    row. *)
Theorem check_feature_settings_complete (_F : FEATURE) (_R : REGISTERS)
    (gethostname : string) (dbg : bool) (device : Device) (fs : list Z)
    (known : list Setting) (row : Row) (featureId : Z) (featureFn : unit -> Setting)
    (s : Setting) :
  features device = Some fs ->
  online device = true ->
  protocol_below_2 device = false ->
  In row (_SETTINGS_TABLE _F _R gethostname) ->
  row_featureId row = Some featureId -> row_featureFn row = Some featureFn ->
  featureId <> 0 -> In featureId fs ->
  Setting_call (featureFn tt) device = Ok (Some s) ->
  exists l,
    snd (check_feature_settings _F _R gethostname dbg device known) = Ok (true, l)
    /\ In (row_name row) (map name l).
Proof.
  intros Hfs Hon Hp Hin Hid Hfn Hnz Hadv Hcall.
  exists (fold_left (after_row device) (_SETTINGS_TABLE _F _R gethostname) known).
  unfold check_feature_settings.
  rewrite check_feature_settings_in_snd, Hfs, Hon, Hp. cbn [is_None negb orb].
  split; [reflexivity|]. apply known_by_name_In.
  destruct (after_rows_settled device fs Hfs (_SETTINGS_TABLE _F _R gethostname) known row
              (SETTINGS_TABLE_well_named _F _R gethostname) Hin) as [H|H]; [exact H|].
  rewrite (row_setting_eq device fs row featureId featureFn Hfs Hid Hfn Hnz Hadv), Hcall in H.
  discriminate H.
Qed.

Lemma check_feature_settings_complete_witness :
  exists l,
    snd (check_feature_settings FEATURE_sample REGISTERS_sample "host" false
           (sample_device [DUALPLATFORM FEATURE_sample] (Some (45 # 10)) no_reply) [])
    = Ok (true, l)
    /\ In "multiplatform" (map name l).
Proof.
  apply (check_feature_settings_complete FEATURE_sample REGISTERS_sample "host" false
           (sample_device [DUALPLATFORM FEATURE_sample] (Some (45 # 10)) no_reply)
           [DUALPLATFORM FEATURE_sample] []
           (_S _PLATFORM (Some (DUALPLATFORM FEATURE_sample))
               (Some (_feature_dualplatform FEATURE_sample)) None (Some "dualplatform"))
           (DUALPLATFORM FEATURE_sample) (_feature_dualplatform FEATURE_sample)
           (_feature_dualplatform FEATURE_sample tt)
           eq_refl eq_refl eq_refl).
  - do 17 right. left. reflexivity.
  - reflexivity.
  - reflexivity.
  - discriminate.
  - left. reflexivity.
  - reflexivity.
Defined.

(** ** The table and its constructors *)

(** X15. Every row of [_SETTINGS_TABLE] has a constructor, and a feature
    exactly when it has a feature constructor. The setting that a feature
    constructor builds has the name of its row, a reader/writer on the
    feature of its row, and a validator or a callback but not both. A
    register constructor builds a setting of the name of its row with a
    register reader/writer, a validator and no callback. *)
Theorem SETTINGS_TABLE_consistent (_F : FEATURE) (_R : REGISTERS) (gethostname : string)
    (row : Row) :
  In row (_SETTINGS_TABLE _F _R gethostname) ->
  (row_featureFn row <> None \/ row_registerFn row <> None)
  /\ (row_featureId row = None <-> row_featureFn row = None)
  /\ (forall featureFn,
         row_featureFn row = Some featureFn ->
         name (featureFn tt) = row_name row
         /\ rw_feature (_rw (featureFn tt)) = row_featureId row
         /\ validator_xor_callback (featureFn tt) = true)
  /\ (forall registerFn,
         row_registerFn row = Some registerFn ->
         forall choices,
           let s := match registerFn with
                    | register_fn f => f tt
                    | register_fn_choices f => f choices
                    end in
           name s = row_name row
           /\ (exists register, _rw s = _RegisterRW register)
           /\ _validator s <> None
           /\ _callback s = None).
Proof.
  intros Hin. unfold _SETTINGS_TABLE in Hin.
  repeat (destruct Hin as [<-|Hin];
          [(split; [first [left; discriminate|right; discriminate]|]);
           (split; [split; first [reflexivity|discriminate]|]);
           (split; [intros f Hf; first [discriminate Hf
                                       |inversion Hf; subst f; repeat split]
                   |intros f Hf choices;
                    first [discriminate Hf
                          |inversion Hf; subst f;
                           split; [reflexivity|];
                           split; [eexists; reflexivity|];
                           split; [discriminate|reflexivity]]])|]).
  destruct Hin.
Qed.

Lemma SETTINGS_TABLE_consistent_witness :
  rw_feature (_rw (_feature_smart_shift FEATURE_sample tt)) = Some (SMART_SHIFT FEATURE_sample)
  /\ validator_xor_callback (_feature_smart_shift FEATURE_sample tt) = true
  /\ _validator (_register_side_scroll REGISTERS_sample tt) <> None
  /\ _callback (_register_side_scroll REGISTERS_sample tt) = None.
Proof.
  destruct (SETTINGS_TABLE_consistent FEATURE_sample REGISTERS_sample "host"
              (_S _SMART_SHIFT (Some (SMART_SHIFT FEATURE_sample))
                  (Some (_feature_smart_shift FEATURE_sample)) None None))
    as (_ & _ & H & _).
  - do 12 right. left. reflexivity.
  - destruct (H (_feature_smart_shift FEATURE_sample) eq_refl) as (_ & Hrw & Hx).
    destruct (SETTINGS_TABLE_consistent FEATURE_sample REGISTERS_sample "host"
                (_S _SIDE_SCROLL None None
                    (Some (register_fn (_register_side_scroll REGISTERS_sample))) None))
      as (_ & _ & _ & Hreg).
    + do 2 right. left. reflexivity.
    + destruct (Hreg (register_fn (_register_side_scroll REGISTERS_sample)) eq_refl None)
        as (_ & _ & Hv & Hc).
      exact (conj Hrw (conj Hx (conj Hv Hc))).
Defined.

(** X16. The identifiers of the rows of [_SETTINGS_TABLE] are all different
    and hold no dash, so that the named tuples [FeatureSettings] and
    [RegisterSettings] have one field per row: the field named by the
    identifier of a row is the feature constructor, respectively the
    register constructor, of that row. *)
Theorem SETTINGS_LIST_fields (_F : FEATURE) (_R : REGISTERS) (gethostname : string)
    (row : Row) :
  In row (_SETTINGS_TABLE _F _R gethostname) ->
  NoDup (map row_identifier (_SETTINGS_TABLE _F _R gethostname))
  /\ replace_dash (row_identifier row) = row_identifier row
  /\ getattr (FeatureSettings _F _R gethostname) (row_identifier row)
     = Some (row_featureFn row)
  /\ getattr (RegisterSettings _F _R gethostname) (row_identifier row)
     = Some (row_registerFn row).
Proof.
  intros Hin. split.
  - cbn. repeat (constructor; [cbn; intuition discriminate|]). constructor.
  - unfold _SETTINGS_TABLE in Hin.
    repeat (destruct Hin as [<-|Hin]; [repeat split|]).
    destruct Hin.
Qed.

Lemma SETTINGS_LIST_fields_witness :
  getattr (FeatureSettings FEATURE_sample REGISTERS_sample "host") "new_fn_swap"
  = Some (Some (_feature_new_fn_swap FEATURE_sample)).
Proof.
  destruct (SETTINGS_LIST_fields FEATURE_sample REGISTERS_sample "host"
              (_S _FN_SWAP (Some (NEW_FN_INVERSION FEATURE_sample))
                  (Some (_feature_new_fn_swap FEATURE_sample)) None (Some "new_fn_swap")))
    as (_ & _ & H & _).
  - do 8 right. left. reflexivity.
  - exact H.
Defined.

(** ** Gestures *)

(** X17. The options of the gestures setting are exactly the gestures of the
    device that can be enabled or are enabled by default, and the items of
    the gesture parameters are exactly the parameters with sub-parameters,
    each paired with its own sub-parameters; a device with none of them
    gets no setting. *)
Theorem gesture2_options (device : Device) (gestures : list Gesture) (params : list Param) :
  get_gestures device = Ok (gestures, params) ->
  (exists options,
      _feature_gesture2_gestures_callback device
      = Ok (match options with
            | [] => ret_None
            | _ => ret_validator (_BitFieldOMV options)
            end)
      /\ (forall g, In g options
                    <-> In g gestures /\ (can_be_enabled g = true \/ default_enabled g = true)))
  /\ (exists items sub_items,
         _feature_gesture2_params_callback device
         = Ok (match items with
               | [] => ret_None
               | _ => ret_validator (_MultipleRangeV items sub_items)
               end)
         /\ (forall i, In i items <-> In i params /\ sub_params i <> [])
         /\ map fst sub_items = items
         /\ forall i sub, In (i, sub) sub_items -> sub = sub_params i).
Proof.
  intros Hg. split.
  - unfold _feature_gesture2_gestures_callback. rewrite Hg. cbn [rbind fst].
    exists (filter (fun g => can_be_enabled g || default_enabled g) gestures).
    split; [destruct (filter _ gestures); reflexivity|].
    intros g. rewrite filter_In, orb_true_iff. reflexivity.
  - unfold _feature_gesture2_params_callback. rewrite Hg. cbn [rbind snd].
    set (items := filter (fun i => match sub_params i with [] => false | _ => true end) params).
    exists items, (map (fun i => (i, sub_params i)) items).
    split; [destruct items; reflexivity|]. split; [|split].
    + intros i. unfold items. rewrite filter_In.
      split; intros [H1 H2]; (split; [exact H1|]).
      * destruct (sub_params i); [discriminate H2|discriminate].
      * destruct (sub_params i); [contradiction|reflexivity].
    + rewrite map_map. cbn [fst]. apply map_id.
    + intros i sub Hin. apply in_map_iff in Hin. destruct Hin as (j & E & _).
      inversion E. reflexivity.
Qed.

Lemma gesture2_options_witness :
  let device :=
    mkDevice (Some []) true None no_reply [] None
             (Ok ([mkGesture 1 false false; mkGesture 2 true false], [mkParam 1 []])) in
  exists options,
    _feature_gesture2_gestures_callback device
    = Ok (match options with
          | [] => ret_None
          | _ => ret_validator (_BitFieldOMV options)
          end)
    /\ (forall g, In g options
                  <-> In g [mkGesture 1 false false; mkGesture 2 true false]
                      /\ (can_be_enabled g = true \/ default_enabled g = true)).
Proof.
  exact (proj1 (gesture2_options
                  (mkDevice (Some []) true None no_reply [] None
                            (Ok ([mkGesture 1 false false; mkGesture 2 true false],
                                 [mkParam 1 []])))
                  [mkGesture 1 false false; mkGesture 2 true false] [mkParam 1 []] eq_refl)).
Defined.

(** ** The trace of a run *)

Lemma check_rows_trace (dbg : bool) (device : Device) (fs : list Z) (table : list Row) :
  features device = Some fs ->
  forall known ev,
    In ev (fst (check_rows dbg device table known)) ->
    exists n featureId featureFn registerFn identifier,
      In (n, Some featureId, Some featureFn, registerFn, identifier) table
      /\ featureId <> 0 /\ In featureId fs
      /\ (ev = ev_call featureId n
          \/ (dbg = true
              /\ exists detected,
                   Setting_call (featureFn tt) device = Ok detected
                   /\ ev = ev_debug featureId detected)
          \/ exists e, Setting_call (featureFn tt) device = Raise e
                       /\ ev = ev_error featureId e).
Proof.
  intros Hfs. induction table as [|row table IH]; intros known ev Hev; [destruct Hev|].
  cbn [check_rows] in Hev.
  rewrite (fst_mbind _ _ _ (check_row_snd dbg device fs Hfs row known)) in Hev.
  apply in_app_or in Hev. destruct Hev as [Hev|Hev].
  - destruct row as [[[[n featureId] featureFn] registerFn] identifier].
    destruct featureId as [featureId|]; [|destruct Hev].
    destruct featureFn as [featureFn|]; [|destruct Hev].
    rewrite (check_row_fst dbg device fs Hfs) in Hev.
    destruct (Z.eqb_spec featureId 0) as [Ez|Ez]; [destruct Hev|]. cbn [negb andb] in Hev.
    destruct (known_by_name n known); [destruct Hev|]. cbn [negb andb] in Hev.
    destruct (existsb (Z.eqb featureId) fs) eqn:Ex; [|destruct Hev].
    apply existsb_exists in Ex. destruct Ex as (x & Hx & Ex). apply Z.eqb_eq in Ex. subst x.
    exists n, featureId, featureFn, registerFn, identifier.
    split; [left; reflexivity|]. split; [exact Ez|]. split; [exact Hx|].
    destruct Hev as [<-|Hev]; [left; reflexivity|]. right.
    destruct (Setting_call (featureFn tt) device) as [detected|e].
    + destruct dbg; [|destruct Hev]. destruct Hev as [<-|[]]. left. eauto.
    + destruct Hev as [<-|[]]. right. eauto.
  - destruct (IH _ ev Hev) as (n & featureId & featureFn & registerFn & identifier & Hin & H).
    exists n, featureId, featureFn, registerFn, identifier.
    split; [right; exact Hin|exact H].
Qed.

(** X18. Every record in the trace of [check_feature_settings] is about a row
    of the table whose feature the device advertises: the call of its
    constructor, a debug record of what the constructor returned (only when
    debug logging is on), or an error record of what it raised. No error is
    logged for a constructor that did not raise. *)
Theorem check_feature_settings_trace (dbg : bool) (table : list Row) (device : Device)
    (fs : list Z) (known : list Setting) (ev : event) :
  features device = Some fs ->
  In ev (fst (check_feature_settings_in dbg table device known)) ->
  exists n featureId featureFn registerFn identifier,
    In (n, Some featureId, Some featureFn, registerFn, identifier) table
    /\ featureId <> 0 /\ In featureId fs
    /\ (ev = ev_call featureId n
        \/ (dbg = true
            /\ exists detected,
                 Setting_call (featureFn tt) device = Ok detected
                 /\ ev = ev_debug featureId detected)
        \/ exists e, Setting_call (featureFn tt) device = Raise e
                     /\ ev = ev_error featureId e).
Proof.
  intros Hfs Hev. rewrite check_feature_settings_in_fst in Hev.
  destruct (is_None (features device) || negb (online device)); [destruct Hev|].
  destruct (protocol_below_2 device); [destruct Hev|].
  apply (check_rows_trace dbg device fs table Hfs known ev Hev).
Qed.

Lemma check_feature_settings_trace_witness :
  exists n featureId featureFn registerFn identifier,
    In (n, Some featureId, Some featureFn, registerFn, identifier)
       (_SETTINGS_TABLE FEATURE_sample REGISTERS_sample "host")
    /\ featureId <> 0 /\ In featureId [ADJUSTABLE_DPI FEATURE_sample]
    /\ (ev_error (ADJUSTABLE_DPI FEATURE_sample)
                 (AssertionError "Oops, DPI list cannot be retrieved!")
        = ev_call featureId n
        \/ (false = true
            /\ exists detected,
                 Setting_call (featureFn tt)
                   (sample_device [ADJUSTABLE_DPI FEATURE_sample] (Some (45 # 10)) no_reply)
                 = Ok detected
                 /\ ev_error (ADJUSTABLE_DPI FEATURE_sample)
                             (AssertionError "Oops, DPI list cannot be retrieved!")
                    = ev_debug featureId detected)
        \/ exists e,
             Setting_call (featureFn tt)
               (sample_device [ADJUSTABLE_DPI FEATURE_sample] (Some (45 # 10)) no_reply)
             = Raise e
             /\ ev_error (ADJUSTABLE_DPI FEATURE_sample)
                         (AssertionError "Oops, DPI list cannot be retrieved!")
                = ev_error featureId e).
Proof.
  apply (check_feature_settings_trace false
           (_SETTINGS_TABLE FEATURE_sample REGISTERS_sample "host")
           (sample_device [ADJUSTABLE_DPI FEATURE_sample] (Some (45 # 10)) no_reply)
           [ADJUSTABLE_DPI FEATURE_sample] []
           (ev_error (ADJUSTABLE_DPI FEATURE_sample)
                     (AssertionError "Oops, DPI list cannot be retrieved!"))
           eq_refl).
  right. left. reflexivity.
Defined.
